(** * ReportEngine/renderers/pdf_renderer.py: the PDF renderer

    A shallow embedding of [PDFRenderer]: font selection, chart extraction,
    SVG injection into the rendered HTML and the two public entry points.

    Conventions.
    - Python [str] values are [string]s; an [ascii] stands for one character
      (code points below 256).
    - A Python call that may raise returns a [result]; the exception classes
      the module can meet are the constructors of [exn].
    - The mutable objects the module touches (the vector map, the logger, the
      file system, the layout optimizer) are threaded explicitly. *)

From Stdlib Require Import String Ascii List Bool Arith Lia.
Import ListNotations.

Local Open Scope list_scope.
Local Open Scope string_scope.

Set Implicit Arguments.
Set Warnings "-register-all".

(** ** Exceptions and results *)

Inductive exn : Type :=
| FileNotFoundError          (* raised by [_get_font_path] *)
| AttributeError             (* [.get] / [.startswith] on an object without it *)
| TypeError                  (* iterating a value that is not iterable *)
| ReError                    (* [re.error]: a bad replacement template *)
| FileExistsError            (* [mkdir] over a regular file *)
| IsADirectoryError          (* [open] of a directory *)
| NotADirectoryError         (* a regular file where a directory is needed *)
| RecursionError             (* the recursion budget ran out *)
| ExternalError (msg : string). (* raised inside a collaborator *)

Inductive result (A : Type) : Type :=
| Ok (a : A)
| Raise (e : exn).

Arguments Ok {A} a.
Arguments Raise {A} e.

Definition bind {A B} (r : result A) (k : A -> result B) : result B :=
  match r with
  | Ok a => k a
  | Raise e => Raise e
  end.

Notation "x <- c ;; k" := (bind c (fun x => k))
  (at level 61, c at next level, right associativity).

Definition is_ok {A} (r : result A) : bool :=
  match r with Ok _ => true | Raise _ => false end.

(** ** Document IR values

    The Document IR is the result of [json.loads]: [None], booleans, numbers
    (natural numbers here: of a number the module only uses its truth value
    and its identity as a dict key), strings, lists and dicts with string
    keys.  A dict is kept as its items in insertion
    order; [dict.get] finds the first binding of the key. *)

Inductive json : Type :=
| JNull
| JBool (b : bool)
| JNum (n : nat)
| JStr (s : string)
| JList (l : list json)
| JDict (d : list (string * json)).

(** [d.get(key, default)] *)
Fixpoint get_default (d : list (string * json)) (key : string) (default : json) : json :=
  match d with
  | [] => default
  | (k, v) :: d' => if String.eqb k key then v else get_default d' key default
  end.

(** [d.get(key)]: the default is [None]. *)
Definition get (d : list (string * json)) (key : string) : json :=
  get_default d key JNull.

(** [bool(v)] *)
Definition truthy (v : json) : bool :=
  match v with
  | JNull => false
  | JBool b => b
  | JNum n => negb (Nat.eqb n 0)
  | JStr s => negb (String.eqb s "")
  | JList l => match l with [] => false | _ => true end
  | JDict d => match d with [] => false | _ => true end
  end.

(** [v == s] for a string literal [s] *)
Definition eq_str (v : json) (s : string) : bool :=
  match v with
  | JStr s' => String.eqb s' s
  | _ => false
  end.

(** [v.startswith(p)]: only [str] has the method. *)
Definition startswith (v : json) (p : string) : result bool :=
  match v with
  | JStr s => Ok (String.prefix p s)
  | _ => Raise AttributeError
  end.

(** [iter(v)], as a [for] loop sees it: a list gives its elements, a string
    its characters, a dict its keys; anything else is not iterable. *)
Definition chars (s : string) : list json :=
  map (fun c => JStr (String c "")) (list_ascii_of_string s).

Definition py_iter (v : json) : result (list json) :=
  match v with
  | JList l => Ok l
  | JStr s => Ok (chars s)
  | JDict d => Ok (map (fun kv => JStr (fst kv)) d)
  | _ => Raise TypeError
  end.

(** [v.get(key, default)] on an arbitrary value: only a dict has [get]. *)
Definition obj_get_default (v : json) (key : string) (default : json) : result json :=
  match v with
  | JDict d => Ok (get_default d key default)
  | _ => Raise AttributeError
  end.

(** ** Paths and the font directory *)

(** [Path(__file__).parent / "assets" / "fonts"]; the directory of the module
    is written ["."]. *)
Definition fonts_dir : string := "./assets/fonts".

(** [Path.__truediv__] *)
Definition path_join (dir name : string) : string := dir ++ "/" ++ name.

Definition full_font : string := path_join fonts_dir "SourceHanSerifSC-Medium.otf".
Definition subset_ttf : string := path_join fonts_dir "SourceHanSerifSC-Medium-Subset.ttf".
Definition subset_otf : string := path_join fonts_dir "SourceHanSerifSC-Medium-Subset.otf".

(** Entries of the logger, in the order they are emitted. *)
Inductive level : Type := DEBUG | INFO | WARNING | ERROR.

Inductive log_msg : Type :=
| UseFullFont (p : string)
| UseSubsetTtf (p : string)
| UseSubsetOtf (p : string)
| ConverterMissing
| ChartsConverted (n : nat)
| ChartOk (widget_id : json)
| ChartEmpty (widget_id : json)
| ChartRaised (widget_id : json) (e : exn)
| CanvasReplaced (widget_id : json)
| ConfigNotFound (widget_id : json)
| LayoutOptimizing
| ChartsStart
| SvgInjected (n : nat)
| PdfStart (p : string)
| PdfDone (p : string)
| PdfFailed (e : exn).

Definition log_entry : Type := (level * log_msg)%type.

(** [_get_font_path]: [exists p] is [Path(p).exists()].  Returns the path
    chosen and the entry logged. *)
Definition _get_font_path (exists_ : string -> bool)
  : result string * list log_entry :=
  if exists_ full_font then (Ok full_font, [(INFO, UseFullFont full_font)])
  else if exists_ subset_ttf then (Ok subset_ttf, [(INFO, UseSubsetTtf subset_ttf)])
  else if exists_ subset_otf then (Ok subset_otf, [(INFO, UseSubsetOtf subset_otf)])
  else (Raise FileNotFoundError, []).

(** The candidates in their order of precedence. *)
Definition font_candidates : list string := [full_font; subset_ttf; subset_otf].

(** [PDFRenderer.__init__], as far as the chart converter goes: a font that
    cannot be found, or a converter that cannot be created, is logged as a
    warning and leaves the renderer without a converter. *)
Inductive init_msg : Type :=
| ConverterReady
| ConverterInitFailed (e : exn).

Definition __init__ {Conv : Type} (exists_ : string -> bool)
           (create_chart_converter : string -> result Conv)
  : option Conv * list log_entry * list (level * init_msg) :=
  match _get_font_path exists_ with
  | (Ok font_path, l) =>
      match create_chart_converter font_path with
      | Ok c => (Some c, l, [(INFO, ConverterReady)])
      | Raise e => (None, l, [(WARNING, ConverterInitFailed e)])
      end
  | (Raise e, l) => (None, l, [(WARNING, ConverterInitFailed e)])
  end.

(** ** The vector map

    [svg_map] is a Python dict: keys are hashable values, compared with [==]
    (so [True] and [1] are one key), kept in insertion order. *)

Definition hashable (k : json) : bool :=
  match k with
  | JList _ | JDict _ => false
  | _ => true
  end.

Definition key_eqb (k1 k2 : json) : bool :=
  match k1, k2 with
  | JNull, JNull => true
  | JStr a, JStr b => String.eqb a b
  | JBool a, JBool b => Bool.eqb a b
  | JNum a, JNum b => Nat.eqb a b
  | JBool a, JNum b | JNum b, JBool a => Nat.eqb (if a then 1 else 0) b
  | _, _ => false
  end.

Definition svg_map_t : Type := list (json * string).

(** [svg_map[k] = v]: an existing key keeps its position (and its first
    spelling), a new key goes last. *)
Fixpoint setitem (m : svg_map_t) (k : json) (v : string) : svg_map_t :=
  match m with
  | [] => [(k, v)]
  | (k', v') :: m' =>
      if key_eqb k' k then (k', v) :: m' else (k', v') :: setitem m' k v
  end.

Fixpoint lookup (m : svg_map_t) (k : json) : option string :=
  match m with
  | [] => None
  | (k', v') :: m' => if key_eqb k' k then Some v' else lookup m' k
  end.

(** ** Chart extraction

    The recursion of [_extract_and_convert_widgets] follows the nesting of the
    document, so the embedding takes a recursion budget: [None] means the
    budget was too small, never a Python outcome.  [extract_total] shows that
    the size of the document is always budget enough. *)

Definition M (S : Type) : Type := option (result S).

Definition ret {S} (s : S) : M S := Some (Ok s).
Definition raise {S} (e : exn) : M S := Some (Raise e).

Definition mbind {S T} (m : M S) (k : S -> M T) : M T :=
  match m with
  | Some (Ok s) => k s
  | Some (Raise e) => Some (Raise e)
  | None => None
  end.

Notation "x <-- c ;; k" := (mbind c (fun x => k))
  (at level 61, c at next level, right associativity).

Definition lift {S} (r : result S) : M S := Some r.

(** [for x in l: body], the state threaded through the iterations; an
    exception leaves the loop. *)
Fixpoint for_each {A S} (body : A -> S -> M S) (l : list A) (s : S) : M S :=
  match l with
  | [] => ret s
  | x :: l' => s' <-- body x s ;; for_each body l' s'
  end.

(** What the traversal changes: the vector map and the logger; [converted]
    records the blocks handed to the converter, oldest first. *)
Record xstate : Type := mk_xstate {
  svg_map : svg_map_t;
  xlog : list log_entry;
  converted : list json
}.

Definition log (lv : level) (m : log_msg) (st : xstate) : xstate :=
  mk_xstate (svg_map st) (xlog st ++ [(lv, m)])%list (converted st).

Definition called (block : json) (st : xstate) : xstate :=
  mk_xstate (svg_map st) (xlog st) (converted st ++ [block])%list.

Section Extraction.

(** [self.chart_converter.convert_widget_to_svg(block, width=800,
height=500, dpi=100)]: the SVG text, [None] (or an empty text), or an
exception. *)
Variable convert_widget_to_svg : json -> nat -> nat -> nat -> result (option string).

(** The [try] block around one conversion. *)
Definition convert_one (block widget_id : json) (st : xstate) : xstate :=
let st := called block st in
match convert_widget_to_svg block 800 500 100 with
| Ok (Some svg_content) =>
  if negb (String.eqb svg_content "") then
    if hashable widget_id then
      log DEBUG (ChartOk widget_id)
          (mk_xstate (setitem (svg_map st) widget_id svg_content)
                     (xlog st) (converted st))
    else
      (* [svg_map[widget_id] = ...] raises TypeError, caught below *)
      log ERROR (ChartRaised widget_id TypeError) st
  else log WARNING (ChartEmpty widget_id) st
| Ok None => log WARNING (ChartEmpty widget_id) st
| Raise e => log ERROR (ChartRaised widget_id e) st
end.

(** The body of the loop over [blocks], in its four steps; [rec] is the
recursive call. *)

(** [if block_type == 'widget': ...] *)
Definition do_widget (block : json) (d : list (string * json)) (st : xstate) : M xstate :=
if eq_str (get d "type") "widget" then
let widget_id := get d "widgetId" in
let widget_type := get_default d "widgetType" (JStr "") in
if truthy widget_id then
  is_chart <-- lift (startswith widget_type "chart.js") ;;
  if (is_chart : bool)
  then ret (convert_one block widget_id st)
  else ret st
else ret st
else ret st.

(** [nested_blocks = block.get('blocks')] *)
Definition do_nested (rec : list json -> xstate -> M xstate)
       (d : list (string * json)) (st : xstate) : M xstate :=
match get d "blocks" with
| JList nested_blocks => rec nested_blocks st
| _ => ret st
end.

(** [if block_type == 'list': ...] *)
Definition do_items (rec : list json -> xstate -> M xstate)
       (d : list (string * json)) (st : xstate) : M xstate :=
if eq_str (get d "type") "list" then
items <-- lift (py_iter (get_default d "items" (JList []))) ;;
for_each (fun item st =>
            match item with
            | JList item_blocks => rec item_blocks st
            | _ => ret st
            end) items st
else ret st.

(** [if block_type == 'table': ...] *)
Definition do_cell (rec : list json -> xstate -> M xstate)
       (cell : json) (st : xstate) : M xstate :=
cell_blocks <-- lift (obj_get_default cell "blocks" (JList [])) ;;
match cell_blocks with
| JList cb => rec cb st
| _ => ret st
end.

Definition do_row (rec : list json -> xstate -> M xstate)
       (row : json) (st : xstate) : M xstate :=
cells_v <-- lift (obj_get_default row "cells" (JList [])) ;;
cells <-- lift (py_iter cells_v) ;;
for_each (do_cell rec) cells st.

Definition do_table (rec : list json -> xstate -> M xstate)
       (d : list (string * json)) (st : xstate) : M xstate :=
if eq_str (get d "type") "table" then
rows <-- lift (py_iter (get_default d "rows" (JList []))) ;;
for_each (do_row rec) rows st
else ret st.

Definition extract_block (rec : list json -> xstate -> M xstate)
       (block : json) (st : xstate) : M xstate :=
match block with
| JDict d =>
  st <-- do_widget block d st ;;
  st <-- do_nested rec d st ;;
  st <-- do_items rec d st ;;
  do_table rec d st
| _ => ret st                (* [continue] *)
end.

Fixpoint extract (fuel : nat) (blocks : list json) (st : xstate) : M xstate :=
match fuel with
| O => None
| S fuel' => for_each (extract_block (extract fuel')) blocks st
end.

End Extraction.

(** The recursion budget: the size of the values traversed. *)
Fixpoint jsize (v : json) : nat :=
  match v with
  | JList l => S (fold_right (fun x a => jsize x + a) 0 l)
  | JDict d => S (fold_right (fun kv a => jsize (snd kv) + a) 0 d)
  | _ => 1
  end.

Definition blocks_size (l : list json) : nat :=
  fold_right (fun x a => jsize x + a) 0 l.

(** [self._extract_and_convert_widgets(blocks, svg_map)]; the outer call
    iterates whatever value it is given. *)
Definition _extract_and_convert_widgets
           (convert_widget_to_svg : json -> nat -> nat -> nat -> result (option string))
           (blocks : json) (st : xstate) : M xstate :=
  l <-- lift (py_iter blocks) ;;
  extract convert_widget_to_svg (S (blocks_size l)) l st.

(** ** Where a block sits in a document

    [chart_widget b]: [b] is a widget block with a widget id whose type tag
    starts with [chart.js]. *)
Definition chart_widget (b : json) : bool :=
  match b with
  | JDict d =>
      eq_str (get d "type") "widget" && truthy (get d "widgetId") &&
      match get_default d "widgetType" (JStr "") with
      | JStr s => String.prefix "chart.js" s
      | _ => false
      end
  | _ => false
  end.

(** [child_seq b l]: the block sequence [l] is nested directly in block [b]:
    as its sub-blocks, as one of its list items, or in one of its table
    cells. *)
Inductive child_seq : json -> list json -> Prop :=
| child_blocks d l :
    get d "blocks" = JList l -> child_seq (JDict d) l
| child_item d items l :
    eq_str (get d "type") "list" = true ->
    get_default d "items" (JList []) = JList items ->
    In (JList l) items ->
    child_seq (JDict d) l
| child_cell d rows r cells c l :
    eq_str (get d "type") "table" = true ->
    get_default d "rows" (JList []) = JList rows ->
    In (JDict r) rows ->
    get_default r "cells" (JList []) = JList cells ->
    In (JDict c) cells ->
    get_default c "blocks" (JList []) = JList l ->
    child_seq (JDict d) l.

(** [occurs blocks w]: block [w] is in [blocks], at any depth. *)
Inductive occurs : list json -> json -> Prop :=
| occurs_here blocks w : In w blocks -> occurs blocks w
| occurs_nested blocks b l w :
    In b blocks -> child_seq b l -> occurs l w -> occurs blocks w.

(** [all_in W blocks]: every chart widget in [blocks], at any depth,
    satisfies [W]. *)
Definition all_in (W : json -> Prop) (blocks : list json) : Prop :=
  forall w, occurs blocks w -> chart_widget w = true -> W w.

(** [wf_block b]: [b] has the shape the data model gives a block: the type
    tag of a widget with an id is a text, the items of a list and the rows
    and cells of a table are sequences, rows and cells are dicts, and the
    same holds of every nested block.  A value that is no dict is skipped
    by the traversal and counts as well formed. *)
Inductive wf_block : json -> Prop :=
| wf_other v : (forall d, v <> JDict d) -> wf_block v
| wf_dict d :
    (eq_str (get d "type") "widget" = true -> truthy (get d "widgetId") = true ->
     exists s, get_default d "widgetType" (JStr "") = JStr s) ->
    (forall l, get d "blocks" = JList l -> Forall wf_block l) ->
    (eq_str (get d "type") "list" = true ->
     exists items, get_default d "items" (JList []) = JList items /\
       forall l, In (JList l) items -> Forall wf_block l) ->
    (eq_str (get d "type") "table" = true ->
     exists rows, get_default d "rows" (JList []) = JList rows /\
       forall row, In row rows ->
         exists r cells, row = JDict r /\
           get_default r "cells" (JList []) = JList cells /\
           forall cell, In cell cells ->
             exists c, cell = JDict c /\
               forall l, get_default c "blocks" (JList []) = JList l ->
                         Forall wf_block l) ->
    wf_block (JDict d).

(** ** Documents

    [chapter_blocks doc blocks]: [blocks] is the block sequence of one chapter
    of [doc]. *)
Inductive chapter_blocks : json -> list json -> Prop :=
| chapter_blocks_intro d chapters c blocks :
    get_default d "chapters" (JList []) = JList chapters ->
    In (JDict c) chapters ->
    get_default c "blocks" (JList []) = JList blocks ->
    chapter_blocks (JDict d) blocks.

(** [doc_occurs doc w]: block [w] is in a chapter of [doc], at any depth. *)
Definition doc_occurs (doc w : json) : Prop :=
  exists blocks, chapter_blocks doc blocks /\ occurs blocks w.

(** [wf_document doc]: an ordered sequence of chapters, each with an
    ordered sequence of well-formed blocks. *)
Definition wf_document (doc : json) : Prop :=
  exists d chapters,
    doc = JDict d /\
    get_default d "chapters" (JList []) = JList chapters /\
    forall ch, In ch chapters ->
      exists c blocks,
        ch = JDict c /\
        get_default c "blocks" (JList []) = JList blocks /\
        Forall wf_block blocks.

(** The loop of [_convert_charts_to_svg] over the chapters. *)
Definition charts_run
           (conv : json -> nat -> nat -> nat -> result (option string))
           (document_ir : json) (st : xstate) : M xstate :=
  chapters_v <-- lift (obj_get_default document_ir "chapters" (JList [])) ;;
  chapters <-- lift (py_iter chapters_v) ;;
  for_each (fun chapter st =>
              blocks <-- lift (obj_get_default chapter "blocks" (JList [])) ;;
              _extract_and_convert_widgets conv blocks st)
           chapters st.

(** ** The fragment of [re] the module uses

    The patterns of [_inject_svg_into_html] are sequences of literal
    characters, [[^c]+], [[^c]*], [\s*] and one capturing group.  Matching is
    the backtracking search of [re]: a repetition takes as many characters as
    it can and gives them back one at a time. *)

Definition is_space (c : ascii) : bool :=
  let n := nat_of_ascii c in
  (((9 <=? n) && (n <=? 13)) || ((28 <=? n) && (n <=? 32))
   || (n =? 133) || (n =? 160))%nat.

Inductive cset : Type :=
| NotChar (c : ascii)   (* [[^c]] *)
| Space.                (* [\s] *)

Definition mem (cs : cset) (c : ascii) : bool :=
  match cs with
  | NotChar x => negb (Ascii.eqb c x)
  | Space => is_space c
  end.

Inductive item : Type :=
| Lit (c : ascii)
| Star (cs : cset)
| Plus (cs : cset)
| GOpen                 (* [(] of group 1 *)
| GClose.               (* [)] of group 1 *)

Definition regex : Type := list item.

(** A literal text; also what [re.escape(text)] compiles to. *)
Definition lits (s : string) : regex := map Lit (list_ascii_of_string s).


Fixpoint take (n : nat) (s : string) : string :=
  match n, s with
  | S n', String c s' => String c (take n' s')
  | _, _ => ""
  end.

(** Greedy repetition of one character class, then the continuation [k]. *)
Fixpoint star {R} (cs : cset) (s : string) (k : string -> option R) : option R :=
  match s with
  | String c s' =>
      if mem cs c then
        match star cs s' k with
        | Some r => Some r
        | None => k s
        end
      else k s
  | EmptyString => k s
  end.

(** [match_here p s gs g]: match [p] at the start of [s]; [gs] is the text at
    the opening of group 1, [g] the group's text.  Gives the text left after
    the match and group 1. *)
Fixpoint match_here (p : regex) (s gs g : string) : option (string * string) :=
  match p with
  | [] => Some (s, g)
  | Lit c :: p' =>
      match s with
      | String c' s' => if Ascii.eqb c' c then match_here p' s' gs g else None
      | EmptyString => None
      end
  | Star cs :: p' => star cs s (fun s' => match_here p' s' gs g)
  | Plus cs :: p' =>
      match s with
      | String c' s' =>
          if mem cs c' then star cs s' (fun s'' => match_here p' s'' gs g) else None
      | EmptyString => None
      end
  | GOpen :: p' => match_here p' s s g
  | GClose :: p' => match_here p' s gs (take (String.length gs - String.length s) gs)
  end.

(** [re.search(p, s)]: the leftmost match; gives group 1. *)
Fixpoint search (p : regex) (s : string) : option string :=
  match match_here p s "" "" with
  | Some (_, g) => Some g
  | None =>
      match s with
      | String _ s' => search p s'
      | EmptyString => None
      end
  end.

(** A parsed replacement template. *)
Inductive part : Type :=
| PChar (c : ascii)
| PMatch.                (* [\g<0>]: the whole match *)

Fixpoint expand (t : list part) (m : string) : string :=
  match t with
  | [] => ""
  | PChar c :: t' => String c (expand t' m)
  | PMatch :: t' => m ++ expand t' m
  end.

(** [re.sub] with a parsed template: every match, left to right, is replaced;
    [skip] counts the characters of the current match still to pass. *)
Fixpoint sub_parts (p : regex) (t : list part) (s : string) (skip : nat) : string :=
  match s with
  | EmptyString =>
      match skip, match_here p s "" "" with
      | O, Some _ => expand t ""
      | _, _ => ""
      end
  | String c s' =>
      match skip with
      | S n => sub_parts p t s' n
      | O =>
          match match_here p s "" "" with
          | Some (rest, _) =>
              let n := String.length s - String.length rest in
              let m := take n s in
              match n with
              | O => expand t m ++ String c (sub_parts p t s' 0)
              | S n' => expand t m ++ sub_parts p t s' n'
              end
          | None => String c (sub_parts p t s' 0)
          end
      end
  end.

(** *** Replacement templates

    [re.sub(pattern, repl, s)] with a text [repl] that holds a backslash
    parses [repl] as a template before it looks at [s].  The patterns given
    such a template here have no group of their own, so the only group a
    template may name is 0. *)

Definition code (c : ascii) : nat := nat_of_ascii c.

Definition is_digit (c : ascii) : bool := ((48 <=? code c) && (code c <=? 57))%nat.
Definition is_octal (c : ascii) : bool := ((48 <=? code c) && (code c <=? 55))%nat.
Definition is_ascii_letter (c : ascii) : bool :=
  (((65 <=? code c) && (code c <=? 90)) || ((97 <=? code c) && (code c <=? 122)))%nat.
Definition digit (c : ascii) : nat := code c - 48.

(** The table [ESCAPES] of the template parser. *)
Definition escape_of (c : ascii) : option ascii :=
  match c with
  | "a"%char => Some (ascii_of_nat 7)
  | "b"%char => Some (ascii_of_nat 8)
  | "f"%char => Some (ascii_of_nat 12)
  | "n"%char => Some (ascii_of_nat 10)
  | "r"%char => Some (ascii_of_nat 13)
  | "t"%char => Some (ascii_of_nat 9)
  | "v"%char => Some (ascii_of_nat 11)
  | "\"%char => Some "\"%char
  | _ => None
  end.

(** The group named between [\g<] and [>]: only a run of digits of value 0
    names a group the pattern has; every other name is an error ([re.error],
    or [IndexError] for an unknown identifier: both are [ReError] here). *)
Fixpoint all_zero_digits (name : string) : bool :=
  match name with
  | EmptyString => true
  | String c name' => Ascii.eqb c "0" && all_zero_digits name'
  end.

Definition group_of_name (name : string) : result part :=
  match name with
  | EmptyString => Raise ReError
  | _ => if all_zero_digits name then Ok PMatch else Raise ReError
  end.

(** [parse_template t name]: [name] is [Some acc] while the parser is
    between [\g<] and [>]. *)
Fixpoint parse_template (t : string) (name : option string) : result (list part) :=
  match name with
  | Some acc =>
      match t with
      | EmptyString => Raise ReError
      | String c t' =>
          if Ascii.eqb c ">" then
            g <- group_of_name acc ;;
            ps <- parse_template t' None ;;
            Ok (g :: ps)
          else parse_template t' (Some (acc ++ String c ""))
      end
  | None =>
      match t with
      | EmptyString => Ok []
      | String c t1 =>
          if negb (Ascii.eqb c "\") then
            ps <- parse_template t1 None ;; Ok (PChar c :: ps)
          else
            match t1 with
            | EmptyString => Raise ReError          (* bad escape (end of pattern) *)
            | String e t2 =>
                if Ascii.eqb e "g" then
                  match t2 with
                  | String "<"%char t3 => parse_template t3 (Some "")
                  | _ => Raise ReError              (* missing < *)
                  end
                else if Ascii.eqb e "0" then
                  match t2 with
                  | String d1 t3 =>
                      if is_octal d1 then
                        match t3 with
                        | String d2 t4 =>
                            if is_octal d2 then
                              ps <- parse_template t4 None ;;
                              Ok (PChar (ascii_of_nat ((digit d1 * 8 + digit d2) mod 256)) :: ps)
                            else
                              ps <- parse_template t3 None ;;
                              Ok (PChar (ascii_of_nat (digit d1)) :: ps)
                        | EmptyString => Ok [PChar (ascii_of_nat (digit d1))]
                        end
                      else
                        ps <- parse_template t2 None ;;
                        Ok (PChar (ascii_of_nat 0) :: ps)
                  | EmptyString => Ok [PChar (ascii_of_nat 0)]
                  end
                else if is_digit e then
                  (* a group number, unless three octal digits follow *)
                  match t2 with
                  | String d1 (String d2 t4) =>
                      if is_octal e && is_octal d1 && is_octal d2 then
                        let v := digit e * 64 + digit d1 * 8 + digit d2 in
                        if (255 <? v)%nat then Raise ReError
                        else ps <- parse_template t4 None ;;
                             Ok (PChar (ascii_of_nat v) :: ps)
                      else Raise ReError            (* invalid group reference *)
                  | _ => Raise ReError
                  end
                else
                  match escape_of e with
                  | Some x => ps <- parse_template t2 None ;; Ok (PChar x :: ps)
                  | None =>
                      if is_ascii_letter e then Raise ReError   (* bad escape *)
                      else ps <- parse_template t2 None ;;
                           Ok (PChar c :: PChar e :: ps)
                  end
            end
      end
  end.

(** [re.sub(p, repl, s)] *)
Definition re_sub (p : regex) (repl s : string) : result string :=
  t <- parse_template repl None ;;
  Ok (sub_parts p t s 0).

(** [s.strip()] *)
Fixpoint lstrip (s : string) : string :=
  match s with
  | String c s' => if is_space c then lstrip s' else s
  | EmptyString => ""
  end.

Fixpoint rstrip (s : string) : string :=
  match s with
  | String c s' =>
      match rstrip s' with
      | EmptyString => if is_space c then "" else String c ""
      | r => String c r
      end
  | EmptyString => ""
  end.

Definition strip (s : string) : string := rstrip (lstrip s).

(** ** SVG injection

    In the comments below [Q] stands for the double quote character. *)

Definition Qc : ascii := ascii_of_nat 34.
Definition Q : string := String Qc "".

(** [r'<\?xml[^>]+\?>'] *)
Definition xml_decl_pattern : regex :=
  (lits "<?xml" ++ [Plus (NotChar ">")] ++ lits "?>")%list.

(** [r'<!DOCTYPE[^>]+>'] *)
Definition doctype_pattern : regex :=
  (lits "<!DOCTYPE" ++ [Plus (NotChar ">")] ++ lits ">")%list.

(** [<script[^>]+id=Q([^Q]+)Q[^>]*>\s*\{[^}]*QwidgetIdQ\s*:\s*Q] then
    [re.escape(widget_id)] then [Q[^}]*\}] *)
Definition config_pattern (widget_id : string) : regex :=
  (lits "<script" ++ [Plus (NotChar ">")] ++ lits ("id=" ++ Q) ++
   [GOpen; Plus (NotChar Qc); GClose] ++ lits Q ++
   [Star (NotChar ">")] ++ lits ">" ++ [Star Space] ++ lits "{" ++
   [Star (NotChar "}")] ++ lits (Q ++ "widgetId" ++ Q) ++ [Star Space] ++
   lits ":" ++ [Star Space] ++ lits Q ++ lits widget_id ++ lits Q ++
   [Star (NotChar "}")] ++ lits "}")%list.

(** [<canvas[^>]+data-config-id=Q] then [re.escape(config_id)] then
    [Q[^>]*></canvas>] *)
Definition canvas_pattern (config_id : string) : regex :=
  (lits "<canvas" ++ [Plus (NotChar ">")] ++ lits ("data-config-id=" ++ Q) ++
   lits config_id ++ lits Q ++ [Star (NotChar ">")] ++ lits "></canvas>")%list.

(** The cleaning of one SVG text and its container. *)
Definition clean_svg (svg_content : string) : result string :=
  s1 <- re_sub xml_decl_pattern "" svg_content ;;
  s2 <- re_sub doctype_pattern "" s1 ;;
  Ok (strip s2).

Definition svg_container (svg_content : string) : string :=
  "<div class=" ++ Q ++ "chart-svg-container" ++ Q ++ ">" ++ svg_content ++ "</div>".

(** One iteration of the loop over [svg_map.items()]: the HTML and the
    logger go in and come out; an exception keeps what was logged. *)
Definition inject_one (widget_id : json) (svg_content : string)
           (html : string) (lg : list log_entry)
  : list log_entry * result string :=
  match clean_svg svg_content with
  | Raise e => (lg, Raise e)
  | Ok svg_content =>
      let svg_html := svg_container svg_content in
      match widget_id with
      | JStr wid =>
          match search (config_pattern wid) html with
          | Some config_id =>
              match re_sub (canvas_pattern config_id) svg_html html with
              | Ok html' => ((lg ++ [(DEBUG, CanvasReplaced widget_id)])%list, Ok html')
              | Raise e => (lg, Raise e)
              end
          | None => ((lg ++ [(WARNING, ConfigNotFound widget_id)])%list, Ok html)
          end
      | _ => (lg, Raise TypeError)     (* [re.escape] of a key that is no text *)
      end
  end.

Fixpoint inject_loop (items : svg_map_t) (html : string) (lg : list log_entry)
  : list log_entry * result string :=
  match items with
  | [] => (lg, Ok html)
  | (widget_id, svg_content) :: items' =>
      match inject_one widget_id svg_content html lg with
      | (lg', Ok html') => inject_loop items' html' lg'
      | r => r
      end
  end.

Definition _inject_svg_into_html (html : string) (m : svg_map_t) (lg : list log_entry)
  : list log_entry * result string :=
  match m with
  | [] => (lg, Ok html)
  | _ => inject_loop m html lg
  end.

(** ** The world of a render call

    The document object the caller passes, the file system, the layout
    optimizer's [config] attribute, the logger and the calls made to the
    collaborators, in order. *)

(** [FontConfiguration()] and the keyword arguments both entry points give
    to [write_pdf]: [font_config=font_config, presentational_hints=True]. *)
Inductive font_configuration : Type := FontConfiguration.

Record pdf_options : Type := mk_pdf_options {
  font_config : font_configuration;
  presentational_hints : bool
}.

Section Pipeline.

(** The collaborators of the module; their code is in other modules of the
  package ([html_renderer], [pdf_layout_optimizer], [chart_to_svg]) and in
  WeasyPrint.  Each is a function of what it is given: it reads the
  document and does not write to it. *)
Variables Cfg Stats OptLog Doc : Type.

(** Modelled from the spec: [optimize_for_document(document_ir) ->
  layout_config] of [pdf_layout_optimizer], which is not in this file. *)
Variable optimize_for_document : json -> result Cfg.
(** Modelled from the spec: the analysis and the rationale behind the
  persistence operation of [pdf_layout_optimizer]. *)
Variable _analyze_document : json -> result Stats.
Variable _log_optimization : Stats -> Cfg -> result OptLog.
(** Modelled from the spec: the text [save_config] writes for the
  optimizer's current configuration and a rationale. *)
Variable save_config_text : Cfg -> OptLog -> result string.
(** Modelled from the spec: [generate_css(layout_config) -> css_string],
  called on the optimizer's current configuration. *)
Variable generate_pdf_css : Cfg -> result string.
(** Modelled from the spec: [render(document_ir) -> html_string] of
  [html_renderer]. *)
Variable html_render : json -> result string.
(** [base64.b64encode(data).decode('ascii')] *)
Variable b64encode : string -> string.
(** WeasyPrint: [HTML(string=..., base_url=...)], and the PDF that
  [write_pdf] makes of a document under its keyword arguments.  Without a
  target [write_pdf] returns the PDF; with one it opens the target and
  writes the PDF there ([write_target] below). *)
Variable HTML_new : string -> result Doc.
Variable write_pdf : Doc -> pdf_options -> result string.
(** [self.chart_converter], when [__init__] could create it. *)
Variable chart_converter : option (json -> nat -> nat -> nat -> result (option string)).

Inductive event : Type :=
| EvOptimizeForDocument (document_ir : json)
| EvAnalyzeDocument (document_ir : json)
| EvLogOptimization
| EvSaveConfig (log_file : string)
| EvConvert (block : json)
| EvHtmlRender (document_ir : json)
| EvGeneratePdfCss (layout_config : Cfg)
| EvHtmlNew (html_content : string)
| EvWritePdf (target : option string).

Record world : Type := mk_world {
ir : json;                        (* the dict the caller holds as [document_ir] *)
files : list (string * string);   (* regular files and their content *)
dirs : list string;               (* directories *)
stamp : string;                   (* [datetime.now().strftime(...)] *)
opt_config : Cfg;                 (* [self.layout_optimizer.config] *)
wlog : list log_entry;
trace : list event
}.

Definition P (A : Type) : Type := world -> world * result A.

Definition pret {A} (a : A) : P A := fun w => (w, Ok a).

Definition pbind {A B} (m : P A) (k : A -> P B) : P B :=
fun w => match m w with
         | (w', Ok a) => k a w'
         | (w', Raise e) => (w', Raise e)
         end.

Notation "x <~ c ;; k" := (pbind c (fun x => k))
(at level 61, c at next level, right associativity).
Notation "c ;;; k" := (pbind c (fun _ => k))
(at level 61, right associativity).

(** Entries appended to the logger, calls appended to the trace. *)
Definition emitted (lg : list log_entry) (evs : list event) (w : world) : world :=
mk_world (ir w) (files w) (dirs w) (stamp w) (opt_config w)
         (wlog w ++ lg)%list (trace w ++ evs)%list.

Definition plog (lv : level) (m : log_msg) : P unit :=
fun w => (emitted [(lv, m)] [] w, Ok tt).

(** A call to a collaborator: recorded, then its outcome. *)
Definition call {A} (ev : event) (r : result A) : P A :=
fun w => (emitted [] [ev] w, r).

Definition pfail {A} (e : exn) : P A := fun w => (w, Raise e).

(** [try: m, then body / except Exception as e: handler] *)
Definition ptry {A B} (m : P A) (body : A -> P B) (handler : exn -> P B) : P B :=
fun w => match m w with
         | (w', Ok a) => body a w'
         | (w', Raise e) => handler e w'
         end.

Definition set_config (c : Cfg) : P unit :=
fun w => (mk_world (ir w) (files w) (dirs w) (stamp w) c (wlog w) (trace w), Ok tt).

Definition get_config : P Cfg := fun w => (w, Ok (opt_config w)).

Fixpoint find_file (fs : list (string * string)) (p : string) : option string :=
match fs with
| [] => None
| (q, c) :: fs' => if String.eqb q p then Some c else find_file fs' p
end.

Definition is_dir (w : world) (p : string) : bool :=
existsb (String.eqb p) (dirs w).

(** [Path(p).exists()] *)
Definition path_exists (w : world) (p : string) : bool :=
match find_file (files w) p with
| Some _ => true
| None => is_dir w p
end.

(** [open(p, 'w').write(c)]: the file is created or replaced. *)
Fixpoint put_file (fs : list (string * string)) (p c : string) : list (string * string) :=
match fs with
| [] => [(p, c)]
| (q, c') :: fs' =>
    if String.eqb q p then (q, c) :: fs' else (q, c') :: put_file fs' p c
end.

Definition write_file (p c : string) : P unit :=
fun w => (mk_world (ir w) (put_file (files w) p c) (dirs w) (stamp w) (opt_config w)
                   (wlog w) (trace w), Ok tt).

(** [open(target, 'wb')], as [write_pdf] does with a target that is a
  path: a directory cannot be opened, and the directory the path lies in
  must be there.  A directory is there when the world lists it or holds
  something under it; a path with no [/] lies in the working directory. *)
Fixpoint before_last (c : ascii) (s : string) : option string :=
match s with
| EmptyString => None
| String x s' =>
    match before_last c s' with
    | Some r => Some (String x r)
    | None => if Ascii.eqb x c then Some "" else None
    end
end.

Definition holds_under (w : world) (d : string) : bool :=
existsb (fun f => String.prefix (d ++ "/") (fst f)) (files w)
|| existsb (String.prefix (d ++ "/")) (dirs w).

Definition dir_there (w : world) (d : string) : bool :=
is_dir w d || holds_under w d.

Definition open_error (w : world) (p : string) : option exn :=
if dir_there w p then Some IsADirectoryError
else
  match before_last "/" p with
  | None => None
  | Some d =>
      if String.eqb d "" then None
      else
        match find_file (files w) d with
        | Some _ => Some NotADirectoryError
        | None => if dir_there w d then None else Some FileNotFoundError
        end
  end.

Definition write_target (p c : string) : P unit :=
fun w =>
  match open_error w p with
  | Some e => (w, Raise e)
  | None => write_file p c w
  end.

(** [Path(p).mkdir(parents=True, exist_ok=True)] for the two-level path
  [logs/pdf_layouts]. *)
Definition mkdir1 (p : string) : P unit :=
fun w =>
  match find_file (files w) p with
  | Some _ => (w, Raise FileExistsError)
  | None =>
      if is_dir w p then (w, Ok tt)
      else (mk_world (ir w) (files w) (dirs w ++ [p])%list (stamp w) (opt_config w)
                     (wlog w) (trace w), Ok tt)
  end.

Definition mkdir_logs : P unit := mkdir1 "logs" ;;; mkdir1 "logs/pdf_layouts".

(** [font_path.read_bytes()] *)
Definition read_bytes (p : string) : P string :=
fun w => match find_file (files w) p with
         | Some c => (w, Ok c)
         | None => (w, Raise FileNotFoundError)
         end.

(** [self._get_font_path()] against the files of the world. *)
Definition get_font_path : P string :=
fun w =>
  let '(r, l) := _get_font_path (path_exists w) in
  (emitted l [] w, r).

(** [self._convert_charts_to_svg(document_ir)]: the traversal starts from
  an empty map; what it logs and the conversions it asks for are appended
  to the logger and to the trace. *)
Definition _convert_charts_to_svg (document_ir : json) : P svg_map_t :=
match chart_converter with
| None => plog WARNING ConverterMissing ;;; pret []
| Some conv =>
    match charts_run conv document_ir (mk_xstate [] [] []) with
    | Some (Ok st) =>
        fun w =>
          (emitted (xlog st ++ [(INFO, ChartsConverted (List.length (svg_map st)))])%list
                   (map EvConvert (converted st)) w,
           Ok (svg_map st))
    | Some (Raise e) => pfail e
    | None => pfail RecursionError
    end
end.

(** [s.replace(old, new)] for a non-empty [old]. *)
Fixpoint str_replace (old new s : string) (skip : nat) : string :=
match s with
| EmptyString => ""
| String c s' =>
    match skip with
    | S n => str_replace old new s' n
    | O =>
        if String.prefix old s
        then new ++ str_replace old new s' (String.length old - 1)
        else String c (str_replace old new s' 0)
    end
end.

(** [Path.name] and [Path.suffix] *)
Fixpoint after_last (c : ascii) (s : string) : option string :=
match s with
| EmptyString => None
| String x s' =>
    match after_last c s' with
    | Some r => Some r
    | None => if Ascii.eqb x c then Some s' else None
    end
end.

Definition path_name (p : string) : string :=
match after_last "/" p with Some r => r | None => p end.

Definition path_suffix (p : string) : string :=
let name := path_name p in
match after_last "." name with
| Some ext =>
    if String.eqb ext "" || (String.length ext + 1 =? String.length name)%nat
    then "" else "." ++ ext
| None => ""
end.

Definition log_file_of (stamp : string) : string :=
path_join "logs/pdf_layouts" ("layout_" ++ stamp ++ ".json").

(** The f-string [pdf_css]; the text outside ASCII (in CSS comments) is
kept as its UTF-8 bytes. *)
Definition pdf_css (font_format font_base64 optimized_css : string) : string :=
    "
<style>
/* PDF专用字体嵌入 */
@font-face {
    font-family: 'SourceHanSerif';
    src: url(data:font/" ++ font_format ++ ";base64," ++ font_base64 ++ ") format('" ++ font_format ++ "');
    font-weight: normal;
    font-style: normal;
}

/* 强制所有文本使用思源宋体 */
body, h1, h2, h3, h4, h5, h6, p, li, td, th, div, span {
    font-family: 'SourceHanSerif', serif !important;
}

/* PDF专用样式调整 */
.report-header {
    display: none !important;
}

.no-print {
    display: none !important;
}

body {
    background: white !important;
}

/* SVG图表容器样式 */
.chart-svg-container {
    width: 100%;
    height: auto;
    display: flex;
    justify-content: center;
    align-items: center;
}

.chart-svg-container svg {
    max-width: 100%;
    height: auto;
}

/* 隐藏fallback表格（因为现在使用SVG） */
.chart-fallback {
    display: none !important;
}

/* 确保chart-container显示（用于放置SVG） */
.chart-container {
    display: block !important;
    min-height: 400px;
}

" ++ optimized_css ++ "
</style>
".

(** [log_dir / f"layout_{datetime.now().strftime('%Y%m%d_%H%M%S')}.json"] *)
Definition log_file_now : P string :=
fun w => (w, Ok (log_file_of (stamp w))).

(** [_get_pdf_html], first part: [if optimize_layout: ... else: ...]. *)
Definition layout_step (document_ir : json) (optimize_layout : bool) : P Cfg :=
if optimize_layout then
  plog INFO LayoutOptimizing ;;;
  layout_config <~ call (EvOptimizeForDocument document_ir)
                        (optimize_for_document document_ir) ;;
  mkdir_logs ;;;
  log_file <~ log_file_now ;;
  stats <~ call (EvAnalyzeDocument document_ir) (_analyze_document document_ir) ;;
  optimization_log <~ call EvLogOptimization (_log_optimization stats layout_config) ;;
  set_config layout_config ;;;
  text <~ call (EvSaveConfig log_file) (save_config_text layout_config optimization_log) ;;
  write_file log_file text ;;;
  pret layout_config
else get_config.

(** The call of [_inject_svg_into_html] in [_get_pdf_html]. *)
Definition inject_step (html : string) (svg_map : svg_map_t) : P string :=
match svg_map with
| [] => pret html
| _ =>
    html' <~ (fun w => let '(lg, r) := _inject_svg_into_html html svg_map [] in
                       (emitted lg [] w, r)) ;;
    plog INFO (SvgInjected (List.length svg_map)) ;;;
    pret html'
end.

(** [_get_pdf_html], up to the injection of the SVG: the layout, the
  charts, the base HTML, the patch. *)
Definition patched_html (document_ir : json) (optimize_layout : bool) : P string :=
layout_step document_ir optimize_layout ;;;
plog INFO ChartsStart ;;;
svg_map <~ _convert_charts_to_svg document_ir ;;
html <~ call (EvHtmlRender document_ir) (html_render document_ir) ;;
inject_step html svg_map.

(** [_get_pdf_html], from the font on: the font is found, read and encoded,
  the CSS is generated and the style block goes before [</head>]. *)
Definition embed_font_css (html : string) : P string :=
font_path <~ get_font_path ;;
font_data <~ read_bytes font_path ;;
let font_base64 := b64encode font_data in
let font_format :=
  if String.eqb (path_suffix font_path) ".otf" then "opentype" else "truetype" in
cfg <~ get_config ;;
optimized_css <~ call (EvGeneratePdfCss cfg) (generate_pdf_css cfg) ;;
let css := pdf_css font_format font_base64 optimized_css in
pret (str_replace "</head>" (css ++ String (ascii_of_nat 10) "</head>") html 0).

(** [self._get_pdf_html(document_ir, optimize_layout)] *)
Definition _get_pdf_html (document_ir : json) (optimize_layout : bool) : P string :=
html <~ patched_html document_ir optimize_layout ;;
embed_font_css html.

(** [self.render_to_pdf(document_ir, output_path, optimize_layout)] *)
Definition render_to_pdf (document_ir : json) (output_path : string)
         (optimize_layout : bool) : P string :=
plog INFO (PdfStart output_path) ;;;
html_content <~ _get_pdf_html document_ir optimize_layout ;;
html_doc <~ call (EvHtmlNew html_content) (HTML_new html_content) ;;
let font_config := FontConfiguration in
ptry (bytes <~ call (EvWritePdf (Some output_path))
                    (write_pdf html_doc (mk_pdf_options font_config true)) ;;
      write_target output_path bytes)
     (fun _ =>
        plog INFO (PdfDone output_path) ;;;
        pret output_path)
     (fun e =>
        plog ERROR (PdfFailed e) ;;;
        pfail e).                   (* [raise] *)

(** [self.render_to_bytes(document_ir, optimize_layout)] *)
Definition render_to_bytes (document_ir : json) (optimize_layout : bool) : P string :=
html_content <~ _get_pdf_html document_ir optimize_layout ;;
html_doc <~ call (EvHtmlNew html_content) (HTML_new html_content) ;;
let font_config := FontConfiguration in
call (EvWritePdf None) (write_pdf html_doc (mk_pdf_options font_config true)).

End Pipeline.

Arguments EvOptimizeForDocument {Cfg} document_ir.
Arguments EvAnalyzeDocument {Cfg} document_ir.
Arguments EvLogOptimization {Cfg}.
Arguments EvSaveConfig {Cfg} log_file.
Arguments EvConvert {Cfg} block.
Arguments EvHtmlRender {Cfg} document_ir.
Arguments EvGeneratePdfCss {Cfg} layout_config.
Arguments EvHtmlNew {Cfg} html_content.
Arguments EvWritePdf {Cfg} target.


(** The calls that analyse a document or persist a layout. *)
Definition analysis_event {Cfg} (ev : event Cfg) : bool :=
  match ev with
  | EvOptimizeForDocument _ | EvAnalyzeDocument _ | EvLogOptimization
  | EvSaveConfig _ => true
  | _ => false
  end.

(** [audit_free out w w']: from [w] to [w'] no file changed but [out], no
    directory was made, the optimizer kept its configuration, no analysis
    was asked for, and the CSS was generated from the configuration of
    [w]. *)
Definition audit_free {Cfg} (out : option string) (w w' : world Cfg) : Prop :=
  (forall p, out <> Some p -> find_file (files w') p = find_file (files w) p)
  /\ dirs w' = dirs w
  /\ opt_config w' = opt_config w
  /\ exists evs,
       trace w' = (trace w ++ evs)%list /\
       forall ev, In ev evs ->
         analysis_event ev = false /\
         forall c, ev = EvGeneratePdfCss c -> c = opt_config w.

(** [respects R p]: the world after [p] is related by [R] to the world
    before it, whatever the outcome. *)
Definition respects {Cfg A} (R : world Cfg -> world Cfg -> Prop) (p : P Cfg A) : Prop :=
  forall w, R w (fst (p w)).



(** ** Values used in the statements and in the examples *)

(** [conv_fails conv b]: the conversion of [b] raises or gives nothing. *)
Definition conv_fails (conv : json -> nat -> nat -> nat -> result (option string))
           (b : json) : bool :=
  match conv b 800 500 100 with
  | Ok (Some svg) => String.eqb svg ""
  | Ok None => true
  | Raise _ => true
  end.

(** The entry logged for a conversion that fails. *)
Definition failure_entry (conv : json -> nat -> nat -> nat -> result (option string))
           (b k : json) : log_entry :=
  match conv b 800 500 100 with
  | Raise e => (ERROR, ChartRaised k e)
  | _ => (WARNING, ChartEmpty k)
  end.

Definition widget_id_of (b : json) : json :=
  match b with
  | JDict d => get d "widgetId"
  | _ => JNull
  end.

(** A chart three levels down: table, cell, list, widget. *)
Definition deep_widget : json :=
  JDict [("type", JStr "widget"); ("widgetId", JStr "w1");
         ("widgetType", JStr "chart.js/bar")].

Definition deep_blocks : list json :=
  [JDict [("type", JStr "table");
          ("rows", JList [JDict [("cells", JList [JDict [("blocks", JList [
             JDict [("type", JStr "list");
                    ("items", JList [JList [deep_widget]])]])]])]])]].

Definition deep_doc : json :=
  JDict [("chapters", JList [JDict [("blocks", JList deep_blocks)]])].

(** A document with one paragraph and no chart. *)
Definition plain_doc : json :=
  JDict [("chapters", JList [JDict [("blocks", JList [
     JDict [("type", JStr "paragraph"); ("text", JStr "hello")]])]])].

(** A document with two charts, and a converter that fails on the first. *)
Definition bad_widget : json :=
  JDict [("type", JStr "widget"); ("widgetId", JStr "bad");
         ("widgetType", JStr "chart.js/line")].

Definition good_widget : json :=
  JDict [("type", JStr "widget"); ("widgetId", JStr "good");
         ("widgetType", JStr "chart.js/bar")].

Definition mixed_doc : json :=
  JDict [("chapters", JList [JDict [("blocks", JList [bad_widget; good_widget])]])].

Definition conv_mixed (b : json) (width height dpi : nat) : result (option string) :=
  if key_eqb (widget_id_of b) (JStr "bad")
  then Raise (ExternalError "boom")
  else Ok (Some "<svg>ok</svg>").

(** [dot_path p]: [p] starts with a dot, as the paths of the fonts do. *)
Definition dot_path (p : string) : Prop := exists s, p = String "." s.

(** [fonts_kept w w']: the paths that start with a dot are the same files
    and directories in [w'] as in [w]. *)
Definition fonts_kept {Cfg} (w w' : world Cfg) : Prop :=
  forall p, dot_path p ->
    find_file (files w') p = find_file (files w) p /\ is_dir w' p = is_dir w p.

(** What a render gives when no font exists: the outcome of the steps before
    the font lookup, with [FileNotFoundError] in place of their result. *)
Definition no_font_outcome {Cfg A} (x : world Cfg * result string)
  : world Cfg * result A :=
  (fst x, match snd x with
          | Ok _ => Raise FileNotFoundError
          | Raise e => Raise e
          end).

(** ** Placeholders in the rendered HTML *)

(** The placeholder of a chart, as the comment in [_inject_svg_into_html]
    gives it: [<canvas id=QcvidQ data-config-id=QcidQ></canvas>]. *)
Definition canvas_attrs (canvas_id config_id : string) : string :=
  " id=" ++ Q ++ canvas_id ++ Q ++ " " ++ "data-config-id=" ++ Q ++ config_id ++ Q.

Definition canvas_tag (canvas_id config_id : string) : string :=
  "<canvas" ++ canvas_attrs canvas_id config_id ++ "></canvas>".

(** [has_char c s]: the character [c] occurs in [s]. *)
Fixpoint has_char (c : ascii) (s : string) : bool :=
  match s with
  | EmptyString => false
  | String x s' => Ascii.eqb x c || has_char c s'
  end.

(** [count_occ lit s]: the number of places of [s] where [lit] starts. *)
Fixpoint count_occ (lit s : string) : nat :=
  match s with
  | EmptyString => 0
  | String _ s' => (if String.prefix lit s then 1 else 0) + count_occ lit s'
  end.

(** [count_pre lit pre rest]: the number of places of [pre] where [lit]
    starts in [pre ++ rest]. *)
Fixpoint count_pre (lit pre rest : string) : nat :=
  match pre with
  | EmptyString => 0
  | String _ pre' =>
      (if String.prefix lit (pre ++ rest) then 1 else 0) + count_pre lit pre' rest
  end.


(** A rendered page with one chart: the placeholder, then the
    configuration script.  In [page_post] the script gives the widget id
    first; in [page_post_nested] it gives it after a nested object. *)
Definition page_pre : string :=
  "<html><head></head><body><div class=" ++ Q ++ "chart-container" ++ Q ++ ">".

Definition page_post : string :=
  "</div><script type=" ++ Q ++ "application/json" ++ Q ++ " id=" ++ Q ++ "chart-config-1" ++ Q ++ ">{" ++ Q ++ "widgetId" ++ Q ++ ": " ++ Q ++ "w1" ++ Q ++ ", " ++ Q ++ "props" ++ Q ++ ": {" ++ Q ++ "a" ++ Q ++ ": 1}}</script></body></html>".


Definition page : string :=
  page_pre ++ canvas_tag "chart-1" "chart-config-1" ++ page_post.


(** An SVG as a converter writes it, and the same without its preamble. *)
Definition demo_svg : string :=
  "<?xml version=" ++ Q ++ "1.0" ++ Q ++ " encoding=" ++ Q ++ "utf-8" ++ Q ++ "?>
<!DOCTYPE svg PUBLIC " ++ Q ++ "-//W3C//DTD SVG 1.1//EN" ++ Q ++ ">
<svg width=" ++ Q ++ "8" ++ Q ++ "><text>a</text></svg>
".

Definition demo_svg_clean : string :=
  "<svg width=" ++ Q ++ "8" ++ Q ++ "><text>a</text></svg>".


(** Collaborators that always succeed, and a rasterizer that fails. *)
Definition demo_html : string := "<html><head></head><body></body></html>".

Definition failing_write_pdf (d : string) (options : pdf_options) : result string :=
  Raise (ExternalError "rasterizer failed").

Definition demo_render_to_bytes (write_pdf : string -> pdf_options -> result string)
  : json -> bool -> P unit string :=
  render_to_bytes (fun _ => Ok tt) (fun _ => Ok tt) (fun _ _ => Ok tt)
                  (fun _ _ => Ok "{}") (fun _ => Ok "") (fun _ => Ok demo_html)
                  (fun s => s) (fun s => Ok s) write_pdf None.

Definition demo_render_to_pdf (write_pdf : string -> pdf_options -> result string)
  : json -> string -> bool -> P unit string :=
  render_to_pdf (fun _ => Ok tt) (fun _ => Ok tt) (fun _ _ => Ok tt)
                (fun _ _ => Ok "{}") (fun _ => Ok "") (fun _ => Ok demo_html)
                (fun s => s) (fun s => Ok s) write_pdf None.

(** A world with the full font, and one with no font at all. *)
Definition world_with_font : world unit :=
  mk_world plain_doc [(full_font, "FONT")] [] "20260101_000000" tt [] [].

Definition world_without_fonts : world unit :=
  mk_world plain_doc [] [] "20260101_000000" tt [] [].

(** ** Values used in the further properties *)

(** The entry logged for the conversion of block [b], whatever its outcome:
    success at debug level, an empty result as a warning, an exception (of
    the converter, or of the store under an unhashable id) as an error. *)
Definition outcome_entry (conv : json -> nat -> nat -> nat -> result (option string))
           (b : json) : log_entry :=
  match conv b 800 500 100 with
  | Ok (Some svg) =>
      if String.eqb svg "" then (WARNING, ChartEmpty (widget_id_of b))
      else if hashable (widget_id_of b) then (DEBUG, ChartOk (widget_id_of b))
      else (ERROR, ChartRaised (widget_id_of b) TypeError)
  | Ok None => (WARNING, ChartEmpty (widget_id_of b))
  | Raise e => (ERROR, ChartRaised (widget_id_of b) e)
  end.

(** A widget whose type tag is not text. *)
Definition untyped_widget : json :=
  JDict [("type", JStr "widget"); ("widgetId", JStr "w9");
         ("widgetType", JNum 3)].

Definition untyped_doc : json :=
  JDict [("chapters", JList [JDict [("blocks", JList [untyped_widget])]])].

(** [footprint out w w']: from [w] to [w'] no file changed but [out] and
    the audit file named after the time of [w]; no directory went away, and
    none was made but [logs] and [logs/pdf_layouts]. *)
Definition footprint {Cfg} (out : option string) (w w' : world Cfg) : Prop :=
  (forall p, out <> Some p -> p <> log_file_of (stamp w) ->
     find_file (files w') p = find_file (files w) p)
  /\ (forall d, In d (dirs w) -> In d (dirs w'))
  /\ (forall d, In d (dirs w') ->
        In d (dirs w) \/ d = "logs" \/ d = "logs/pdf_layouts").

(** The calls of a render that succeeds, after those of the layout step:
    the conversions, the base HTML, the CSS, the rasterizer. *)
Definition render_calls {Cfg} (document_ir : json) (converted : list json)
           (config : Cfg) (html_content : string) (target : option string)
  : list (event Cfg) :=
  (map EvConvert converted ++
   [EvHtmlRender document_ir; EvGeneratePdfCss config;
    EvHtmlNew html_content; EvWritePdf target])%list.

(** The calls of the layout step of a render with optimization. *)
Definition layout_calls {Cfg} (document_ir : json) (log_file : string)
  : list (event Cfg) :=
  [EvOptimizeForDocument document_ir; EvAnalyzeDocument document_ir;
   EvLogOptimization; EvSaveConfig log_file].

(** The parts of the demo render. *)
Definition demo_layout_step : json -> bool -> P unit unit :=
  layout_step (fun _ => Ok tt) (fun _ => Ok tt) (fun _ _ => Ok tt)
              (fun _ _ => Ok "{}").

Definition demo_patched_html : json -> bool -> P unit string :=
  patched_html (fun _ => Ok tt) (fun _ => Ok tt) (fun _ _ => Ok tt)
               (fun _ _ => Ok "{}") (fun _ => Ok demo_html) None.

Definition demo_get_pdf_html : json -> bool -> P unit string :=
  _get_pdf_html (fun _ => Ok tt) (fun _ => Ok tt) (fun _ _ => Ok tt)
                (fun _ _ => Ok "{}") (fun _ => Ok "") (fun _ => Ok demo_html)
                (fun s => s) None.

(** The text a call returned, when it returned one. *)
Definition returned {Cfg} (x : world Cfg * result string) : string :=
  match snd x with
  | Ok s => s
  | Raise _ => ""
  end.

(** A letter that the template parser of [re.sub] refuses after a
    backslash: an ASCII letter that is no escape of the table and not the
    [g] of a group reference. *)
Definition bad_escape_letter (c : ascii) : bool :=
  is_ascii_letter c && negb (Ascii.eqb c "g") &&
  match escape_of c with
  | None => true
  | Some _ => false
  end.

(** A chart whose widget id is a number. *)
Definition numeric_widget : json :=
  JDict [("type", JStr "widget"); ("widgetId", JNum 7);
         ("widgetType", JStr "chart.js/bar")].

Definition numeric_doc : json :=
  JDict [("chapters", JList [JDict [("blocks", JList [numeric_widget])]])].

(** A converter that always raises, and one that always succeeds. *)
Definition conv_raises (b : json) (width height dpi : nat) : result (option string) :=
  Raise (ExternalError "boom").

Definition conv_ok (b : json) (width height dpi : nat) : result (option string) :=
  Ok (Some "<svg>ok</svg>").

(** What the conversion of block [b] leaves under key [k] of the vector
    map, [acc] being what was there: its SVG when the conversion gives a
    text that is not empty and the widget id of [b] is the key. *)
Definition stored (conv : json -> nat -> nat -> nat -> result (option string))
           (k : json) (acc : option string) (b : json) : option string :=
  match conv b 800 500 100 with
  | Ok (Some svg) =>
      if negb (String.eqb svg "") && key_eqb (widget_id_of b) k
      then Some svg else acc
  | _ => acc
  end.

(** The entry [render_to_pdf] logs when the rasterizer fails, and the call
    of the rasterizer. *)
Definition is_pdf_failed (entry : log_entry) : bool :=
  match entry with
  | (_, PdfFailed _) => true
  | _ => false
  end.

Definition is_write_pdf {Cfg} (ev : event Cfg) : bool :=
  match ev with
  | EvWritePdf _ => true
  | _ => false
  end.

(** [quiet w w']: from [w] to [w'] the logger and the trace only grew,
    no failure of the rasterizer was logged and the rasterizer was not
    called. *)
Definition quiet {Cfg} (w w' : world Cfg) : Prop :=
  exists lg evs,
    wlog w' = (wlog w ++ lg)%list /\ trace w' = (trace w ++ evs)%list /\
    existsb is_pdf_failed lg = false /\ existsb is_write_pdf evs = false.

(** ** The charts of a document, in document order

    What the data model says a traversal meets, written as a list: the
    chart widgets of a block sequence depth first, a block before what is
    nested in it, its sub-blocks before the blocks of its list items, these
    before the blocks of its table cells.  A chart that stands at two
    places of the document is in the list twice.  [fuel] bounds the depth,
    as in [extract]. *)
Definition item_charts (rec : list json -> list json) (item : json) : list json :=
  match item with
  | JList l => rec l
  | _ => []
  end.

Definition cell_charts (rec : list json -> list json) (cell : json) : list json :=
  match cell with
  | JDict c =>
      match get_default c "blocks" (JList []) with
      | JList l => rec l
      | _ => []
      end
  | _ => []
  end.

Definition row_charts (rec : list json -> list json) (row : json) : list json :=
  match row with
  | JDict r =>
      match get_default r "cells" (JList []) with
      | JList cells => flat_map (cell_charts rec) cells
      | _ => []
      end
  | _ => []
  end.

Definition block_charts (rec : list json -> list json) (b : json) : list json :=
  match b with
  | JDict d =>
      ((if chart_widget b then [b] else [])
       ++ match get d "blocks" with
          | JList l => rec l
          | _ => []
          end
       ++ (if eq_str (get d "type") "list" then
             match get_default d "items" (JList []) with
             | JList items => flat_map (item_charts rec) items
             | _ => []
             end
           else [])
       ++ (if eq_str (get d "type") "table" then
             match get_default d "rows" (JList []) with
             | JList rows => flat_map (row_charts rec) rows
             | _ => []
             end
           else []))%list
  | _ => []
  end.

Fixpoint charts_of (fuel : nat) (blocks : list json) : list json :=
  match fuel with
  | O => []
  | S fuel' => flat_map (block_charts (charts_of fuel')) blocks
  end.

Definition chapter_charts (chapter : json) : list json :=
  match chapter with
  | JDict c =>
      match get_default c "blocks" (JList []) with
      | JList blocks => charts_of (S (blocks_size blocks)) blocks
      | _ => []
      end
  | _ => []
  end.

Definition doc_charts (doc : json) : list json :=
  match doc with
  | JDict d =>
      match get_default d "chapters" (JList []) with
      | JList chapters => flat_map chapter_charts chapters
      | _ => []
      end
  | _ => []
  end.

(** The conversions a pass over a well-formed document is to make: its
    charts in document order when the renderer has a converter, none when
    it has not. *)
Definition expected_conversions
           (chart_converter : option (json -> nat -> nat -> nat -> result (option string)))
           (doc : json) : list json :=
  match chart_converter with
  | Some _ => doc_charts doc
  | None => []
  end.

(** * Properties *)

Unset Implicit Arguments.

(** ** Font selection *)

(** C3: for every combination of present and absent candidates,
    [_get_font_path] returns the first existing file in the order full font,
    TrueType subset, OpenType subset, and raises [FileNotFoundError] exactly
    when none of the three exists. *)
Theorem font_selection_precedence (exists_ : string -> bool) :
  fst (_get_font_path exists_) =
    match find exists_ font_candidates with
    | Some p => Ok p
    | None => Raise FileNotFoundError
    end
  /\ (is_ok (fst (_get_font_path exists_)) = false <->
      forallb (fun p => negb (exists_ p)) font_candidates = true).
Proof.
  unfold _get_font_path, font_candidates; simpl.
  destruct (exists_ full_font), (exists_ subset_ttf), (exists_ subset_otf);
    simpl; split; try reflexivity; split; intro H; congruence.
Qed.

(** Without fonts [__init__] leaves the renderer without a chart
    converter, and logs a warning. *)
Lemma init_without_fonts {Conv : Type} (exists_ : string -> bool)
      (create_chart_converter : string -> result Conv) :
  forallb (fun p => negb (exists_ p)) font_candidates = true ->
  __init__ exists_ create_chart_converter
  = (None, [], [(WARNING, ConverterInitFailed FileNotFoundError)]).
Proof.
  unfold __init__, _get_font_path, font_candidates. simpl.
  destruct (exists_ full_font), (exists_ subset_ttf), (exists_ subset_otf);
    simpl; intros H; try discriminate; reflexivity.
Qed.

(** ** Loops *)

Lemma for_each_some {A S} (body : A -> S -> M S) (l : list A) :
  (forall x s, In x l -> body x s <> None) ->
  forall s, for_each body l s <> None.
Proof.
  induction l as [|x l IH]; intros Hb s; simpl; [discriminate|].
  unfold mbind. destruct (body x s) as [[s'|e]|] eqn:E.
  - apply IH. intros y t Hy. apply Hb. now right.
  - discriminate.
  - exfalso. apply (Hb x s); [now left|assumption].
Qed.

(** A preorder kept by every iteration is kept by the loop. *)
Lemma for_each_rel {A S} (R : S -> S -> Prop) (body : A -> S -> M S) (l : list A) :
  (forall s, R s s) ->
  (forall a b c, R a b -> R b c -> R a c) ->
  (forall x s s', In x l -> body x s = Some (Ok s') -> R s s') ->
  forall s s', for_each body l s = Some (Ok s') -> R s s'.
Proof.
  intros Hrefl Htrans.
  induction l as [|x l IH]; intros Hb s s' H; simpl in H.
  - inversion H; subst. apply Hrefl.
  - unfold mbind in H. destruct (body x s) as [[s1|e]|] eqn:E; try discriminate.
    apply Htrans with s1.
    + apply (Hb x); [now left|assumption].
    + apply IH; [|assumption]. intros y t t' Hy. apply Hb. now right.
Qed.

(** Every element of a loop that ends normally had its iteration run,
    between a state reached from the start and one that reaches the end. *)
Lemma for_each_In {A S} (R : S -> S -> Prop) (body : A -> S -> M S) (l : list A) :
  (forall s, R s s) ->
  (forall a b c, R a b -> R b c -> R a c) ->
  (forall x s s', In x l -> body x s = Some (Ok s') -> R s s') ->
  forall s s' x, for_each body l s = Some (Ok s') -> In x l ->
  exists s1 s2, R s s1 /\ body x s1 = Some (Ok s2) /\ R s2 s'.
Proof.
  intros Hrefl Htrans.
  induction l as [|y l IH]; intros Hb s s' x H Hx; [destruct Hx|].
  simpl in H. unfold mbind in H.
  destruct (body y s) as [[s1|e]|] eqn:E; try discriminate.
  assert (Hl : forall z t t', In z l -> body z t = Some (Ok t') -> R t t')
    by (intros z t t' Hz; apply Hb; now right).
  destruct Hx as [->|Hx].
  - exists s, s1. repeat split; [apply Hrefl|assumption|].
    eapply for_each_rel; eauto.
  - destruct (IH Hl _ _ _ H Hx) as (t1 & t2 & H1 & H2 & H3).
    exists t1, t2. repeat split; try assumption.
    apply Htrans with s1; [|assumption]. apply (Hb y); [now left|assumption].
Qed.

(** ** Sizes *)

Lemma blocks_size_In (l : list json) (b : json) :
  In b l -> jsize b <= blocks_size l.
Proof.
  induction l as [|x l IH]; intros H; [destruct H|].
  unfold blocks_size in *; simpl. destruct H as [->|H]; [lia|].
  specialize (IH H). lia.
Qed.

Lemma jsize_pos (v : json) : 0 < jsize v.
Proof. destruct v; simpl; lia. Qed.

Lemma jsize_list (l : list json) : jsize (JList l) = S (blocks_size l).
Proof. reflexivity. Qed.

Lemma get_default_size (d : list (string * json)) (k : string) (dflt : json) :
  get_default d k dflt = dflt \/ jsize (get_default d k dflt) < jsize (JDict d).
Proof.
  induction d as [|[q v] d IH]; simpl; [now left|].
  destruct (String.eqb q k).
  - right. lia.
  - destruct IH as [IH|IH]; [now left|right]. simpl in IH. lia.
Qed.

Lemma get_list_size (d : list (string * json)) (k : string) (dflt : json) (l : list json) :
  get_default d k dflt = JList l ->
  blocks_size l < jsize (JDict d) \/ dflt = JList l.
Proof.
  intros H. destruct (get_default_size d k dflt) as [E|E].
  - right. congruence.
  - left. rewrite H, jsize_list in E. lia.
Qed.

Lemma py_iter_size (v : json) (l : list json) (x : json) :
  py_iter v = Ok l -> In x l ->
  jsize x < jsize v \/ exists s, x = JStr s.
Proof.
  destruct v; intros H Hx; simpl in H; try discriminate; inversion H; subst; clear H.
  - right. unfold chars in Hx. apply in_map_iff in Hx. destruct Hx as (c & <- & _). eauto.
  - left. apply blocks_size_In in Hx. rewrite jsize_list. lia.
  - right. apply in_map_iff in Hx. destruct Hx as (kv & <- & _). eauto.
Qed.

(** ** The traversal always returns *)

Section ExtractTotal.

Variable conv : json -> nat -> nat -> nat -> result (option string).
Variable rec : list json -> xstate -> M xstate.
Variable n : nat.
Hypothesis Hrec : forall l st, blocks_size l < n -> rec l st <> None.

Lemma do_widget_some block d st : do_widget conv block d st <> None.
Proof.
unfold do_widget. destruct (eq_str _ _); [|discriminate].
destruct (truthy _); [|discriminate].
destruct (startswith _ _) as [[|]|e]; simpl; discriminate.
Qed.

Lemma do_nested_some d st : jsize (JDict d) <= n -> do_nested rec d st <> None.
Proof.
intros Hn. unfold do_nested. destruct (get d "blocks") eqn:E; try discriminate.
apply Hrec. unfold get in E. apply get_list_size in E.
destruct E as [E|E]; [lia|discriminate].
Qed.

Lemma do_items_some d st : jsize (JDict d) <= n -> do_items rec d st <> None.
Proof.
intros Hn. unfold do_items. destruct (eq_str _ _); [|discriminate].
destruct (py_iter _) as [items|e] eqn:E; simpl; [|discriminate].
apply for_each_some. intros x s Hx. destruct x; try discriminate.
apply Hrec.
destruct (py_iter_size _ _ _ E Hx) as [H|[s' H]]; [|discriminate].
rewrite jsize_list in H.
destruct (get_default_size d "items" (JList [])) as [D|D].
- rewrite D in H. simpl in H. lia.
- lia.
Qed.

Lemma do_cell_some cell st : jsize cell <= n -> 0 < n -> do_cell rec cell st <> None.
Proof.
intros Hn Hpos. unfold do_cell. destruct cell; simpl; try discriminate.
destruct (get_default d "blocks" (JList [])) eqn:E; try discriminate.
apply Hrec. apply get_list_size in E. destruct E as [E|E].
- lia.
- inversion E; subst. exact Hpos.
Qed.

Lemma do_row_some row st : jsize row < n -> do_row rec row st <> None.
Proof.
intros Hn. unfold do_row. destruct row; simpl; try discriminate.
destruct (py_iter _) as [cells|e] eqn:E; simpl; [|discriminate].
apply for_each_some. intros x s Hx.
destruct (py_iter_size _ _ _ E Hx) as [H|[s' ->]].
- apply do_cell_some; [|lia].
  destruct (get_default_size d "cells" (JList [])) as [D|D].
  + rewrite D in H. simpl in H. lia.
  + lia.
- discriminate.
Qed.

Lemma do_table_some d st : jsize (JDict d) <= n -> do_table rec d st <> None.
Proof.
intros Hn. unfold do_table. destruct (eq_str _ _); [|discriminate].
destruct (py_iter _) as [rows|e] eqn:E; simpl; [|discriminate].
apply for_each_some. intros x s Hx.
destruct (py_iter_size _ _ _ E Hx) as [H|[s' ->]].
- apply do_row_some. pose proof (jsize_pos (JDict d)).
  destruct (get_default_size d "rows" (JList [])) as [D|D].
  + rewrite D in H. simpl in H. lia.
  + lia.
- discriminate.
Qed.

Lemma extract_block_some block st :
jsize block <= n -> extract_block conv rec block st <> None.
Proof.
intros Hn. unfold extract_block. destruct block; try discriminate.
unfold mbind.
pose proof (do_widget_some (JDict d) d st) as H1.
destruct (do_widget _ _ _ _) as [[s1|e]|]; try discriminate; [|congruence].
pose proof (do_nested_some d s1 Hn) as H2.
destruct (do_nested _ _ _) as [[s2|e]|]; try discriminate; [|congruence].
pose proof (do_items_some d s2 Hn) as H3.
destruct (do_items _ _ _) as [[s3|e]|]; try discriminate; [|congruence].
apply do_table_some; assumption.
Qed.

End ExtractTotal.

Lemma extract_total conv (fuel : nat) :
  forall blocks st, blocks_size blocks < fuel -> extract conv fuel blocks st <> None.
Proof.
  induction fuel as [|f IH]; intros blocks st H; [lia|].
  simpl. apply for_each_some. intros b s Hb.
  apply extract_block_some with (n := f).
  - exact IH.
  - apply blocks_size_In in Hb. lia.
Qed.

(** ** Reasoning about the traversal *)

Ltac inv H := inversion H; subst; clear H.

(** Case analysis of [x <-- m ;; k = Some (Ok s')]. *)
Lemma mbind_ok {S T} (m : M S) (k : S -> M T) (t : T) :
  mbind m k = Some (Ok t) -> exists s, m = Some (Ok s) /\ k s = Some (Ok t).
Proof.
  unfold mbind. destruct m as [[s|e]|]; intros H; try discriminate. eauto.
Qed.

Lemma py_iter_has_list (v : json) (items l : list json) :
  py_iter v = Ok items -> In (JList l) items -> v = JList items.
Proof.
  destruct v; simpl; intros H Hx; try discriminate; inv H.
  - unfold chars in Hx. apply in_map_iff in Hx. destruct Hx as (c & E & _). discriminate.
  - reflexivity.
  - apply in_map_iff in Hx. destruct Hx as (kv & E & _). discriminate.
Qed.

Lemma py_iter_has_dict (v : json) (items : list json) (d : list (string * json)) :
  py_iter v = Ok items -> In (JDict d) items -> v = JList items.
Proof.
  destruct v; simpl; intros H Hx; try discriminate; inv H.
  - unfold chars in Hx. apply in_map_iff in Hx. destruct Hx as (c & E & _). discriminate.
  - reflexivity.
  - apply in_map_iff in Hx. destruct Hx as (kv & E & _). discriminate.
Qed.

Lemma occurs_child (blocks : list json) (b : json) (l : list json) (w : json) :
  In b blocks -> child_seq b l -> occurs l w -> occurs blocks w.
Proof. intros. eapply occurs_nested; eauto. Qed.

(** The test that guards a conversion is [chart_widget]. *)
Lemma do_widget_cases conv (d : list (string * json)) (st st' : xstate) :
  do_widget conv (JDict d) d st = Some (Ok st') ->
  (chart_widget (JDict d) = true /\
   st' = convert_one conv (JDict d) (get d "widgetId") st)
  \/ (chart_widget (JDict d) = false /\ st' = st).
Proof.
  unfold do_widget, chart_widget.
  destruct (eq_str (get d "type") "widget"); simpl; [|intros H; inv H; auto].
  destruct (truthy (get d "widgetId")); simpl; [|intros H; inv H; auto].
  destruct (get_default d "widgetType" (JStr "")); simpl; try discriminate.
  destruct (String.prefix "chart.js" s); intros H; inv H; auto.
Qed.

Section Invariant.

Variable conv : json -> nat -> nat -> nat -> result (option string).
(** [I] relates a state to a later one; [W] holds of the chart widgets
  that may be converted in between. *)
Variable I : xstate -> xstate -> Prop.
Variable W : json -> Prop.
Hypothesis Irefl : forall s, I s s.
Hypothesis Itrans : forall a b c, I a b -> I b c -> I a c.
Hypothesis Hconv : forall d st,
  chart_widget (JDict d) = true -> W (JDict d) ->
  I st (convert_one conv (JDict d) (get d "widgetId") st).

Section Step.

Variable rec : list json -> xstate -> M xstate.
Hypothesis Hrec : forall l st st',
all_in W l -> rec l st = Some (Ok st') -> I st st'.

Lemma do_widget_inv d st st' :
(chart_widget (JDict d) = true -> W (JDict d)) ->
do_widget conv (JDict d) d st = Some (Ok st') -> I st st'.
Proof.
intros HW H. apply do_widget_cases in H.
destruct H as [[Hc ->]|[_ ->]]; auto.
Qed.

Lemma do_nested_inv d st st' :
all_in W [JDict d] -> do_nested rec d st = Some (Ok st') -> I st st'.
Proof.
intros HW. unfold do_nested. destruct (get d "blocks") eqn:E;
try (intros H; inv H; apply Irefl).
apply Hrec. intros w Hw. apply HW.
eapply occurs_child; [left; reflexivity|apply child_blocks; exact E|exact Hw].
Qed.

Lemma do_items_inv d st st' :
all_in W [JDict d] -> do_items rec d st = Some (Ok st') -> I st st'.
Proof.
intros HW. unfold do_items. destruct (eq_str (get d "type") "list") eqn:T;
[|intros H; inv H; apply Irefl].
intros H. apply mbind_ok in H. destruct H as (items & E & H).
unfold lift in E. inv E. rename H1 into E.
revert H. apply for_each_rel; auto.
intros x s s' Hx. destruct x; try (intros H; inv H; apply Irefl).
apply Hrec. intros w Hw. apply HW.
pose proof (py_iter_has_list _ _ _ E Hx) as V.
eapply occurs_child; [left; reflexivity| |exact Hw].
eapply child_item; eauto.
Qed.

Lemma do_cell_inv d r cells cell st st' :
all_in W [JDict d] ->
eq_str (get d "type") "table" = true ->
forall rows, get_default d "rows" (JList []) = JList rows ->
In (JDict r) rows ->
get_default r "cells" (JList []) = JList cells ->
In cell cells ->
do_cell rec cell st = Some (Ok st') -> I st st'.
Proof.
intros HW T rows Er Hr Ec Hc. unfold do_cell. intros H.
apply mbind_ok in H. destruct H as (cb & E & H).
destruct cell; simpl in E; unfold lift in E; try discriminate. inv E.
destruct (get_default d0 "blocks" (JList [])) eqn:B;
try (inv H; apply Irefl).
revert H. apply Hrec. intros w Hw. apply HW.
eapply occurs_child; [left; reflexivity| |exact Hw].
eapply child_cell; eauto.
Qed.

Lemma do_row_inv d rows row st st' :
all_in W [JDict d] ->
eq_str (get d "type") "table" = true ->
get_default d "rows" (JList []) = JList rows ->
In row rows ->
do_row rec row st = Some (Ok st') -> I st st'.
Proof.
intros HW T Er Hr. unfold do_row. intros H.
apply mbind_ok in H. destruct H as (cv & E & H).
destruct row; simpl in E; unfold lift in E; try discriminate. inv E.
apply mbind_ok in H. destruct H as (cells & E & H).
unfold lift in E. inv E. rename H1 into E.
revert H. apply for_each_rel; auto.
intros x s s' Hx Hcell.
destruct x; try (unfold do_cell in Hcell; simpl in Hcell; discriminate).
pose proof (py_iter_has_dict _ _ _ E Hx) as V.
eapply do_cell_inv; eauto.
Qed.

Lemma do_table_inv d st st' :
all_in W [JDict d] -> do_table rec d st = Some (Ok st') -> I st st'.
Proof.
intros HW. unfold do_table. destruct (eq_str (get d "type") "table") eqn:T;
[|intros H; inv H; apply Irefl].
intros H. apply mbind_ok in H. destruct H as (rows & E & H).
unfold lift in E. inv E. rename H1 into E.
revert H. apply for_each_rel; auto.
intros x s s' Hx Hrow.
destruct x; try (unfold do_row in Hrow; simpl in Hrow; discriminate).
pose proof (py_iter_has_dict _ _ _ E Hx) as V.
eapply do_row_inv; eauto.
Qed.

Lemma extract_block_inv b st st' :
all_in W [b] -> extract_block conv rec b st = Some (Ok st') -> I st st'.
Proof.
intros HW. unfold extract_block. destruct b; try (intros H; inv H; apply Irefl).
intros H.
apply mbind_ok in H. destruct H as (s1 & H1 & H).
apply mbind_ok in H. destruct H as (s2 & H2 & H).
apply mbind_ok in H. destruct H as (s3 & H3 & H4).
apply Itrans with s1.
{ eapply do_widget_inv; eauto. intros Hc. apply HW; [|exact Hc].
apply occurs_here. now left. }
apply Itrans with s2. { eapply do_nested_inv; eauto. }
apply Itrans with s3. { eapply do_items_inv; eauto. }
eapply do_table_inv; eauto.
Qed.

Lemma all_in_one blocks b : all_in W blocks -> In b blocks -> all_in W [b].
Proof.
intros HW Hb w Hw. apply HW. inv Hw.
- destruct H as [<-|[]]. now apply occurs_here.
- destruct H as [<-|[]]. eapply occurs_nested; eauto.
Qed.

Lemma blocks_inv blocks st st' :
all_in W blocks ->
for_each (extract_block conv rec) blocks st = Some (Ok st') -> I st st'.
Proof.
intros HW. apply for_each_rel; auto.
intros x s s' Hx. apply extract_block_inv. eapply all_in_one; eauto.
Qed.

End Step.

(** The invariant rule: if every conversion of a chart widget of the
  document keeps [I], the traversal keeps [I]. *)
Lemma extract_inv (fuel : nat) : forall blocks st st',
  all_in W blocks -> extract conv fuel blocks st = Some (Ok st') -> I st st'.
Proof.
induction fuel as [|f IH]; intros blocks st st' HW H; [discriminate|].
simpl in H. eapply blocks_inv; eauto.
Qed.

End Invariant.

Lemma occurs_inv (blocks : list json) (w : json) :
  occurs blocks w ->
  In w blocks \/ exists b l, In b blocks /\ child_seq b l /\ occurs l w.
Proof. intros H. inv H; [left|right]; eauto. Qed.

Lemma chart_widget_dict (w : json) :
  chart_widget w = true -> exists d, w = JDict d.
Proof. destruct w; simpl; try discriminate; eauto. Qed.

Section Reach.

Variable conv : json -> nat -> nat -> nat -> result (option string).
(** [J] is established when the block [w] is converted and kept by the
  conversion of the chart widgets in [W]. *)
Variable J : xstate -> Prop.
Variable W : json -> Prop.
Variable w : json.
Hypothesis Hw : chart_widget w = true.
Hypothesis Hest : forall d st, w = JDict d ->
  J (convert_one conv w (get d "widgetId") st).
Hypothesis Hpres : forall d st,
  chart_widget (JDict d) = true -> W (JDict d) -> J st ->
  J (convert_one conv (JDict d) (get d "widgetId") st).

Let I (s s' : xstate) : Prop := J s -> J s'.

Local Lemma Irefl : forall s, I s s.
Proof. unfold I; auto. Qed.

Local Lemma Itrans : forall a b c, I a b -> I b c -> I a c.
Proof. unfold I; auto. Qed.

Local Lemma Iconv : forall d st,
  chart_widget (JDict d) = true -> W (JDict d) ->
  I st (convert_one conv (JDict d) (get d "widgetId") st).
Proof. unfold I; intros; apply Hpres; auto. Qed.

(** From a loop [H] that ended normally and an element [Hx] of it: the
  iteration of that element, [Hrun], and what follows it, [Hrest]. *)
Ltac loop_in H Hx t1 t2 Hrun Hrest :=
match type of H with
| for_each ?body ?l ?s = Some (Ok ?s') =>
    let Hb := fresh "Hb" in
    assert (Hb : forall y a a', In y l -> body y a = Some (Ok a') -> I a a');
    [ | destruct (for_each_In I body l Irefl Itrans Hb s s' _ H Hx)
          as (t1 & t2 & _ & Hrun & Hrest) ]
end.

Section Step.

Variable rec : list json -> xstate -> M xstate.
Hypothesis Hrec1 : forall l st st',
all_in W l -> rec l st = Some (Ok st') -> I st st'.
Hypothesis Hrec2 : forall l st st',
all_in W l -> occurs l w -> rec l st = Some (Ok st') -> J st'.

Let sub_all {blocks b l} :
all_in W blocks -> In b blocks -> child_seq b l -> all_in W l.
Proof.
intros HW Hb Hc x Hx. apply HW. eapply occurs_nested; eauto.
Qed.

Lemma item_keeps x s s' :
(forall l, x = JList l -> all_in W l) ->
match x with JList l => rec l s | _ => ret s end = Some (Ok s') -> I s s'.
Proof.
intros HW. destruct x; try (intros H; inv H; apply Irefl).
apply Hrec1. now apply HW.
Qed.

Lemma block_reach_here d st st' :
w = JDict d -> all_in W [w] ->
extract_block conv rec w st = Some (Ok st') -> J st'.
Proof.
intros E HW H. pose proof Hw as Hw'. pose proof (Hest d st E) as HJ.
rewrite E in H, HW, Hw', HJ. unfold extract_block in H.
apply mbind_ok in H. destruct H as (s1 & H1 & H).
apply mbind_ok in H. destruct H as (s2 & H2 & H).
apply mbind_ok in H. destruct H as (s3 & H3 & H4).
apply do_widget_cases in H1. destruct H1 as [[_ ->]|[Hc _]]; [|congruence].
eapply (do_table_inv I W Irefl Itrans rec Hrec1); eauto.
eapply (do_items_inv I W Irefl Itrans rec Hrec1); eauto.
eapply (do_nested_inv I W Irefl rec Hrec1); eauto.
Qed.

Lemma block_reach_child b l st st' :
all_in W [b] -> child_seq b l -> occurs l w ->
extract_block conv rec b st = Some (Ok st') -> J st'.
Proof.
intros HW Hc Ho H.
assert (HWl : all_in W l) by (eapply sub_all; eauto; now left).
destruct Hc as [d l E | d items l T E Hi | d rows r cells c l T Er Hr Ec Hc El];
unfold extract_block in H;
apply mbind_ok in H; destruct H as (s1 & H1 & H);
apply mbind_ok in H; destruct H as (s2 & H2 & H);
apply mbind_ok in H; destruct H as (s3 & H3 & H4).
- (* sub-blocks *)
eapply (do_table_inv I W Irefl Itrans rec Hrec1); eauto.
eapply (do_items_inv I W Irefl Itrans rec Hrec1); eauto.
unfold do_nested in H2. rewrite E in H2. eapply Hrec2; eauto.
- (* a list item *)
eapply (do_table_inv I W Irefl Itrans rec Hrec1); eauto.
unfold do_items in H3. rewrite T, E in H3. simpl in H3.
loop_in H3 Hi t1 t2 Hrun Hrest.
{ intros x s s' Hx. apply item_keeps. intros l' ->.
  eapply sub_all; [exact HW|now left|]. eapply child_item; eauto. }
apply Hrest. eapply Hrec2; eauto.
- (* a table cell *)
unfold do_table in H4. rewrite T, Er in H4. simpl in H4.
loop_in H4 Hr t1 t2 Hrun Hrest.
{ intros x s s' Hx. eapply (do_row_inv I W Irefl Itrans rec Hrec1); eauto. }
apply Hrest. clear Hrest H4.
unfold do_row in Hrun. simpl in Hrun. rewrite Ec in Hrun. simpl in Hrun.
loop_in Hrun Hc u1 u2 Hcell Hrest.
{ intros x s s' Hx. eapply (do_cell_inv I W Irefl rec Hrec1); eauto. }
apply Hrest. unfold do_cell in Hcell. simpl in Hcell. rewrite El in Hcell.
eapply Hrec2; eauto.
Qed.

Lemma blocks_reach blocks st st' :
all_in W blocks -> occurs blocks w ->
for_each (extract_block conv rec) blocks st = Some (Ok st') -> J st'.
Proof.
intros HW Ho H.
assert (Hkeep : forall x s s', In x blocks ->
        extract_block conv rec x s = Some (Ok s') -> I s s').
{ intros x s s' Hx. apply (extract_block_inv conv I W Irefl Itrans Iconv rec Hrec1).
eapply all_in_one; eauto. }
apply occurs_inv in Ho. destruct Ho as [Hin|(b & l & Hin & Hc & Hl)].
- destruct (for_each_In I _ blocks Irefl Itrans Hkeep _ _ _ H Hin)
  as (t1 & t2 & _ & Hrun & Hrest).
apply Hrest. destruct (chart_widget_dict w Hw) as (d & E).
eapply block_reach_here; eauto. eapply all_in_one; eauto.
- destruct (for_each_In I _ blocks Irefl Itrans Hkeep _ _ _ H Hin)
  as (t1 & t2 & _ & Hrun & Hrest).
apply Hrest. eapply block_reach_child; eauto. eapply all_in_one; eauto.
Qed.

End Step.

(** The reachability rule: a chart widget anywhere in [blocks] is
  converted, and what its conversion establishes still holds at the
  end. *)
Lemma extract_reach (fuel : nat) : forall blocks st st',
  all_in W blocks -> occurs blocks w ->
  extract conv fuel blocks st = Some (Ok st') -> J st'.
Proof.
induction fuel as [|f IH]; intros blocks st st' HW Ho H; [discriminate|].
simpl in H. eapply blocks_reach; eauto.
intros l s s' Hl. apply (extract_inv conv I W Irefl Itrans Iconv f); auto.
Qed.

End Reach.

(** ** A well-formed document is traversed without an exception *)

Lemma for_each_no_raise {A S} (body : A -> S -> M S) (l : list A) :
  (forall x s e, In x l -> body x s <> Some (Raise e)) ->
  forall s e, for_each body l s <> Some (Raise e).
Proof.
  induction l as [|x l IH]; intros Hb s e; simpl; [discriminate|].
  unfold mbind. destruct (body x s) as [[s'|e']|] eqn:E.
  - apply IH. intros y t e1 Hy. apply Hb. now right.
  - exfalso. apply (Hb x s e'); [now left|assumption].
  - discriminate.
Qed.

Section NoRaise.

Variable conv : json -> nat -> nat -> nat -> result (option string).
Variable rec : list json -> xstate -> M xstate.
Hypothesis Hrec : forall l st e, Forall wf_block l -> rec l st <> Some (Raise e).

Lemma extract_block_no_raise b st e :
wf_block b -> extract_block conv rec b st <> Some (Raise e).
Proof.
intros Hwf. destruct Hwf as [v Hv | d Hw Hn Hi Ht].
- destruct v; simpl; try discriminate. exfalso. eapply Hv; eauto.
- unfold extract_block, mbind.
  destruct (do_widget conv (JDict d) d st) as [[s1|e1]|] eqn:E1; try discriminate.
  2:{ exfalso. unfold do_widget in E1.
      destruct (eq_str (get d "type") "widget"); [|discriminate].
      destruct (truthy (get d "widgetId")); [|discriminate].
      destruct Hw as (s & Hs); auto. rewrite Hs in E1. simpl in E1.
      destruct (String.prefix "chart.js" s); discriminate. }
  destruct (do_nested rec d s1) as [[s2|e2]|] eqn:E2; try discriminate.
  2:{ exfalso. unfold do_nested in E2.
      destruct (get d "blocks") eqn:B; try discriminate.
      apply (Hrec l s1 e2); [apply Hn; reflexivity | exact E2]. }
  destruct (do_items rec d s2) as [[s3|e3]|] eqn:E3; try discriminate.
  2:{ exfalso. unfold do_items in E3.
      destruct (eq_str (get d "type") "list"); [|discriminate].
      destruct Hi as (items & Hitems & Hall); auto.
      rewrite Hitems in E3. simpl in E3. revert E3.
      apply for_each_no_raise. intros x s e0 Hx.
      destruct x; try discriminate. apply Hrec. now apply Hall. }
  unfold do_table.
  destruct (eq_str (get d "type") "table"); [|discriminate].
  destruct Ht as (rows & Hrows & Hall); auto.
  rewrite Hrows. simpl.
  apply for_each_no_raise. intros row s e0 Hrow.
  destruct (Hall row Hrow) as (r & cells & -> & Hcells & Hc).
  unfold do_row. simpl. rewrite Hcells. simpl.
  apply for_each_no_raise. intros cell s' e1 Hcell.
  destruct (Hc cell Hcell) as (c & -> & Hb).
  unfold do_cell. simpl.
  destruct (get_default c "blocks" (JList [])) eqn:B; try discriminate.
  apply Hrec. now apply Hb.
Qed.

End NoRaise.

Lemma extract_no_raise conv (fuel : nat) : forall blocks st e,
    Forall wf_block blocks -> extract conv fuel blocks st <> Some (Raise e).
Proof.
  induction fuel as [|f IH]; intros blocks st e Hwf; [discriminate|].
  simpl. apply for_each_no_raise. intros x s e0 Hx.
  apply extract_block_no_raise; [exact IH|].
  rewrite Forall_forall in Hwf. now apply Hwf.
Qed.

(** On a well-formed block sequence the traversal ends normally. *)
Lemma extract_wf_ok conv (blocks : list json) (st : xstate) :
  Forall wf_block blocks ->
  exists st', _extract_and_convert_widgets conv (JList blocks) st = Some (Ok st').
Proof.
  intros Hwf. unfold _extract_and_convert_widgets. simpl.
  destruct (extract conv (S (blocks_size blocks)) blocks st) as [[st'|e]|] eqn:E.
  - eauto.
  - exfalso. eapply extract_no_raise; eauto.
  - exfalso. eapply extract_total; [|exact E]. lia.
Qed.

(** ** Chart discovery *)

Lemma convert_one_converted conv (b k : json) (st : xstate) :
  converted (convert_one conv b k st) = (converted st ++ [b])%list.
Proof.
  unfold convert_one.
  destruct (conv b 800 500 100) as [[svg|]|e]; simpl; try reflexivity.
  destruct (negb (String.eqb svg "")); simpl; try reflexivity.
  destruct (hashable k); reflexivity.
Qed.

(** In a well-formed block sequence, every chart widget is handed to the
    converter, at whatever depth it sits. *)
Lemma blocks_discovery
        (conv : json -> nat -> nat -> nat -> result (option string))
        (blocks : list json) (st : xstate) (w : json) :
  Forall wf_block blocks ->
  occurs blocks w ->
  chart_widget w = true ->
  exists st',
    _extract_and_convert_widgets conv (JList blocks) st = Some (Ok st')
    /\ In w (converted st').
Proof.
  intros Hwf Ho Hc.
  destruct (extract_wf_ok conv blocks st Hwf) as (st' & E).
  exists st'. split; [exact E|].
  unfold _extract_and_convert_widgets in E. simpl in E.
  apply (extract_reach conv (fun s => In w (converted s)) (fun _ => True) w Hc)
    with (fuel := S (blocks_size blocks)) (blocks := blocks) (st := st); auto.
  - intros d s _. rewrite convert_one_converted. apply in_or_app. right. now left.
  - intros d s _ _ H. rewrite convert_one_converted. apply in_or_app. now left.
  - intros x _ _. exact Logic.I.
Qed.

Ltac wf_tac :=
  repeat match goal with
         | |- Forall _ [] => apply Forall_nil
         | |- Forall _ (_ :: _) => apply Forall_cons
         | |- wf_block (JDict _) => apply wf_dict; unfold get; simpl; intros
         | |- wf_block _ => apply wf_other; intros; discriminate
         | H : false = true |- _ => discriminate H
         | H : JNull = JList _ |- _ => discriminate H
         | H : JList _ = JList ?l |- _ => is_var l; inversion H; subst
         | H : In _ [] |- _ => destruct H
         | H : In _ (_ :: _) |- _ => destruct H as [H|H]; [try discriminate H; inversion H; subst|]
         | |- exists _, JStr _ = JStr _ => eexists; reflexivity
         | |- exists _, JList _ = JList _ /\ _ => eexists; split; [reflexivity|intros]
         | |- exists _ _, JDict _ = JDict _ /\ _ => do 2 eexists; split; [reflexivity|simpl; split; [reflexivity|intros]]
         | |- exists _, JDict _ = JDict _ /\ _ => eexists; split; [reflexivity|simpl; intros]
         end.

Lemma deep_blocks_wf : Forall wf_block deep_blocks.
Proof. unfold deep_blocks, deep_widget. wf_tac. Defined.

Lemma deep_widget_occurs : occurs deep_blocks deep_widget.
Proof.
  unfold deep_blocks.
  eapply occurs_nested; [left; reflexivity| |].
  - eapply child_cell;
      [reflexivity|reflexivity|simpl; left; reflexivity
      |reflexivity|simpl; left; reflexivity|reflexivity].
  - eapply occurs_nested; [left; reflexivity| |].
    + eapply child_item; [reflexivity|reflexivity|simpl; left; reflexivity].
    + apply occurs_here. left. reflexivity.
Defined.


(** ** The vector map as a dict *)

Lemma key_eqb_refl (k : json) : hashable k = true -> key_eqb k k = true.
Proof.
  destruct k; simpl; intros H; try discriminate; auto.
  - destruct b; reflexivity.
  - apply Nat.eqb_refl.
  - apply String.eqb_refl.
Qed.

Lemma key_eqb_sym (a b : json) : key_eqb a b = key_eqb b a.
Proof.
  destruct a, b; simpl; auto.
  - destruct b0, b; reflexivity.
  - apply Nat.eqb_sym.
  - apply String.eqb_sym.
Qed.

Lemma key_eqb_trans (a b c : json) :
  key_eqb a b = true -> key_eqb b c = true -> key_eqb a c = true.
Proof.
  destruct a, b, c; simpl; intros H1 H2; try discriminate; auto;
    repeat match goal with
           | x : bool |- _ => destruct x
           | H : Nat.eqb _ _ = true |- _ => apply Nat.eqb_eq in H
           | H : String.eqb _ _ = true |- _ => apply String.eqb_eq in H
           end; simpl in *; subst; try discriminate; try reflexivity;
    try apply Nat.eqb_refl; try apply String.eqb_refl.
Qed.

Lemma lookup_setitem_same (m : svg_map_t) (k : json) (v : string) :
  hashable k = true -> lookup (setitem m k v) k = Some v.
Proof.
  intros Hk. induction m as [|[k' v'] m IH]; simpl.
  - now rewrite key_eqb_refl.
  - destruct (key_eqb k' k) eqn:E; simpl; rewrite E; auto.
Qed.

Lemma lookup_setitem_other (m : svg_map_t) (k k2 : json) (v : string) :
  key_eqb k k2 = false -> lookup (setitem m k v) k2 = lookup m k2.
Proof.
  intros Hk. induction m as [|[k' v'] m IH]; simpl.
  - now rewrite Hk.
  - destruct (key_eqb k' k) eqn:E; simpl.
    + destruct (key_eqb k' k2) eqn:E2; auto.
      rewrite key_eqb_sym in E.
      rewrite (key_eqb_trans _ _ _ E E2) in Hk. discriminate.
    + destruct (key_eqb k' k2); auto.
Qed.


(** ** What one conversion does *)

Lemma convert_one_fails conv (b k : json) (st : xstate) :
  conv_fails conv b = true ->
  svg_map (convert_one conv b k st) = svg_map st /\
  xlog (convert_one conv b k st) = (xlog st ++ [failure_entry conv b k])%list.
Proof.
  unfold conv_fails, failure_entry, convert_one.
  destruct (conv b 800 500 100) as [[svg|]|e]; simpl; intros H; auto.
  rewrite H. simpl. auto.
Qed.




(** ** Whole documents *)

Lemma for_each_ok {A S} (body : A -> S -> M S) (l : list A) :
  (forall x s, In x l -> exists s', body x s = Some (Ok s')) ->
  forall s, exists s', for_each body l s = Some (Ok s').
Proof.
  induction l as [|x l IH]; intros Hb s; simpl.
  - exists s. reflexivity.
  - destruct (Hb x s) as (s1 & E); [now left|]. unfold mbind. rewrite E.
    apply IH. intros y t Hy. apply Hb. now right.
Qed.

Lemma chars_no_chart (s : string) (w : json) :
  occurs (chars s) w -> chart_widget w = true -> False.
Proof.
  intros Ho Hc. apply occurs_inv in Ho.
  destruct Ho as [Hin|(b & l & Hin & Hch & _)];
    unfold chars in Hin; apply in_map_iff in Hin; destruct Hin as (c & <- & _).
  - discriminate.
  - inv Hch.
Qed.

Lemma keys_no_chart (d : list (string * json)) (w : json) :
  occurs (map (fun kv => JStr (fst kv)) d) w -> chart_widget w = true -> False.
Proof.
  intros Ho Hc. apply occurs_inv in Ho.
  destruct Ho as [Hin|(b & l & Hin & Hch & _)];
    apply in_map_iff in Hin; destruct Hin as (c & <- & _).
  - discriminate.
  - inv Hch.
Qed.

Lemma iter_occurs (v : json) (l : list json) (w : json) :
  py_iter v = Ok l -> occurs l w -> chart_widget w = true -> v = JList l.
Proof.
  destruct v; simpl; intros H Ho Hc; try discriminate; inv H.
  - exfalso. eapply chars_no_chart; eauto.
  - reflexivity.
  - exfalso. eapply keys_no_chart; eauto.
Qed.

(** The body of the loop over the chapters, taken apart. *)
Lemma chapter_run_ok conv (chapter : json) (st st' : xstate) :
  (blocks <-- lift (obj_get_default chapter "blocks" (JList [])) ;;
   _extract_and_convert_widgets conv blocks st) = Some (Ok st') ->
  exists c l,
    chapter = JDict c /\
    py_iter (get_default c "blocks" (JList [])) = Ok l /\
    extract conv (S (blocks_size l)) l st = Some (Ok st').
Proof.
  intros H. apply mbind_ok in H. destruct H as (bv & E & H).
  destruct chapter; simpl in E; unfold lift in E; try discriminate. inv E.
  unfold _extract_and_convert_widgets in H.
  apply mbind_ok in H. destruct H as (l & E & H). unfold lift in E. inv E.
  eauto.
Qed.

Lemma charts_run_ok conv (doc : json) (st st' : xstate) :
  charts_run conv doc st = Some (Ok st') ->
  exists d chapters,
    doc = JDict d /\
    py_iter (get_default d "chapters" (JList [])) = Ok chapters /\
    for_each (fun chapter st =>
                blocks <-- lift (obj_get_default chapter "blocks" (JList [])) ;;
                _extract_and_convert_widgets conv blocks st)
             chapters st = Some (Ok st').
Proof.
  unfold charts_run. intros H.
  apply mbind_ok in H. destruct H as (cv & E & H).
  destruct doc; simpl in E; unfold lift in E; try discriminate. inv E.
  apply mbind_ok in H. destruct H as (chapters & E & H). unfold lift in E. inv E.
  eauto.
Qed.

Section DocInvariant.

Variable conv : json -> nat -> nat -> nat -> result (option string).
Variable I : xstate -> xstate -> Prop.
Variable W : json -> Prop.
Hypothesis Irefl : forall s, I s s.
Hypothesis Itrans : forall a b c, I a b -> I b c -> I a c.
Hypothesis Hconv : forall d st,
  chart_widget (JDict d) = true -> W (JDict d) ->
  I st (convert_one conv (JDict d) (get d "widgetId") st).

Lemma chapter_inv (d : list (string * json)) (chapters : list json)
    (chapter : json) (st st' : xstate) :
(forall w, doc_occurs (JDict d) w -> chart_widget w = true -> W w) ->
py_iter (get_default d "chapters" (JList [])) = Ok chapters ->
In chapter chapters ->
(blocks <-- lift (obj_get_default chapter "blocks" (JList [])) ;;
 _extract_and_convert_widgets conv blocks st) = Some (Ok st') ->
I st st'.
Proof.
intros HW Ech Hin H.
apply chapter_run_ok in H. destruct H as (c & l & -> & El & H).
revert H. apply (extract_inv conv I W Irefl Itrans Hconv).
intros w Ho Hc. apply HW; [|exact Hc].
exists l. split; [|exact Ho].
eapply chapter_blocks_intro.
- rewrite (py_iter_has_dict _ _ _ Ech Hin). reflexivity.
- exact Hin.
- apply (iter_occurs _ _ _ El Ho Hc).
Qed.

(** The invariant rule, for a document. *)
Lemma charts_run_inv (doc : json) (st st' : xstate) :
(forall w, doc_occurs doc w -> chart_widget w = true -> W w) ->
charts_run conv doc st = Some (Ok st') -> I st st'.
Proof.
intros HW H. apply charts_run_ok in H.
destruct H as (d & chapters & -> & Ech & H).
revert H. apply for_each_rel; auto.
intros x s s' Hx. eapply chapter_inv; eauto.
Qed.

End DocInvariant.

Section DocReach.

Variable conv : json -> nat -> nat -> nat -> result (option string).
Variable J : xstate -> Prop.
Variable W : json -> Prop.
Variable w : json.
Hypothesis Hw : chart_widget w = true.
Hypothesis Hest : forall d st, w = JDict d ->
  J (convert_one conv w (get d "widgetId") st).
Hypothesis Hpres : forall d st,
  chart_widget (JDict d) = true -> W (JDict d) -> J st ->
  J (convert_one conv (JDict d) (get d "widgetId") st).

(** The reachability rule, for a document. *)
Lemma charts_run_reach (doc : json) (st st' : xstate) :
(forall x, doc_occurs doc x -> chart_widget x = true -> W x) ->
doc_occurs doc w ->
charts_run conv doc st = Some (Ok st') -> J st'.
Proof.
intros HW (blocks & Hcb & Ho) H.
destruct Hcb as [d chapters c blocks Ech Hin Ebl].
apply charts_run_ok in H. destruct H as (d' & chapters' & Ed & Ech' & H).
inv Ed. rewrite Ech in Ech'. simpl in Ech'. inv Ech'.
set (K := fun s s' : xstate => J s -> J s').
assert (Krefl : forall s, K s s) by (unfold K; auto).
assert (Ktrans : forall a b c, K a b -> K b c -> K a c) by (unfold K; auto).
assert (Kconv : forall d st, chart_widget (JDict d) = true -> W (JDict d) ->
                  K st (convert_one conv (JDict d) (get d "widgetId") st))
  by (unfold K; intros; apply Hpres; auto).
assert (Hb : forall x s s', In x chapters' ->
           (blocks <-- lift (obj_get_default x "blocks" (JList [])) ;;
            _extract_and_convert_widgets conv blocks s) = Some (Ok s') -> K s s').
{ intros x s s' Hx. eapply (chapter_inv conv K W Krefl Ktrans Kconv); eauto.
  rewrite Ech. reflexivity. }
destruct (for_each_In K _ chapters' Krefl Ktrans Hb _ _ _ H Hin)
  as (t1 & t2 & _ & Hrun & Hrest).
apply Hrest. apply chapter_run_ok in Hrun.
destruct Hrun as (c' & l & Ec & El & Hrun). inv Ec.
rewrite Ebl in El. simpl in El. inv El.
revert Hrun.
apply (extract_reach conv J W w Hw Hest Hpres); [|exact Ho].
intros x Hx Hc. apply HW; [|exact Hc].
exists l. split; [|exact Hx]. eapply chapter_blocks_intro; eauto.
Qed.

End DocReach.

(** A well-formed document is traversed to the end. *)
Lemma charts_run_wf_ok conv (doc : json) (st : xstate) :
  wf_document doc -> exists st', charts_run conv doc st = Some (Ok st').
Proof.
  intros (d & chapters & -> & Ech & Hall).
  unfold charts_run. simpl. rewrite Ech. simpl.
  apply for_each_ok. intros ch s Hin.
  destruct (Hall ch Hin) as (c & blocks & -> & Ebl & Hwf).
  simpl. rewrite Ebl. apply extract_wf_ok. exact Hwf.
Qed.

(** C1: in a well-formed document, every widget block with a widget id whose
    type tag starts with [chart.js] is handed to the converter, at whatever
    depth it sits: in the sub-blocks of a block, in a list item, in a table
    cell, or under any chain of these. *)
Theorem chart_discovery_any_depth
        (Cfg : Type)
        (conv : json -> nat -> nat -> nat -> result (option string))
        (doc : json) (w0 : world Cfg) (w : json) :
  wf_document doc ->
  doc_occurs doc w ->
  chart_widget w = true ->
  exists w' m,
    _convert_charts_to_svg (Some conv) doc w0 = (w', Ok m)
    /\ In (EvConvert w) (trace w').
Proof.
  intros Hwf Ho Hc. unfold _convert_charts_to_svg.
  destruct (charts_run_wf_ok conv doc (mk_xstate [] [] []) Hwf) as (st' & E).
  rewrite E. do 2 eexists. split; [reflexivity|].
  simpl. apply in_or_app. right. apply in_map.
  revert E.
  apply (charts_run_reach conv (fun s => In w (converted s)) (fun _ => True) w Hc);
    auto.
  - intros d s _. rewrite convert_one_converted. apply in_or_app. right. now left.
  - intros d s _ _ H. rewrite convert_one_converted. apply in_or_app. now left.
Qed.

Lemma deep_doc_wf : wf_document deep_doc.
Proof.
  unfold wf_document, deep_doc. do 2 eexists. split; [reflexivity|].
  split; [reflexivity|]. intros ch [<-|[]].
  do 2 eexists. split; [reflexivity|]. split; [reflexivity|].
  exact deep_blocks_wf.
Defined.

Lemma deep_widget_doc_occurs : doc_occurs deep_doc deep_widget.
Proof.
  exists deep_blocks. split; [|exact deep_widget_occurs].
  eapply chapter_blocks_intro; [reflexivity|simpl; left; reflexivity|reflexivity].
Defined.

Lemma chart_discovery_any_depth_witness :
  exists w' m,
    _convert_charts_to_svg (Some (fun _ _ _ _ => Ok (Some "<svg/>")))
      deep_doc (mk_world deep_doc [] [] "" tt [] []) = (w', Ok m)
    /\ In (EvConvert deep_widget) (trace w').
Proof.
  apply chart_discovery_any_depth.
  - exact deep_doc_wf.
  - exact deep_widget_doc_occurs.
  - reflexivity.
Defined.

(** ** The patch step and the vector map *)

(** What one iteration of the patch loop logs names the key it works on. *)
Lemma inject_one_log (k : json) (svg html : string) (lg lg' : list log_entry)
      (r : result string) :
  inject_one k svg html lg = (lg', r) ->
  exists added,
    lg' = (lg ++ added)%list /\
    forall entry, In entry added ->
      entry = (DEBUG, CanvasReplaced k) \/ entry = (WARNING, ConfigNotFound k).
Proof.
  assert (Hnil : forall l0 r0, (lg, r0) = (l0, r) ->
            exists added, l0 = (lg ++ added)%list /\
              forall entry, In entry added ->
                entry = (DEBUG, CanvasReplaced k) \/ entry = (WARNING, ConfigNotFound k)).
  { intros l0 r0 H. injection H as <- _. exists []. rewrite app_nil_r.
    split; [reflexivity|intros ? []]. }
  unfold inject_one.
  destruct (clean_svg svg) as [svg'|e]; [|apply Hnil].
  destruct k as [| | |s| |]; try apply Hnil.
  destruct (search (config_pattern s) html) as [cid|].
  - destruct (re_sub (canvas_pattern cid) (svg_container svg') html) as [h|e];
      [|apply Hnil].
    intros H. injection H as <- _.
    eexists. split; [reflexivity|]. intros entry [<-|[]]. now left.
  - intros H. injection H as <- _.
    eexists. split; [reflexivity|]. intros entry [<-|[]]. now right.
Qed.

Lemma inject_loop_log (m : svg_map_t) : forall (html : string) (lg lg' : list log_entry)
      (r : result string),
  inject_loop m html lg = (lg', r) ->
  exists added,
    lg' = (lg ++ added)%list /\
    forall entry, In entry added ->
      exists k v, In (k, v) m /\
        (entry = (DEBUG, CanvasReplaced k) \/ entry = (WARNING, ConfigNotFound k)).
Proof.
  induction m as [|[k v] m IH]; intros html lg lg' r H; simpl in H.
  - inv H. exists []. rewrite app_nil_r. split; [reflexivity|intros ? []].
  - destruct (inject_one k v html lg) as [lg1 [h|e]] eqn:E.
    + apply inject_one_log in E. destruct E as (a1 & -> & H1).
      apply IH in H. destruct H as (a2 & -> & H2).
      exists (a1 ++ a2)%list. split; [now rewrite app_assoc|].
      intros entry Hin. apply in_app_or in Hin. destruct Hin as [Hin|Hin].
      * exists k, v. split; [now left|auto].
      * destruct (H2 entry Hin) as (k' & v' & Hk & Hor).
        exists k', v'. split; [now right|auto].
    + inv H. apply inject_one_log in E. destruct E as (a1 & -> & H1).
      exists a1. split; [reflexivity|].
      intros entry Hin. exists k, v. split; [now left|auto].
Qed.


(** ** Documents without charts *)

(** C8: for a well-formed document with no chart widget the vector map is
    empty, and the patch step given the empty map returns the HTML it was
    given and logs nothing: no container is injected. *)
Theorem no_charts_patch_identity
        (Cfg : Type)
        (chart_converter : option (json -> nat -> nat -> nat -> result (option string)))
        (doc : json) (w0 : world Cfg) :
  wf_document doc ->
  (forall w, doc_occurs doc w -> chart_widget w = false) ->
  exists w',
    _convert_charts_to_svg chart_converter doc w0 = (w', Ok [])
    /\ forall html lg, _inject_svg_into_html html [] lg = (lg, Ok html).
Proof.
  intros Hwf Hno. unfold _convert_charts_to_svg.
  destruct chart_converter as [conv|].
  - destruct (charts_run_wf_ok conv doc (mk_xstate [] [] []) Hwf) as (st' & E).
    rewrite E.
    assert (Hst : mk_xstate [] [] [] = st').
    { revert E. apply (charts_run_inv conv eq (fun _ => False)); auto.
      - intros a b c -> ->. reflexivity.
      - intros d s _ [].
      - intros w Ho Hc. rewrite (Hno w Ho) in Hc. discriminate. }
    subst st'. simpl. eexists. split; reflexivity.
  - eexists. split; reflexivity.
Qed.

Lemma plain_doc_wf : wf_document plain_doc.
Proof.
  unfold wf_document, plain_doc. do 2 eexists. split; [reflexivity|].
  split; [reflexivity|]. intros ch [<-|[]].
  do 2 eexists. split; [reflexivity|]. split; [reflexivity|]. wf_tac.
Defined.

Lemma plain_doc_no_chart : forall w, doc_occurs plain_doc w -> chart_widget w = false.
Proof.
  intros w (blocks & Hcb & Ho). unfold plain_doc in Hcb.
  inversion Hcb as [d chapters c bl Ech Hin Ebl Ed]; subst.
  simpl in Ech. inversion Ech; subst; clear Ech.
  destruct Hin as [Hin|[]]. inversion Hin; subst; clear Hin.
  simpl in Ebl. inversion Ebl; subst; clear Ebl.
  apply occurs_inv in Ho. destruct Ho as [[<-|[]]|(b & l & [<-|[]] & Hch & _)].
  - reflexivity.
  - inversion Hch; subst; simpl in *; discriminate.
Defined.

Lemma no_charts_patch_identity_witness :
  exists w',
    _convert_charts_to_svg (Some (fun _ _ _ _ => Ok (Some "<svg/>")))
      plain_doc (mk_world plain_doc [] [] "" tt [] []) = (w', Ok [])
    /\ forall html lg, _inject_svg_into_html html [] lg = (lg, Ok html).
Proof.
  apply no_charts_patch_identity.
  - exact plain_doc_wf.
  - exact plain_doc_no_chart.
Defined.

(** ** A conversion that fails *)

Lemma key_eqb_hashable (a b : json) : key_eqb a b = true -> hashable a = true.
Proof. destruct a, b; simpl; intros H; try discriminate; reflexivity. Qed.

Lemma lookup_key_eqb (m : svg_map_t) (k1 k2 : json) :
  key_eqb k1 k2 = true -> lookup m k1 = lookup m k2.
Proof.
  intros H. induction m as [|[q v] m IH]; simpl; [reflexivity|].
  destruct (key_eqb q k1) eqn:E1, (key_eqb q k2) eqn:E2; auto.
  - rewrite (key_eqb_trans _ _ _ E1 H) in E2. discriminate.
  - rewrite key_eqb_sym in H. rewrite (key_eqb_trans _ _ _ E2 H) in E1. discriminate.
Qed.





(** The run on [mixed_doc]: the failure is logged, the map holds the other
    chart only. *)
Example mixed_doc_run :
  _convert_charts_to_svg (Some conv_mixed) mixed_doc
    (mk_world mixed_doc [] [] "" tt [] [])
  = (mk_world mixed_doc [] [] "" tt
       [(ERROR, ChartRaised (JStr "bad") (ExternalError "boom"));
        (DEBUG, ChartOk (JStr "good"));
        (INFO, ChartsConverted 1)]
       [EvConvert bad_widget; EvConvert good_widget],
     Ok [(JStr "good", "<svg>ok</svg>")]).
Proof. reflexivity. Qed.

(** ** The render pipeline *)

Arguments pdf_css : simpl never.
Arguments str_replace : simpl never.
Arguments charts_run : simpl never.
Arguments _inject_svg_into_html : simpl never.
Arguments path_suffix : simpl never.
Arguments log_file_of : simpl never.
Arguments full_font : simpl never.
Arguments subset_ttf : simpl never.
Arguments subset_otf : simpl never.
Arguments String.eqb : simpl never.
Arguments emitted : simpl never.

Lemma respects_bind {Cfg A B} (R : world Cfg -> world Cfg -> Prop)
      (m : P Cfg A) (k : A -> P Cfg B) :
  (forall a b c, R a b -> R b c -> R a c) ->
  respects R m -> (forall a, respects R (k a)) -> respects R (pbind m k).
Proof.
  intros Htrans Hm Hk w. unfold pbind. specialize (Hm w).
  destruct (m w) as [w1 [a|e]]; simpl in *; [|exact Hm].
  apply Htrans with w1; [exact Hm|apply Hk].
Qed.

(** The steps of a pipeline, one outcome at a time. *)
Ltac split_outcomes :=
  repeat match goal with
         | |- context [match ?x with _ => _ end] =>
             lazymatch x with
             | context [match _ with _ => _ end] => fail
             | _ => destruct x eqn:?; simpl
             end
         end.

(** The same, keeping what is known of the value handed on. *)
Lemma respects_bind_val {Cfg A B} (R : world Cfg -> world Cfg -> Prop)
      (Q : A -> Prop) (m : P Cfg A) (k : A -> P Cfg B) :
  (forall a b c, R a b -> R b c -> R a c) ->
  respects R m -> (forall w a, snd (m w) = Ok a -> Q a) ->
  (forall a, Q a -> respects R (k a)) -> respects R (pbind m k).
Proof.
  intros Htrans Hm HQ Hk w. unfold pbind. specialize (Hm w). specialize (HQ w).
  destruct (m w) as [w1 [a|e]]; simpl in *; [|exact Hm].
  apply Htrans with w1; [exact Hm|apply Hk; apply HQ; reflexivity].
Qed.

Lemma respects_try {Cfg A B} (R : world Cfg -> world Cfg -> Prop)
      (m : P Cfg A) (body : A -> P Cfg B) (handler : exn -> P Cfg B) :
  (forall a b c, R a b -> R b c -> R a c) ->
  respects R m -> (forall a, respects R (body a)) ->
  (forall e, respects R (handler e)) -> respects R (ptry m body handler).
Proof.
  intros Htrans Hm Hb Hh w. unfold ptry. specialize (Hm w).
  destruct (m w) as [w1 [a|e]]; simpl in *;
    (apply Htrans with w1; [exact Hm|]); [apply Hb|apply Hh].
Qed.

Ltac unfold_pipeline :=
  unfold render_to_pdf, render_to_bytes, _get_pdf_html, patched_html,
    embed_font_css, layout_step, inject_step, _convert_charts_to_svg, mkdir_logs.

Ltac unfold_steps :=
  unfold log_file_now, mkdir1, get_font_path, _get_font_path, read_bytes,
    write_target, write_file, get_config, set_config, call, plog, pfail, pret.

(** [walk bindl tryl special leaf]: a property of a pipeline from the same
    property of its steps; [leaf] proves it of a single step. *)
Ltac walk bindl tryl leaf :=
  unfold_pipeline;
  repeat first
    [ progress cbv zeta
    | match goal with
      | |- respects _ (@pbind _ _ _ (@get_config _) _) =>
          solve [unfold pbind; leaf]
      end
    | bindl; [|intros]
    | tryl; [|intros|intros]
    | match goal with
      | |- _ (if ?b then _ else _) => destruct b
      | |- _ (match ?x with _ => _ end) => destruct x
      end
    | solve [leaf] ].

Ltac frame trans leaf :=
  walk ltac:(first
               [ match goal with
                 | |- respects ?R (@pbind _ _ _ (@log_file_now _) _) =>
                     apply (respects_bind_val R (fun a => exists st, a = log_file_of st)
                                              _ _ trans);
                     [ | intros ? ? Hval; unfold log_file_now in Hval;
                         injection Hval as <-; eexists; reflexivity
                       | intros ? ? ]
                 end; [|idtac]
               | apply (respects_bind _ _ _ trans) ])
       ltac:(apply (respects_try _ _ _ _ trans))
       ltac:(intros ?; unfold_steps; simpl; split_outcomes; simpl; leaf).


(** ** Rendering without layout optimization *)

Lemma audit_free_refl {Cfg} (out : option string) (w : world Cfg) : audit_free out w w.
Proof.
  unfold audit_free. repeat split; auto.
  exists []. split; [now rewrite app_nil_r|intros ev []].
Qed.

Lemma audit_free_trans {Cfg} (out : option string) (a b c : world Cfg) :
  audit_free out a b -> audit_free out b c -> audit_free out a c.
Proof.
  intros (F1 & D1 & C1 & e1 & T1 & H1) (F2 & D2 & C2 & e2 & T2 & H2).
  unfold audit_free. repeat split.
  - intros p Hp. rewrite F2, F1; auto.
  - congruence.
  - congruence.
  - exists (e1 ++ e2)%list. split; [rewrite T2, T1; now rewrite app_assoc|].
    intros ev Hin. apply in_app_or in Hin. destruct Hin as [Hin|Hin]; auto.
    destruct (H2 ev Hin) as (Ha & Hc). split; [exact Ha|].
    intros c0 E. rewrite <- C1. now apply Hc.
Qed.

Lemma audit_free_emitted {Cfg} (out : option string) (lg : list log_entry)
      (evs : list (event Cfg)) (w : world Cfg) :
  (forall ev, In ev evs ->
     analysis_event ev = false /\ forall c, ev = EvGeneratePdfCss c -> c = opt_config w) ->
  audit_free out w (emitted lg evs w).
Proof.
  intros H. unfold audit_free. simpl. repeat split; auto.
  exists evs. split; [reflexivity|exact H].
Qed.

Lemma find_file_put_other (fs : list (string * string)) (p q c : string) :
  p <> q -> find_file (put_file fs p c) q = find_file fs q.
Proof.
  intros Hpq. induction fs as [|[k v] fs IH]; simpl.
  - destruct (String.eqb_spec p q); [contradiction|reflexivity].
  - destruct (String.eqb_spec k p) as [->|Hk]; simpl.
    + destruct (String.eqb_spec p q); [contradiction|reflexivity].
    + destruct (String.eqb k q); [reflexivity|exact IH].
Qed.

Lemma find_file_put_same (fs : list (string * string)) (p c : string) :
  find_file (put_file fs p c) p = Some c.
Proof.
  induction fs as [|[k v] fs IH]; simpl.
  - now rewrite String.eqb_refl.
  - destruct (String.eqb_spec k p) as [->|Hk]; simpl.
    + now rewrite String.eqb_refl.
    + destruct (String.eqb_spec k p); [contradiction|exact IH].
Qed.

Lemma audit_free_write {Cfg} (p c : string) (w : world Cfg) :
  audit_free (Some p) w
    (mk_world (ir w) (put_file (files w) p c) (dirs w) (stamp w) (opt_config w)
              (wlog w) (trace w)).
Proof.
  unfold audit_free. simpl. repeat split; auto.
  - intros q Hq. apply find_file_put_other. congruence.
  - exists []. split; [now rewrite app_nil_r|intros ev []].
Qed.

Ltac audit_leaf :=
  first
    [ apply audit_free_refl
    | apply audit_free_write
    | apply audit_free_emitted;
      let ev := fresh "ev" in
      let Hin := fresh "Hin" in
      intros ev Hin;
      first
        [ solve [inversion Hin]
        | destruct Hin as [<-|[]]; split; [reflexivity|];
          let c := fresh "c" in
          let E := fresh "E" in
          intros c E; first [discriminate E | congruence]
        | apply in_map_iff in Hin;
          let b := fresh "b" in
          destruct Hin as (b & <- & _); split; [reflexivity|];
          let c := fresh "c" in
          let E := fresh "E" in
          intros c E; discriminate E ] ].

(** C9: a render with layout optimization disabled writes no audit log:
    no file changes (but the PDF at [output_path], for [render_to_pdf]) and
    no directory is made; the optimizer keeps its configuration, the
    document is not analysed, and the CSS is generated from the
    configuration the optimizer already held. *)
Theorem no_optimization_no_audit_log
        (Cfg Stats OptLog Doc : Type)
        (optimize_for_document : json -> result Cfg)
        (_analyze_document : json -> result Stats)
        (_log_optimization : Stats -> Cfg -> result OptLog)
        (save_config_text : Cfg -> OptLog -> result string)
        (generate_pdf_css : Cfg -> result string)
        (html_render : json -> result string)
        (b64encode : string -> string)
        (HTML_new : string -> result Doc)
        (write_pdf : Doc -> pdf_options -> result string)
        (chart_converter : option (json -> nat -> nat -> nat -> result (option string)))
        (document_ir : json) (output_path : string) (w0 : world Cfg) :
  audit_free None w0
    (fst (render_to_bytes optimize_for_document _analyze_document _log_optimization
            save_config_text generate_pdf_css html_render b64encode HTML_new
            write_pdf chart_converter document_ir false w0))
  /\ audit_free (Some output_path) w0
       (fst (render_to_pdf optimize_for_document _analyze_document _log_optimization
               save_config_text generate_pdf_css html_render b64encode HTML_new
               write_pdf chart_converter document_ir output_path false w0)).
Proof.
  split; revert w0;
    match goal with
    | |- forall w, audit_free ?out w (fst (?p w)) =>
        change (respects (audit_free out) p);
        frame (@audit_free_trans Cfg out) ltac:(audit_leaf)
    end.
Qed.

(** ** The two entry points *)







(** ** A rasterizer that fails *)

(** C6: when the rasterizer raises, both entry points raise the same
    exception again, but only [render_to_pdf] logs it: the log of
    [render_to_bytes] ends with the entry of the font, with no entry for
    the failure. *)
Theorem rasterizer_failure_logged_by_one_entry_point :
  let e := ExternalError "rasterizer failed" in
  snd (demo_render_to_bytes failing_write_pdf plain_doc false world_with_font)
  = Raise e
  /\ wlog (fst (demo_render_to_bytes failing_write_pdf plain_doc false world_with_font))
     = [(INFO, ChartsStart); (WARNING, ConverterMissing); (INFO, UseFullFont full_font)]
  /\ snd (demo_render_to_pdf failing_write_pdf plain_doc "out.pdf" false world_with_font)
     = Raise e
  /\ wlog (fst (demo_render_to_pdf failing_write_pdf plain_doc "out.pdf" false
                  world_with_font))
     = [(INFO, PdfStart "out.pdf"); (INFO, ChartsStart); (WARNING, ConverterMissing);
        (INFO, UseFullFont full_font); (ERROR, PdfFailed e)]
  /\ find_file (files (fst (demo_render_to_pdf failing_write_pdf plain_doc "out.pdf"
                              false world_with_font))) "out.pdf" = None.
Proof. vm_compute. repeat split. Qed.

(** ** Missing fonts *)

Lemma emitted_nil {Cfg} (w : world Cfg) : emitted [] [] w = w.
Proof. destruct w. unfold emitted. simpl. now rewrite !app_nil_r. Qed.

Lemma existsb_eqb_snoc (p x : string) (l : list string) :
  String.eqb p x = false ->
  existsb (String.eqb p) (l ++ [x]) = existsb (String.eqb p) l.
Proof.
  intros H. rewrite existsb_app. simpl. rewrite H.
  now rewrite !orb_false_r.
Qed.

Lemma fonts_kept_trans {Cfg} (a b c : world Cfg) :
  fonts_kept a b -> fonts_kept b c -> fonts_kept a c.
Proof.
  intros H1 H2 p Hp. destruct (H1 p Hp) as (A1 & B1), (H2 p Hp) as (A2 & B2).
  split; congruence.
Qed.

Lemma log_file_not_dot (stamp : string) (s : string) :
  log_file_of stamp <> String "." s.
Proof. unfold log_file_of, path_join. simpl. discriminate. Qed.

Ltac fonts_leaf :=
  repeat match goal with
         | H : exists st, _ = log_file_of st |- _ => destruct H as (? & ->)
         end;
  unfold fonts_kept, dot_path;
  intros ? (? & ->); unfold is_dir, emitted; simpl;
  first
    [ split; reflexivity
    | split; [reflexivity|]; apply existsb_eqb_snoc; reflexivity
    | split; [|reflexivity]; apply find_file_put_other; apply log_file_not_dot ].

(** The steps before the font lookup leave the font paths as they were. *)
Lemma patched_html_keeps_fonts
      (Cfg Stats OptLog : Type)
      (optimize_for_document : json -> result Cfg)
      (_analyze_document : json -> result Stats)
      (_log_optimization : Stats -> Cfg -> result OptLog)
      (save_config_text : Cfg -> OptLog -> result string)
      (html_render : json -> result string)
      (chart_converter : option (json -> nat -> nat -> nat -> result (option string)))
      (document_ir : json) (optimize_layout : bool) :
  respects fonts_kept
    (patched_html optimize_for_document _analyze_document _log_optimization
       save_config_text html_render chart_converter document_ir optimize_layout).
Proof.
  frame (@fonts_kept_trans Cfg) ltac:(fonts_leaf).
Qed.

Lemma font_candidates_dot (p : string) : In p font_candidates -> dot_path p.
Proof.
  intros [<-|[<-|[<-|[]]]]; eexists; reflexivity.
Qed.

Lemma fonts_kept_missing {Cfg} (w w' : world Cfg) :
  fonts_kept w w' ->
  (forall p, In p font_candidates -> path_exists w p = false) ->
  forall p, In p font_candidates -> path_exists w' p = false.
Proof.
  intros Hk Hm p Hp. specialize (Hm p Hp).
  destruct (Hk p (font_candidates_dot p Hp)) as (Hf & Hd).
  unfold path_exists in *. rewrite Hf, Hd. exact Hm.
Qed.

(** Without fonts the second part of [_get_pdf_html] stops at the lookup. *)
Lemma embed_no_font {Cfg} (generate_pdf_css : Cfg -> result string)
      (b64encode : string -> string) (html : string) (w : world Cfg) :
  (forall p, In p font_candidates -> path_exists w p = false) ->
  embed_font_css generate_pdf_css b64encode html w = (w, Raise FileNotFoundError).
Proof.
  intros Hm. unfold embed_font_css, pbind, get_font_path, _get_font_path.
  rewrite (Hm full_font), (Hm subset_ttf), (Hm subset_otf);
    try (simpl; auto; fail).
  now rewrite emitted_nil.
Qed.

(** C2, amended: when none of the three font files exists, every render
    call fails and rasterizes nothing.  The layout step, the chart
    conversion, the base HTML and the patch come first: if one of them
    raises, that exception is the outcome; if they all complete, the outcome
    is [FileNotFoundError], raised in the world they leave. *)
Theorem missing_fonts_fail_after_html
        (Cfg Stats OptLog Doc : Type)
        (optimize_for_document : json -> result Cfg)
        (_analyze_document : json -> result Stats)
        (_log_optimization : Stats -> Cfg -> result OptLog)
        (save_config_text : Cfg -> OptLog -> result string)
        (generate_pdf_css : Cfg -> result string)
        (html_render : json -> result string)
        (b64encode : string -> string)
        (HTML_new : string -> result Doc)
        (write_pdf : Doc -> pdf_options -> result string)
        (chart_converter : option (json -> nat -> nat -> nat -> result (option string)))
        (document_ir : json) (output_path : string) (optimize_layout : bool)
        (w0 : world Cfg) :
  (forall p, In p font_candidates -> path_exists w0 p = false) ->
  render_to_bytes optimize_for_document _analyze_document _log_optimization
    save_config_text generate_pdf_css html_render b64encode HTML_new
    write_pdf chart_converter document_ir optimize_layout w0
  = no_font_outcome
      (patched_html optimize_for_document _analyze_document _log_optimization
         save_config_text html_render chart_converter document_ir optimize_layout w0)
  /\ render_to_pdf optimize_for_document _analyze_document _log_optimization
       save_config_text generate_pdf_css html_render b64encode HTML_new
       write_pdf chart_converter document_ir output_path optimize_layout w0
     = no_font_outcome
         (patched_html optimize_for_document _analyze_document _log_optimization
            save_config_text html_render chart_converter document_ir optimize_layout
            (emitted [(INFO, PdfStart output_path)] [] w0)).
Proof.
  intros Hm.
  set (G := patched_html optimize_for_document _analyze_document _log_optimization
              save_config_text html_render chart_converter document_ir optimize_layout).
  assert (HG : respects fonts_kept G) by apply patched_html_keeps_fonts.
  assert (Hstep : forall w, (forall p, In p font_candidates -> path_exists w p = false) ->
            _get_pdf_html optimize_for_document _analyze_document _log_optimization
              save_config_text generate_pdf_css html_render b64encode chart_converter
              document_ir optimize_layout w = no_font_outcome (G w)).
  { intros w Hw. unfold _get_pdf_html, pbind. fold G.
    pose proof (fonts_kept_missing w (fst (G w)) (HG w) Hw) as Hw1.
    unfold no_font_outcome. destruct (G w) as [w1 [html|e]]; simpl in *; [|reflexivity].
    now apply embed_no_font. }
  split.
  - unfold render_to_bytes, pbind. rewrite (Hstep w0 Hm).
    unfold no_font_outcome. destruct (G w0) as [w1 [html|e]]; reflexivity.
  - unfold render_to_pdf. unfold pbind at 1. unfold plog at 1. unfold pbind at 1.
    rewrite Hstep.
    + unfold no_font_outcome.
      destruct (G (emitted [(INFO, PdfStart output_path)] [] w0)) as [w1 [html|e]];
        reflexivity.
    + intros p Hp. rewrite <- (Hm p Hp). reflexivity.
Qed.

Lemma missing_fonts_fail_after_html_witness :
  demo_render_to_bytes (fun s _ => Ok s) plain_doc true world_without_fonts
  = no_font_outcome
      (patched_html (fun _ => Ok tt) (fun _ => Ok tt) (fun _ _ => Ok tt)
         (fun _ _ => Ok "{}") (fun _ => Ok demo_html) None plain_doc true
         world_without_fonts)
  /\ demo_render_to_pdf (fun s _ => Ok s) plain_doc "out.pdf" true world_without_fonts
     = no_font_outcome
         (patched_html (fun _ => Ok tt) (fun _ => Ok tt) (fun _ _ => Ok tt)
            (fun _ _ => Ok "{}") (fun _ => Ok demo_html) None plain_doc true
            (emitted [(INFO, PdfStart "out.pdf")] [] world_without_fonts)).
Proof.
  apply missing_fonts_fail_after_html.
  intros p [<-|[<-|[<-|[]]]]; reflexivity.
Defined.

(** C2 as stated fails: without fonts and with layout optimization on, the
    error arrives after the layout was optimized, the audit log written and
    the base HTML generated. *)
Lemma font_error_after_html_generation :
  snd (demo_render_to_bytes (fun s _ => Ok s) plain_doc true world_without_fonts)
  = Raise FileNotFoundError
  /\ trace (fst (demo_render_to_bytes (fun s _ => Ok s) plain_doc true world_without_fonts))
     = [EvOptimizeForDocument plain_doc; EvAnalyzeDocument plain_doc;
        EvLogOptimization;
        EvSaveConfig "logs/pdf_layouts/layout_20260101_000000.json";
        EvHtmlRender plain_doc]
  /\ files (fst (demo_render_to_bytes (fun s _ => Ok s) plain_doc true world_without_fonts))
     = [("logs/pdf_layouts/layout_20260101_000000.json", "{}")].
Proof. vm_compute. repeat split. Qed.

(** ** Texts *)

Lemma sapp_assoc (a b c : string) : (a ++ b) ++ c = a ++ (b ++ c).
Proof. induction a as [|x a IH]; simpl; [reflexivity|now rewrite IH]. Qed.

Lemma sapp_nil_r (a : string) : a ++ "" = a.
Proof. induction a as [|x a IH]; simpl; [reflexivity|now rewrite IH]. Qed.



Lemma has_char_app (c : ascii) (a b : string) :
  has_char c (a ++ b) = has_char c a || has_char c b.
Proof.
  induction a as [|x a IH]; simpl; [reflexivity|].
  rewrite IH. now rewrite orb_assoc.
Qed.

Lemma prefix_app (l s : string) : String.prefix l (l ++ s) = true.
Proof.
  induction l as [|x l IH]; simpl; [now destruct s|].
  destruct (ascii_dec x x); [exact IH|contradiction].
Qed.

(** ** Matching *)

Lemma lits_cons (c : ascii) (l : string) : lits (String c l) = Lit c :: lits l.
Proof. reflexivity. Qed.


Lemma match_lits_inv (l : string) (p : regex) (s gs g : string) (r : string * string) :
  match_here (lits l ++ p)%list s gs g = Some r ->
  exists s', s = l ++ s' /\ match_here p s' gs g = Some r.
Proof.
  revert s. induction l as [|c l IH]; intros s H.
  - exists s. split; [reflexivity|exact H].
  - rewrite lits_cons in H. simpl in H.
    destruct s as [|c' s]; [discriminate|].
    destruct (Ascii.eqb_spec c' c) as [->|]; [|discriminate].
    destruct (IH s H) as (s' & -> & H'). exists s'. split; [reflexivity|exact H'].
Qed.

Lemma match_lits_prefix (l : string) (p : regex) (s gs g : string) :
  String.prefix l s = false -> match_here (lits l ++ p)%list s gs g = None.
Proof.
  intros Hp. destruct (match_here (lits l ++ p)%list s gs g) as [r|] eqn:E; [|reflexivity].
  apply match_lits_inv in E. destruct E as (s' & -> & _).
  rewrite prefix_app in Hp. discriminate.
Qed.












(** ** Substitution *)

Lemma parse_template_plain (s : string) :
  has_char "\" s = false ->
  parse_template s None = Ok (map PChar (list_ascii_of_string s)).
Proof.
  induction s as [|c s IH]; intros H; [reflexivity|].
  simpl in H. apply orb_false_iff in H. destruct H as (Hc & Hs).
  simpl. rewrite Hc. simpl. rewrite (IH Hs). reflexivity.
Qed.


Lemma count_occ_app (lit pre rest : string) :
  count_occ lit (pre ++ rest) = count_pre lit pre rest + count_occ lit rest.
Proof.
  induction pre as [|c pre IH]; [reflexivity|].
  change (count_occ lit (String c pre ++ rest))
    with ((if String.prefix lit (String c pre ++ rest) then 1 else 0)
          + count_occ lit (pre ++ rest)).
  change (count_pre lit (String c pre) rest)
    with ((if String.prefix lit (String c pre ++ rest) then 1 else 0)
          + count_pre lit pre rest).
  rewrite IH. lia.
Qed.

Section Substitution.

(** A pattern that starts with the literal text [lit]. *)
Variable p : regex.
Variable lit : string.
Variable t : list part.
Hypothesis Hlit : forall s, String.prefix lit s = false -> match_here p s "" "" = None.
Hypothesis Hnonempty : String.prefix lit "" = false.


Lemma sub_parts_none (s : string) :
count_occ lit s = 0 -> sub_parts p t s 0 = s.
Proof.
induction s as [|c s IH]; intros H.
- simpl. now rewrite (Hlit "" Hnonempty).
- change (count_occ lit (String c s))
    with ((if String.prefix lit (String c s) then 1 else 0) + count_occ lit s) in H.
  destruct (String.prefix lit (String c s)) eqn:E; [discriminate|].
  simpl in H. simpl. rewrite (Hlit (String c s) E). now rewrite (IH H).
Qed.



End Substitution.

(** ** The patch of one chart *)

Lemma canvas_pattern_lit (cid s : string) :
  String.prefix "<canvas" s = false ->
  match_here (canvas_pattern cid) s "" "" = None.
Proof. intros H. unfold canvas_pattern. now apply match_lits_prefix. Qed.





(** A backslash in the SVG: the replacement text is read as a template, and
    a letter after the backslash is refused. *)
Example svg_with_backslash_raises :
  snd (_inject_svg_into_html page [(JStr "w1", "<svg><text>a\d</text></svg>")] [])
  = Raise ReError.
Proof. vm_compute. reflexivity. Qed.

(** The cleaning of an SVG removes the XML declaration and the DOCTYPE. *)
Example demo_svg_cleaned : clean_svg demo_svg = Ok demo_svg_clean.
Proof. vm_compute. reflexivity. Qed.

(** * Further properties *)

(** ** What the extraction converts *)

(** X1: the converter is only ever called on chart widgets of the document:
    every conversion recorded by [_convert_charts_to_svg] that was not
    already in the trace is of a block that occurs in a chapter of the
    document and is a widget with a widget id and a [chart.js] type tag. *)
Theorem converter_called_only_on_charts
        (Cfg : Type)
        (conv : json -> nat -> nat -> nat -> result (option string))
        (doc : json) (w0 w' : world Cfg) (m : svg_map_t) (b : json) :
  _convert_charts_to_svg (Some conv) doc w0 = (w', Ok m) ->
  In (EvConvert b) (trace w') ->
  In (EvConvert b) (trace w0) \/ (doc_occurs doc b /\ chart_widget b = true).
Proof.
  unfold _convert_charts_to_svg.
  destruct (charts_run conv doc (mk_xstate [] [] [])) as [[st|e]|] eqn:E;
    try (unfold pfail; intros H; discriminate H).
  intros H Hin. injection H as <- _. unfold emitted in Hin. simpl in Hin.
  apply in_app_or in Hin. destruct Hin as [Hin|Hin]; [now left|right].
  apply in_map_iff in Hin. destruct Hin as (x & Ex & Hx). injection Ex as ->.
  assert (HI : In b (converted (mk_xstate [] [] [])) \/
               (doc_occurs doc b /\ chart_widget b = true)).
  { revert b Hx. revert E.
    apply (charts_run_inv conv
             (fun s s' => forall b, In b (converted s') ->
                In b (converted s) \/ (doc_occurs doc b /\ chart_widget b = true))
             (fun b => doc_occurs doc b)).
    - intros s x Hx. now left.
    - intros s1 s2 s3 H12 H23 x Hx. destruct (H23 x Hx) as [H|H]; auto.
    - intros d s Hc Ho x Hx. rewrite convert_one_converted in Hx.
      apply in_app_or in Hx. destruct Hx as [Hx|[<-|[]]]; auto.
    - intros x Ho _. exact Ho. }
  destruct HI as [[]|HI]. exact HI.
Qed.

Lemma converter_called_only_on_charts_witness :
  In (@EvConvert unit good_widget) []
  \/ (doc_occurs mixed_doc good_widget /\ chart_widget good_widget = true).
Proof.
  apply (converter_called_only_on_charts unit conv_mixed mixed_doc
           (mk_world mixed_doc [] [] "" tt [] [])
           (fst (_convert_charts_to_svg (Some conv_mixed) mixed_doc
                   (mk_world mixed_doc [] [] "" tt [] [])))
           [(JStr "good", "<svg>ok</svg>")]).
  - reflexivity.
  - simpl. right. left. reflexivity.
Defined.

Lemma lookup_setitem_hit (m : svg_map_t) (k k2 : json) (v : string) :
  key_eqb k k2 = true -> lookup (setitem m k v) k2 = Some v.
Proof.
  intros H. rewrite key_eqb_sym in H. rewrite (lookup_key_eqb _ _ _ H).
  apply lookup_setitem_same. rewrite key_eqb_sym in H.
  exact (key_eqb_hashable _ _ H).
Qed.

(** What one conversion leaves under a key: the entry that was there, or
    the non-empty result of this conversion, under an equal key. *)
Lemma convert_one_lookup conv (b k k2 : json) (v : string) (st : xstate) :
  lookup (svg_map (convert_one conv b k st)) k2 = Some v ->
  lookup (svg_map st) k2 = Some v \/
  (key_eqb k k2 = true /\ conv b 800 500 100 = Ok (Some v) /\ v <> "").
Proof.
  unfold convert_one.
  destruct (conv b 800 500 100) as [[svg|]|e]; simpl; auto.
  destruct (String.eqb_spec svg "") as [->|Hne]; simpl; auto.
  destruct (hashable k); simpl; auto.
  destruct (key_eqb k k2) eqn:E.
  - rewrite (lookup_setitem_hit _ _ _ _ E). intros H. injection H as <-. auto.
  - rewrite (lookup_setitem_other _ _ _ _ E). auto.
Qed.

(** X2: the vector map holds nothing but results of the converter: every
    entry of the map [_convert_charts_to_svg] returns is the non-empty SVG
    that the converter returned for a chart widget of the document, whose
    widget id is equal, as a dictionary key, to the key of the entry. *)
Theorem vector_map_entries_are_conversions
        (Cfg : Type)
        (conv : json -> nat -> nat -> nat -> result (option string))
        (doc : json) (w0 w' : world Cfg) (m : svg_map_t)
        (k : json) (v : string) :
  _convert_charts_to_svg (Some conv) doc w0 = (w', Ok m) ->
  lookup m k = Some v ->
  exists b, doc_occurs doc b /\ chart_widget b = true /\
            key_eqb (widget_id_of b) k = true /\
            conv b 800 500 100 = Ok (Some v) /\ v <> "".
Proof.
  unfold _convert_charts_to_svg.
  destruct (charts_run conv doc (mk_xstate [] [] [])) as [[st|e]|] eqn:E;
    try (unfold pfail; intros H; discriminate H).
  intros H Hl. injection H as _ <-.
  assert (HI : lookup (svg_map (mk_xstate [] [] [])) k = Some v \/
               exists b, doc_occurs doc b /\ chart_widget b = true /\
                 key_eqb (widget_id_of b) k = true /\
                 conv b 800 500 100 = Ok (Some v) /\ v <> "").
  { revert k v Hl. revert E.
    apply (charts_run_inv conv
             (fun s s' => forall k v, lookup (svg_map s') k = Some v ->
                lookup (svg_map s) k = Some v \/
                exists b, doc_occurs doc b /\ chart_widget b = true /\
                  key_eqb (widget_id_of b) k = true /\
                  conv b 800 500 100 = Ok (Some v) /\ v <> "")
             (fun b => doc_occurs doc b)).
    - intros s k v H. now left.
    - intros s1 s2 s3 H12 H23 k v H. destruct (H23 k v H) as [H'|H']; auto.
    - intros d s Hc Ho k v H.
      apply convert_one_lookup in H. destruct H as [H|(Hk & Hv & Hne)]; auto.
      right. exists (JDict d). simpl. auto.
    - intros x Ho _. exact Ho. }
  destruct HI as [HI|HI]; [discriminate HI|exact HI].
Qed.

Lemma vector_map_entries_are_conversions_witness :
  exists b, doc_occurs mixed_doc b /\ chart_widget b = true /\
            key_eqb (widget_id_of b) (JStr "good") = true /\
            conv_mixed b 800 500 100 = Ok (Some "<svg>ok</svg>") /\
            "<svg>ok</svg>" <> "".
Proof.
  apply (vector_map_entries_are_conversions unit conv_mixed mixed_doc
           (mk_world mixed_doc [] [] "" tt [] [])
           (fst (_convert_charts_to_svg (Some conv_mixed) mixed_doc
                   (mk_world mixed_doc [] [] "" tt [] [])))
           [(JStr "good", "<svg>ok</svg>")]).
  - reflexivity.
  - reflexivity.
Defined.

Lemma convert_one_outcome conv (d : list (string * json)) (st : xstate) :
  converted (convert_one conv (JDict d) (get d "widgetId") st)
    = (converted st ++ [JDict d])%list /\
  xlog (convert_one conv (JDict d) (get d "widgetId") st)
    = (xlog st ++ [outcome_entry conv (JDict d)])%list.
Proof.
  unfold convert_one, outcome_entry. simpl.
  destruct (conv (JDict d) 800 500 100) as [[svg|]|e]; simpl; auto.
  destruct (String.eqb svg ""); simpl; auto.
  destruct (hashable (get d "widgetId")); simpl; auto.
Qed.

(** The log of the traversal: one entry for each conversion, in order. *)
Lemma charts_run_log conv (doc : json) (st st' : xstate) :
  charts_run conv doc st = Some (Ok st') ->
  exists cs, converted st' = (converted st ++ cs)%list /\
             xlog st' = (xlog st ++ map (outcome_entry conv) cs)%list.
Proof.
  apply (charts_run_inv conv
           (fun s s' => exists cs, converted s' = (converted s ++ cs)%list /\
               xlog s' = (xlog s ++ map (outcome_entry conv) cs)%list)
           (fun _ => True)).
  - intros s. exists []. simpl. now rewrite !app_nil_r.
  - intros s1 s2 s3 (c1 & H1 & H1') (c2 & H2 & H2'). exists (c1 ++ c2)%list.
    rewrite H2, H2', H1, H1', map_app, !app_assoc. auto.
  - intros d s _ _. exists [JDict d]. apply convert_one_outcome.
  - auto.
Qed.

(** X3: the log of a conversion pass is, entry for entry, the outcomes of
    the conversions in the order they were made: one entry per call of the
    converter (debug for a stored SVG, warning for an empty result, error
    for an exception), followed by one info entry that reports the number
    of entries of the vector map. *)
Theorem conversion_log_mirrors_calls
        (Cfg : Type)
        (conv : json -> nat -> nat -> nat -> result (option string))
        (doc : json) (w0 w' : world Cfg) (m : svg_map_t) :
  _convert_charts_to_svg (Some conv) doc w0 = (w', Ok m) ->
  exists cs : list json,
    trace w' = (trace w0 ++ map EvConvert cs)%list /\
    wlog w' = (wlog w0 ++ map (outcome_entry conv) cs
                 ++ [(INFO, ChartsConverted (List.length m))])%list.
Proof.
  unfold _convert_charts_to_svg.
  destruct (charts_run conv doc (mk_xstate [] [] [])) as [[st|e]|] eqn:E;
    try (unfold pfail; intros H; discriminate H).
  intros H. injection H as <- <-. unfold emitted. simpl.
  destruct (charts_run_log conv doc _ _ E) as (cs & Hc & Hl).
  simpl in Hc, Hl. exists cs.
  rewrite Hc, Hl. auto.
Qed.

Lemma conversion_log_mirrors_calls_witness :
  exists cs : list json,
    trace (fst (_convert_charts_to_svg (Some conv_mixed) mixed_doc
                   (mk_world mixed_doc [] [] "" tt [] [])))
      = ([] ++ map EvConvert cs)%list /\
    wlog (fst (_convert_charts_to_svg (Some conv_mixed) mixed_doc
                   (mk_world mixed_doc [] [] "" tt [] [])))
      = ([] ++ map (outcome_entry conv_mixed) cs
            ++ [(INFO, ChartsConverted 1)])%list.
Proof.
  apply (conversion_log_mirrors_calls unit conv_mixed mixed_doc
           (mk_world mixed_doc [] [] "" tt [] [])
           (fst (_convert_charts_to_svg (Some conv_mixed) mixed_doc
                   (mk_world mixed_doc [] [] "" tt [] [])))
           [(JStr "good", "<svg>ok</svg>")]).
  reflexivity.
Defined.

(** ** Exceptions that leave the extraction *)

(** Case analysis of [x <-- m ;; k = Some (Raise e)]. *)
Lemma mbind_raise {S T} (m : M S) (k : S -> M T) (e : exn) :
  mbind m k = Some (Raise e) ->
  m = Some (Raise e) \/ exists s, m = Some (Ok s) /\ k s = Some (Raise e).
Proof.
  unfold mbind. destruct m as [[s|e']|]; intros H; try discriminate.
  - right. exists s. split; [reflexivity|exact H].
  - left. injection H as ->. reflexivity.
Qed.

(** A loop raises what one of its iterations raises. *)
Lemma for_each_raise {A S} (Q : exn -> Prop) (body : A -> S -> M S) (l : list A) :
  (forall x s e, In x l -> body x s = Some (Raise e) -> Q e) ->
  forall s e, for_each body l s = Some (Raise e) -> Q e.
Proof.
  induction l as [|x l IH]; intros Hb s e H; simpl in H; [discriminate|].
  apply mbind_raise in H. destruct H as [H|(s1 & _ & H)].
  - apply (Hb x s); [now left|assumption].
  - apply (IH (fun y t e' Hy => Hb y t e' (or_intror Hy)) s1). exact H.
Qed.

(** The exceptions of the traversal itself. *)
Lemma py_iter_raise (v : json) (e : exn) : py_iter v = Raise e -> e = TypeError.
Proof. destruct v; simpl; intros H; congruence. Qed.

Lemma obj_get_default_raise (v : json) (key : string) (default : json) (e : exn) :
  obj_get_default v key default = Raise e -> e = AttributeError.
Proof. destruct v; simpl; intros H; congruence. Qed.

Lemma startswith_raise (v : json) (p : string) (e : exn) :
  startswith v p = Raise e -> e = AttributeError.
Proof. destruct v; simpl; intros H; congruence. Qed.

Ltac raise_tac :=
  repeat match goal with
         | H : ret _ = Some (Raise _) |- _ => discriminate H
         | H : lift ?r = Some (Raise _) |- _ =>
             unfold lift in H; injection H as H
         | H : py_iter _ = Raise _ |- _ => apply py_iter_raise in H; auto
         | H : obj_get_default _ _ _ = Raise _ |- _ =>
             apply obj_get_default_raise in H; auto
         | H : startswith _ _ = Raise _ |- _ => apply startswith_raise in H; auto
         | H : mbind _ _ = Some (Raise _) |- _ =>
             apply mbind_raise in H; destruct H as [H|(? & _ & H)]
         end.

Section ExtractRaise.

Variable conv : json -> nat -> nat -> nat -> result (option string).
Variable rec : list json -> xstate -> M xstate.
Hypothesis Hrec : forall l st e, rec l st = Some (Raise e) ->
  e = AttributeError \/ e = TypeError.

Lemma extract_block_raise (b : json) (st : xstate) (e : exn) :
extract_block conv rec b st = Some (Raise e) ->
e = AttributeError \/ e = TypeError.
Proof.
destruct b as [| | | | |d]; simpl; intros H; try discriminate.
raise_tac.
- unfold do_widget in H.
  destruct (eq_str (get d "type") "widget"); [|discriminate].
  destruct (truthy (get d "widgetId")); [|discriminate].
  raise_tac.
  match type of H with
  | (if ?v then _ else _) = _ => destruct v; discriminate
  end.
- unfold do_nested in H. destruct (get d "blocks"); try discriminate. eauto.
- unfold do_items in H.
  destruct (eq_str (get d "type") "list"); [|discriminate].
  raise_tac. revert H. apply (for_each_raise (fun x => x = AttributeError \/ x = TypeError)).
  intros y t e' _ Hy. destruct y; try discriminate. eauto.
- unfold do_table in H.
  destruct (eq_str (get d "type") "table"); [|discriminate].
  raise_tac. revert H. apply (for_each_raise (fun x => x = AttributeError \/ x = TypeError)).
  intros row t e' _ Hr. unfold do_row in Hr. raise_tac.
  revert Hr. apply (for_each_raise (fun x => x = AttributeError \/ x = TypeError)).
  intros cell t' e'' _ Hc. unfold do_cell in Hc. raise_tac.
  match type of Hc with
  | match ?v with _ => _ end = _ => destruct v; try discriminate
  end.
  eauto.
Qed.

End ExtractRaise.

Lemma extract_raise conv (fuel : nat) :
  forall blocks st e, extract conv fuel blocks st = Some (Raise e) ->
  e = AttributeError \/ e = TypeError.
Proof.
  induction fuel as [|f IH]; intros blocks st e H; [discriminate|].
  simpl in H. revert H. apply (for_each_raise (fun x => x = AttributeError \/ x = TypeError)).
  intros b s e' _. apply extract_block_raise. exact IH.
Qed.

(** X4: an exception of the converter never leaves the extraction.  When
    the extraction of a document stops with an exception, it is one raised
    by the traversal of a misshapen document: an [AttributeError] (a
    document, chapter, row or cell that is no dict, or a widget type tag
    that is no text) or a [TypeError] (a value that cannot be iterated). *)
Theorem extraction_raises_only_traversal_errors
        (conv : json -> nat -> nat -> nat -> result (option string))
        (doc : json) (st : xstate) (e : exn) :
  charts_run conv doc st = Some (Raise e) ->
  e = AttributeError \/ e = TypeError.
Proof.
  unfold charts_run. intros H. raise_tac.
  revert H. apply (for_each_raise (fun x => x = AttributeError \/ x = TypeError)). intros ch s e' _ Hc. raise_tac.
  unfold _extract_and_convert_widgets in Hc. raise_tac.
  exact (extract_raise _ _ _ _ _ Hc).
Qed.

Lemma extraction_raises_only_traversal_errors_witness :
  AttributeError = AttributeError \/ AttributeError = TypeError.
Proof.
  apply (extraction_raises_only_traversal_errors
           (fun _ _ _ _ => Raise (ExternalError "boom")) untyped_doc
           (mk_xstate [] [] [])).
  reflexivity.
Defined.

(** ** Each chart once, in document order *)

Lemma for_each_converted {A} (f : A -> list json)
      (body : A -> xstate -> M xstate) (l : list A) :
  (forall x s s', In x l -> body x s = Some (Ok s') ->
                  converted s' = (converted s ++ f x)%list) ->
  forall s s', for_each body l s = Some (Ok s') ->
               converted s' = (converted s ++ flat_map f l)%list.
Proof.
  induction l as [|x l IH]; intros Hb s s' H; simpl in H.
  - injection H as <-. simpl. now rewrite app_nil_r.
  - apply mbind_ok in H. destruct H as (s1 & H1 & H2).
    rewrite (IH (fun y t t' Hy => Hb y t t' (or_intror Hy)) _ _ H2).
    rewrite (Hb x s s1 (or_introl eq_refl) H1). simpl.
    now rewrite app_assoc.
Qed.

Section Collect.

Variable conv : json -> nat -> nat -> nat -> result (option string).
Variable rec : list json -> xstate -> M xstate.
Variable crec : list json -> list json.
Hypothesis Hrec : forall l st st',
  Forall wf_block l -> rec l st = Some (Ok st') ->
  converted st' = (converted st ++ crec l)%list.

Lemma do_cell_collect cell st st' :
(exists c, cell = JDict c /\
   forall l, get_default c "blocks" (JList []) = JList l -> Forall wf_block l) ->
do_cell rec cell st = Some (Ok st') ->
converted st' = (converted st ++ cell_charts crec cell)%list.
Proof.
intros (c & -> & Hc) H. unfold do_cell in H. simpl in H. unfold cell_charts.
destruct (get_default c "blocks" (JList [])) as [| | | |l|] eqn:E;
  try (injection H as <-; now rewrite app_nil_r).
apply (Hrec l); [apply Hc; reflexivity|exact H].
Qed.

Lemma do_row_collect row st st' :
(exists r cells, row = JDict r /\
   get_default r "cells" (JList []) = JList cells /\
   forall cell, In cell cells ->
     exists c, cell = JDict c /\
       forall l, get_default c "blocks" (JList []) = JList l ->
                 Forall wf_block l) ->
do_row rec row st = Some (Ok st') ->
converted st' = (converted st ++ row_charts crec row)%list.
Proof.
intros (r & cells & -> & Ec & Hc) H. unfold do_row in H. simpl in H.
rewrite Ec in H. simpl in H. unfold row_charts. rewrite Ec.
revert H. apply for_each_converted.
intros cell s s' Hin. apply do_cell_collect. now apply Hc.
Qed.

Lemma extract_block_collect b st st' :
wf_block b -> extract_block conv rec b st = Some (Ok st') ->
converted st' = (converted st ++ block_charts crec b)%list.
Proof.
intros Hwf H. destruct Hwf as [v Hv | d Hw Hn Hi Ht].
- destruct v; simpl in *; try (injection H as <-; now rewrite app_nil_r).
  exfalso. eapply Hv; eauto.
- unfold extract_block in H.
  apply mbind_ok in H. destruct H as (s1 & H1 & H).
  apply mbind_ok in H. destruct H as (s2 & H2 & H).
  apply mbind_ok in H. destruct H as (s3 & H3 & H4).
  assert (E1 : converted s1
               = (converted st ++ (if chart_widget (JDict d) then [JDict d] else []))%list).
  { apply do_widget_cases in H1. destruct H1 as [(Hc & ->)|(Hc & ->)]; rewrite Hc.
    - apply convert_one_converted.
    - now rewrite app_nil_r. }
  assert (E2 : converted s2
               = (converted s1 ++ match get d "blocks" with
                                  | JList l => crec l
                                  | _ => []
                                  end)%list).
  { unfold do_nested in H2.
    destruct (get d "blocks") as [| | | |l|] eqn:E;
      try (injection H2 as <-; now rewrite app_nil_r).
    apply (Hrec l); [now apply Hn|exact H2]. }
  assert (E3 : converted s3
               = (converted s2 ++
                  (if eq_str (get d "type") "list" then
                     match get_default d "items" (JList []) with
                     | JList items => flat_map (item_charts crec) items
                     | _ => []
                     end
                   else []))%list).
  { unfold do_items in H3.
    destruct (eq_str (get d "type") "list");
      [|injection H3 as <-; now rewrite app_nil_r].
    destruct (Hi eq_refl) as (items & Ei & Hitems). rewrite Ei in *.
    simpl in H3. revert H3. apply for_each_converted.
    intros item s s' Hin Hb. unfold item_charts.
    destruct item as [| | | |l|]; try (injection Hb as <-; now rewrite app_nil_r).
    apply (Hrec l); [now apply Hitems|exact Hb]. }
  assert (E4 : converted st'
               = (converted s3 ++
                  (if eq_str (get d "type") "table" then
                     match get_default d "rows" (JList []) with
                     | JList rows => flat_map (row_charts crec) rows
                     | _ => []
                     end
                   else []))%list).
  { unfold do_table in H4.
    destruct (eq_str (get d "type") "table");
      [|injection H4 as <-; now rewrite app_nil_r].
    destruct (Ht eq_refl) as (rows & Er & Hrows). rewrite Er in *.
    simpl in H4. revert H4. apply for_each_converted.
    intros row s s' Hin. apply do_row_collect. now apply Hrows. }
  unfold block_charts. rewrite E4, E3, E2, E1, <- !app_assoc. reflexivity.
Qed.

End Collect.

Lemma extract_collect conv (fuel : nat) : forall blocks st st',
    Forall wf_block blocks ->
    extract conv fuel blocks st = Some (Ok st') ->
    converted st' = (converted st ++ charts_of fuel blocks)%list.
Proof.
  induction fuel as [|f IH]; intros blocks st st' Hwf H; [discriminate|].
  simpl in H. simpl. revert H. apply for_each_converted.
  intros b s s' Hin. apply (extract_block_collect conv _ _ IH).
  rewrite Forall_forall in Hwf. now apply Hwf.
Qed.

(** The conversions of a pass over a well-formed document are its charts,
    each once, in document order. *)
Lemma charts_run_collect conv (doc : json) (st st' : xstate) :
  wf_document doc ->
  charts_run conv doc st = Some (Ok st') ->
  converted st' = (converted st ++ doc_charts doc)%list.
Proof.
  intros (d & chapters & -> & Ech & Hall) H.
  unfold charts_run in H. simpl in H. rewrite Ech in H. simpl in H.
  unfold doc_charts. rewrite Ech. revert H. apply for_each_converted.
  intros ch s s' Hin Hb. destruct (Hall ch Hin) as (c & blocks & -> & Eb & Hwf).
  simpl in Hb. rewrite Eb in Hb. unfold chapter_charts. rewrite Eb.
  unfold _extract_and_convert_widgets in Hb.
  change (extract conv (S (blocks_size blocks)) blocks s = Some (Ok s')) in Hb.
  exact (extract_collect conv _ _ _ _ Hwf Hb).
Qed.

(** ** Renders that succeed *)

(** Case analysis of [x <~ m ;; k] when it returns. *)
Lemma pbind_ok {Cfg A B} (m : P Cfg A) (k : A -> P Cfg B)
      (w w' : world Cfg) (b : B) :
  pbind m k w = (w', Ok b) ->
  exists w1 a, m w = (w1, Ok a) /\ k a w1 = (w', Ok b).
Proof.
  unfold pbind. destruct (m w) as [w1 [a|e]]; intros H; [eauto|discriminate].
Qed.

Lemma emitted_emitted {Cfg} (l1 l2 : list log_entry) (e1 e2 : list (event Cfg))
      (w : world Cfg) :
  emitted l2 e2 (emitted l1 e1 w) = emitted (l1 ++ l2) (e1 ++ e2) w.
Proof. unfold emitted. simpl. now rewrite !app_assoc. Qed.

Lemma pbind_assoc {Cfg A B C} (m : P Cfg A) (f : A -> P Cfg B)
      (g : B -> P Cfg C) (w : world Cfg) :
  pbind (pbind m f) g w = pbind m (fun a => pbind (f a) g) w.
Proof. unfold pbind. destruct (m w) as [w1 [a|e]]; reflexivity. Qed.

Lemma pbind_ext {Cfg A B} (m : P Cfg A) (k k' : A -> P Cfg B) (w : world Cfg) :
  (forall a w1, k a w1 = k' a w1) -> pbind m k w = pbind m k' w.
Proof. intros H. unfold pbind. destruct (m w) as [w1 [a|e]]; auto. Qed.

Ltac ok_step H w a :=
  let H1 := fresh "Hstep" in
  apply pbind_ok in H; destruct H as (w & a & H1 & H); cbv zeta in H.

Section Renders.

Variables Cfg Stats OptLog Doc : Type.
Variable optimize_for_document : json -> result Cfg.
Variable _analyze_document : json -> result Stats.
Variable _log_optimization : Stats -> Cfg -> result OptLog.
Variable save_config_text : Cfg -> OptLog -> result string.
Variable generate_pdf_css : Cfg -> result string.
Variable html_render : json -> result string.
Variable b64encode : string -> string.
Variable HTML_new : string -> result Doc.
Variable write_pdf : Doc -> pdf_options -> result string.
Variable chart_converter : option (json -> nat -> nat -> nat -> result (option string)).

Local Abbreviation layout_step' :=
  (layout_step optimize_for_document _analyze_document _log_optimization
     save_config_text).
Local Abbreviation patched_html' :=
  (patched_html optimize_for_document _analyze_document _log_optimization
     save_config_text html_render chart_converter).
Local Abbreviation embed_font_css' := (embed_font_css generate_pdf_css b64encode).
Local Abbreviation _get_pdf_html' :=
  (_get_pdf_html optimize_for_document _analyze_document _log_optimization
     save_config_text generate_pdf_css html_render b64encode chart_converter).
Local Abbreviation render_to_bytes' :=
  (render_to_bytes optimize_for_document _analyze_document _log_optimization
     save_config_text generate_pdf_css html_render b64encode HTML_new write_pdf
     chart_converter).
Local Abbreviation render_to_pdf' :=
  (render_to_pdf optimize_for_document _analyze_document _log_optimization
     save_config_text generate_pdf_css html_render b64encode HTML_new write_pdf
     chart_converter).
(** What [render_to_pdf] does with the HTML. *)
Local Abbreviation pdf_tail :=
  (fun (output_path : string) (html_content : string) =>
     pbind (call (EvHtmlNew html_content) (HTML_new html_content))
       (fun html_doc =>
          ptry (pbind (call (EvWritePdf (Some output_path))
                            (write_pdf html_doc
                               (mk_pdf_options FontConfiguration true)))
                      (fun bytes => write_target output_path bytes))
               (fun _ => pbind (plog INFO (PdfDone output_path))
                           (fun _ => pret output_path))
               (fun e => pbind (plog ERROR (PdfFailed e))
                           (fun _ => pfail e)))).

(** The second part of [_get_pdf_html], when it returns. *)
Lemma embed_font_css_ok (html h : string) (w w' : world Cfg) :
embed_font_css' html w = (w', Ok h) ->
exists font data css lg,
  _get_font_path (path_exists w) = (Ok font, lg) /\
  find_file (files w) font = Some data /\
  generate_pdf_css (opt_config w) = Ok css /\
  h = str_replace "</head>"
        (pdf_css (if String.eqb (path_suffix font) ".otf"
                  then "opentype" else "truetype")
                 (b64encode data) css
           ++ String (ascii_of_nat 10) "</head>") html 0 /\
  w' = emitted lg [EvGeneratePdfCss (opt_config w)] w.
Proof.
intros H. unfold embed_font_css in H.
ok_step H w1 font. ok_step H w2 data. ok_step H w3 cfg. ok_step H w4 css.
unfold pret in H. injection H as <- <-.
unfold get_font_path in Hstep.
destruct (_get_font_path (path_exists w)) as [r lg] eqn:Ef.
injection Hstep as <- ->.
unfold read_bytes in Hstep0. simpl in Hstep0.
destruct (find_file (files w) font) as [c|] eqn:Ed; [|discriminate].
injection Hstep0 as <- <-.
unfold get_config in Hstep1. injection Hstep1 as <- <-.
unfold call in Hstep2. injection Hstep2 as <- Hc.
exists font, c, css, lg. simpl in Hc. repeat split; auto.
rewrite emitted_emitted. simpl. now rewrite app_nil_r.
Qed.

(** The chart conversion and the patch only write to the logger and ask
for conversions. *)
Lemma convert_charts_ok (doc : json) (w w' : world Cfg) (m : svg_map_t) :
_convert_charts_to_svg chart_converter doc w = (w', Ok m) ->
exists lg cs,
  w' = emitted lg (map EvConvert cs) w /\
  (wf_document doc -> cs = expected_conversions chart_converter doc).
Proof.
unfold _convert_charts_to_svg. destruct chart_converter as [conv|].
- destruct (charts_run conv doc (mk_xstate [] [] [])) as [[st|e]|] eqn:E;
    try (unfold pfail; intros H; discriminate H).
  intros H. injection H as <- _. do 2 eexists. split; [reflexivity|].
  intros Hwf. exact (charts_run_collect conv doc _ _ Hwf E).
- unfold pbind, plog, pret. intros H. injection H as <- _.
  exists [(WARNING, ConverterMissing)], []. split; reflexivity.
Qed.

Lemma inject_step_ok (html h : string) (m : svg_map_t) (w w' : world Cfg) :
inject_step html m w = (w', Ok h) ->
(exists lg, w' = emitted lg [] w) /\
(m = [] /\ h = html \/
 m <> [] /\ exists lg, _inject_svg_into_html html m [] = (lg, Ok h)).
Proof.
unfold inject_step. destruct m as [|kv m].
- unfold pret. intros H. injection H as <- <-. split; [|now left].
  exists []. now rewrite emitted_nil.
- intros H. ok_step H w1 h1. ok_step H w2 u. unfold pret in H.
  injection H as <- <-.
  destruct (_inject_svg_into_html html (kv :: m) []) as [lg r] eqn:E.
  injection Hstep as <- ->. unfold plog in Hstep0. injection Hstep0 as <- _.
  split; [|right; split; [discriminate|eauto]].
  rewrite emitted_emitted. simpl. eauto.
Qed.

(** The first part of [_get_pdf_html] without optimization, when it
returns. *)
Lemma patched_html_plain_ok (doc : json) (h : string) (w w' : world Cfg) :
patched_html' doc false w = (w', Ok h) ->
exists lg cs,
  w' = emitted lg (map EvConvert cs ++ [EvHtmlRender doc]) w /\
  (wf_document doc -> cs = expected_conversions chart_converter doc).
Proof.
intros H. unfold patched_html, layout_step in H.
ok_step H w1 cfg. ok_step H w2 u. ok_step H w3 m. ok_step H w4 base.
unfold get_config in Hstep. injection Hstep as <- _.
unfold plog in Hstep0. injection Hstep0 as <- _.
apply convert_charts_ok in Hstep1. destruct Hstep1 as (lg & cs & -> & Hcs).
unfold call in Hstep2. injection Hstep2 as <- _.
apply inject_step_ok in H. destruct H as ((lg2 & ->) & _).
rewrite !emitted_emitted. simpl. eauto.
Qed.

(** [_get_pdf_html] without optimization, when it returns. *)
Lemma get_pdf_html_plain_ok (doc : json) (h : string) (w w' : world Cfg) :
_get_pdf_html' doc false w = (w', Ok h) ->
exists lg cs,
  w' = emitted lg (map EvConvert cs ++
                   [EvHtmlRender doc; EvGeneratePdfCss (opt_config w)]) w /\
  (wf_document doc -> cs = expected_conversions chart_converter doc).
Proof.
intros H. unfold _get_pdf_html in H. ok_step H w1 patched.
apply patched_html_plain_ok in Hstep. destruct Hstep as (lg & cs & -> & Hcs).
apply embed_font_css_ok in H.
destruct H as (font & data & css & lg2 & _ & _ & _ & _ & ->).
rewrite emitted_emitted, <- app_assoc. simpl. eauto.
Qed.

Lemma is_dir_In (w : world Cfg) (p : string) :
is_dir w p = true <-> In p (dirs w).
Proof.
unfold is_dir. rewrite existsb_exists. split.
- intros (x & Hx & E). apply String.eqb_eq in E. now subst.
- intros H. exists p. split; [exact H|apply String.eqb_refl].
Qed.

(** [mkdir], when it returns: the directory is there, and nothing else
changed. *)
Lemma mkdir1_ok (p : string) (u : unit) (w w' : world Cfg) :
mkdir1 p w = (w', Ok u) ->
ir w' = ir w /\ files w' = files w /\ stamp w' = stamp w /\
opt_config w' = opt_config w /\ wlog w' = wlog w /\ trace w' = trace w /\
(forall d, In d (dirs w') <-> In d (dirs w) \/ d = p).
Proof.
unfold mkdir1. destruct (find_file (files w) p); [discriminate|].
destruct (is_dir w p) eqn:E; intros H; injection H as <-; simpl;
  repeat (split; [reflexivity|]); intros d.
- apply is_dir_In in E. split; [auto|]. intros [Hd| ->]; auto.
- rewrite in_app_iff. simpl. split; intros [Hd|Hd]; auto.
  destruct Hd as [<-|[]]. auto.
Qed.

(** The layout step of a render with optimization, when it completes: the
collaborators it asked, in order, the configuration it installed, the
audit file and the directories it made. *)
Lemma layout_step_ok (doc : json) (cfg : Cfg) (w w1 : world Cfg) :
layout_step' doc true w = (w1, Ok cfg) ->
exists stats olog text,
  optimize_for_document doc = Ok cfg /\
  _analyze_document doc = Ok stats /\
  _log_optimization stats cfg = Ok olog /\
  save_config_text cfg olog = Ok text /\
  ir w1 = ir w /\ stamp w1 = stamp w /\ opt_config w1 = cfg /\
  files w1 = put_file (files w) (log_file_of (stamp w)) text /\
  (forall d, In d (dirs w1) <->
             In d (dirs w) \/ d = "logs" \/ d = "logs/pdf_layouts") /\
  wlog w1 = (wlog w ++ [(INFO, LayoutOptimizing)])%list /\
  trace w1 = (trace w ++ [EvOptimizeForDocument doc; EvAnalyzeDocument doc;
                          EvLogOptimization;
                          EvSaveConfig (log_file_of (stamp w))])%list.
Proof.
intros H. unfold layout_step, mkdir_logs in H.
ok_step H wa u0. ok_step H wb c. ok_step H wc u1. ok_step H wd lf.
ok_step H we stats. ok_step H wf olog. ok_step H wg u2. ok_step H wh text.
ok_step H wi u3. unfold pret in H. injection H as <- <-.
unfold plog in Hstep. injection Hstep as <- _.
unfold call in Hstep0. injection Hstep0 as <- Hopt.
ok_step Hstep1 wc1 u4.
apply mkdir1_ok in Hstep, Hstep1.
destruct Hstep as (Ei1 & Ef1 & Es1 & Ec1 & El1 & Et1 & Hd1).
destruct Hstep1 as (Ei2 & Ef2 & Es2 & Ec2 & El2 & Et2 & Hd2).
unfold log_file_now in Hstep2. injection Hstep2 as <- <-.
unfold call in Hstep3. injection Hstep3 as <- Han.
unfold call in Hstep4. injection Hstep4 as <- Hlo.
unfold set_config in Hstep5. injection Hstep5 as <- _.
unfold call in Hstep6. injection Hstep6 as <- Hsa.
unfold write_file in Hstep7. injection Hstep7 as <- _.
simpl in *. exists stats, olog, text. unfold emitted in *. simpl in *.
rewrite Ei2, Ei1, Es2, Es1, Ef2, Ef1, El2, El1, Et2, Et1.
repeat (split; [solve [auto]|]). split; [|split]; auto.
- intros d. rewrite Hd2, Hd1. tauto.
- now rewrite <- !app_assoc.
- rewrite app_nil_r, <- !app_assoc. reflexivity.
Qed.

(** A render with optimization is the layout step followed by what a
render without optimization does. *)
Lemma get_pdf_html_after_layout {B} (K : string -> P Cfg B) (doc : json)
    (w : world Cfg) :
pbind (_get_pdf_html' doc true) K w
= pbind (layout_step' doc true) (fun _ => pbind (_get_pdf_html' doc false) K) w.
Proof.
unfold _get_pdf_html at 1. unfold patched_html at 1. rewrite !pbind_assoc.
apply pbind_ext. intros c w1.
unfold _get_pdf_html, patched_html. rewrite !pbind_assoc. reflexivity.
Qed.

(** ** What a render leaves behind *)

Lemma render_to_bytes_plain_audit_free (doc : json) :
respects (audit_free None) (render_to_bytes' doc false).
Proof.
frame (@audit_free_trans Cfg None) ltac:(audit_leaf).
Qed.

Lemma render_to_pdf_plain_audit_free (doc : json) (output_path : string) :
respects (audit_free (Some output_path))
  (pbind (_get_pdf_html' doc false) (pdf_tail output_path)).
Proof.
frame (@audit_free_trans Cfg (Some output_path)) ltac:(audit_leaf).
Qed.

Lemma audit_free_footprint (out : option string) (w w1 w' : world Cfg) :
footprint None w w1 -> audit_free out w1 w' -> footprint out w w'.
Proof.
intros (F & D1 & D2) (F' & D' & _). unfold footprint. rewrite D'.
repeat split; auto.
intros p Ho Hp. rewrite F'; [|exact Ho]. apply F; [discriminate|exact Hp].
Qed.

Lemma footprint_refl (w : world Cfg) : footprint None w w.
Proof. unfold footprint. auto. Qed.

Ltac footprint_leaf :=
  unfold footprint; simpl; split; [|split];
  [ intros p _ Hp; simpl;
    first [ reflexivity | apply find_file_put_other; congruence ]
  | intros d; rewrite ?in_app_iff; simpl; tauto
  | intros d; rewrite ?in_app_iff; simpl; intuition auto ].

(** The layout step, whatever its outcome. *)
Lemma layout_step_footprint (doc : json) (w : world Cfg) :
footprint None w (fst (layout_step' doc true w)).
Proof.
unfold layout_step, mkdir_logs, pbind. unfold_steps. unfold emitted. simpl.
split_outcomes; simpl; footprint_leaf.
Qed.

(** X6: what a render leaves on disk, whatever its outcome and whatever the
flag: no file changes other than the audit file named after the time of
the call and, for [render_to_pdf], the file at [output_path]; no directory
goes away, and none is made but [logs] and [logs/pdf_layouts]. *)
Theorem render_touches_only_its_outputs
      (doc : json) (output_path : string) (optimize_layout : bool)
      (w : world Cfg) :
footprint None w (fst (render_to_bytes' doc optimize_layout w))
/\ footprint (Some output_path) w
     (fst (render_to_pdf' doc output_path optimize_layout w)).
Proof.
destruct optimize_layout; split.
- unfold render_to_bytes at 1. rewrite get_pdf_html_after_layout.
  unfold pbind at 1. pose proof (layout_step_footprint doc w) as HL.
  destruct (layout_step' doc true w) as [w1 [c|e]]; simpl in *.
  + eapply audit_free_footprint; [exact HL|].
    apply render_to_bytes_plain_audit_free.
  + exact HL.
- unfold render_to_pdf. unfold pbind at 1. unfold plog at 1.
  rewrite get_pdf_html_after_layout.
  unfold pbind at 1.
  pose proof (layout_step_footprint doc
                (emitted [(INFO, PdfStart output_path)] [] w)) as HL.
  destruct (layout_step' doc true _) as [w1 [c|e]]; simpl in HL |- *.
  + eapply audit_free_footprint; [exact HL|].
    apply render_to_pdf_plain_audit_free.
  + destruct HL as (F & D1 & D2). repeat split; auto.
    intros p _ Hp. apply F; [discriminate|exact Hp].
- eapply audit_free_footprint; [apply footprint_refl|].
  apply render_to_bytes_plain_audit_free.
- eapply audit_free_footprint; [apply footprint_refl|].
  unfold render_to_pdf. unfold pbind at 1. unfold plog at 1.
  eapply audit_free_trans;
    [|apply (render_to_pdf_plain_audit_free doc output_path)].
  apply audit_free_emitted. intros ev [].
Qed.

(** X7: when the layout step of a render with optimization completes, its
results stay, whatever becomes of the rest of the render: the optimizer
holds the configuration computed for the document, the audit file named
after the time of the call holds the text saved for that configuration and
its rationale, and the directories [logs] and [logs/pdf_layouts] exist. *)
Theorem optimized_layout_is_persisted
      (doc : json) (cfg : Cfg) (w w1 : world Cfg) :
layout_step' doc true w = (w1, Ok cfg) ->
exists stats olog text,
  optimize_for_document doc = Ok cfg /\
  _analyze_document doc = Ok stats /\
  _log_optimization stats cfg = Ok olog /\
  save_config_text cfg olog = Ok text /\
  find_file (files (fst (render_to_bytes' doc true w)))
            (log_file_of (stamp w)) = Some text /\
  opt_config (fst (render_to_bytes' doc true w)) = cfg /\
  is_dir (fst (render_to_bytes' doc true w)) "logs" = true /\
  is_dir (fst (render_to_bytes' doc true w)) "logs/pdf_layouts" = true.
Proof.
intros H.
assert (E : fst (render_to_bytes' doc true w) = fst (render_to_bytes' doc false w1)).
{ unfold render_to_bytes at 1. rewrite get_pdf_html_after_layout.
  unfold pbind at 1. rewrite H. reflexivity. }
rewrite E. clear E.
destruct (layout_step_ok _ _ _ _ H)
  as (stats & olog & text & Ho & Ha & Hl & Hs & _ & _ & Hc & Hf & Hd & _).
exists stats, olog, text. repeat (split; [assumption|]).
destruct (render_to_bytes_plain_audit_free doc w1) as (F & D & C & _).
rewrite F by discriminate. rewrite C. rewrite !is_dir_In, D, !Hd, Hf.
repeat split; auto. apply find_file_put_same.
Qed.

(** ** The calls of a render that succeeds *)

Lemma render_to_bytes_plain_ok (doc : json) (out : string) (w w' : world Cfg) :
render_to_bytes' doc false w = (w', Ok out) ->
exists cs html,
  trace w' = (trace w ++ render_calls doc cs (opt_config w) html None)%list /\
  opt_config w' = opt_config w /\
  (wf_document doc -> cs = expected_conversions chart_converter doc).
Proof.
intros H. unfold render_to_bytes in H. ok_step H w1 html. ok_step H w2 d.
apply get_pdf_html_plain_ok in Hstep. destruct Hstep as (lg & cs & -> & Hcs).
unfold call in Hstep0, H. injection Hstep0 as <- _. injection H as <- _.
exists cs, html. unfold render_calls, emitted. simpl.
split; [|split; [reflexivity|exact Hcs]]. now rewrite <- !app_assoc.
Qed.

Lemma render_to_pdf_tail_ok (doc : json) (output_path out : string)
    (w w' : world Cfg) :
pbind (_get_pdf_html' doc false) (pdf_tail output_path) w = (w', Ok out) ->
exists cs html,
  trace w' = (trace w ++ render_calls doc cs (opt_config w) html
                           (Some output_path))%list /\
  opt_config w' = opt_config w /\
  (wf_document doc -> cs = expected_conversions chart_converter doc).
Proof.
intros H. ok_step H w1 html. ok_step H w2 d.
apply get_pdf_html_plain_ok in Hstep. destruct Hstep as (lg & cs & -> & Hcs).
unfold call in Hstep0. injection Hstep0 as <- _.
unfold ptry, pbind, call, write_target, write_file in H.
destruct (write_pdf d (mk_pdf_options FontConfiguration true)) as [bytes|e].
- destruct (open_error _ output_path) as [e|].
  + unfold plog, pfail in H. discriminate H.
  + unfold plog, pret in H. injection H as <- _.
    exists cs, html. unfold render_calls, emitted. simpl.
    split; [|split; [reflexivity|exact Hcs]].
    rewrite !app_nil_r. now rewrite <- !app_assoc.
- unfold plog, pfail in H. discriminate H.
Qed.

(** X8: a render that succeeds has called its collaborators in the order
of the pipeline, each once: with optimization, the optimizer, the
analysis, the rationale and the saving of the audit file; then the chart
conversions, the HTML renderer, the CSS generator, the rasterizer's
document and its [write_pdf].  For a well-formed document the chart
conversions are the charts of the document, each once and in document
order (none when the renderer has no converter).  The CSS is generated
from the configuration the optimizer holds at the end: the one just
computed for the document with optimization, the one it held before
without. *)
Theorem successful_render_call_order
      (doc : json) (target : option string) (optimize_layout : bool)
      (out : string) (w w' : world Cfg) :
match target with
| None => render_to_bytes' doc optimize_layout w
| Some output_path => render_to_pdf' doc output_path optimize_layout w
end = (w', Ok out) ->
exists cs html,
  trace w' = (trace w
              ++ (if optimize_layout
                  then layout_calls doc (log_file_of (stamp w)) else [])
              ++ render_calls doc cs (opt_config w') html target)%list /\
  (wf_document doc -> cs = expected_conversions chart_converter doc) /\
  if optimize_layout then optimize_for_document doc = Ok (opt_config w')
  else opt_config w' = opt_config w.
Proof.
destruct optimize_layout.
- assert (HL : forall w0 w1 c,
            layout_step' doc true w0 = (w1, Ok c) ->
            stamp w0 = stamp w -> trace w0 = trace w ->
            optimize_for_document doc = Ok (opt_config w1) /\
            trace w1 = (trace w ++ layout_calls doc (log_file_of (stamp w)))%list).
  { intros w0 w1 c H Es Et. apply layout_step_ok in H.
    destruct H as (_ & _ & _ & Ho & _ & _ & _ & _ & _ & Hc & _ & _ & _ & Ht).
    rewrite Hc, Ht, Es, Et. auto. }
  destruct target as [output_path|]; intros H.
  + unfold render_to_pdf in H. ok_step H w0 u.
    unfold plog in Hstep. injection Hstep as <- _.
    rewrite get_pdf_html_after_layout in H. ok_step H w1 c.
    destruct (HL _ _ _ Hstep eq_refl (app_nil_r _)) as (Ho & Ht).
    apply render_to_pdf_tail_ok in H.
    destruct H as (cs & html & Ht' & Hc & Hcs).
    exists cs, html. rewrite Hc, Ht', Ht, <- app_assoc. auto.
  + unfold render_to_bytes in H. rewrite get_pdf_html_after_layout in H.
    ok_step H w1 c. destruct (HL _ _ _ Hstep eq_refl eq_refl) as (Ho & Ht).
    apply render_to_bytes_plain_ok in H.
    destruct H as (cs & html & Ht' & Hc & Hcs).
    exists cs, html. rewrite Hc, Ht', Ht, <- app_assoc. auto.
- destruct target as [output_path|]; intros H.
  + unfold render_to_pdf in H. ok_step H w0 u.
    unfold plog in Hstep. injection Hstep as <- _.
    apply render_to_pdf_tail_ok in H.
    destruct H as (cs & html & Ht & Hc & Hcs).
    exists cs, html. rewrite Hc, Ht. unfold emitted. simpl.
    rewrite app_nil_r. auto.
  + apply render_to_bytes_plain_ok in H.
    destruct H as (cs & html & Ht & Hc & Hcs).
    exists cs, html. rewrite Hc. auto.
Qed.

(** ** The style block and the head of the page *)

Lemma str_replace_cons (old new : string) (c : ascii) (s : string) :
str_replace old new (String c s) 0
= if String.prefix old (String c s)
  then new ++ str_replace old new s (String.length old - 1)
  else String c (str_replace old new s 0).
Proof. reflexivity. Qed.

Lemma str_replace_skip (old new a s : string) :
str_replace old new (a ++ s) (String.length a) = str_replace old new s 0.
Proof.
induction a as [|x a IH]; [reflexivity|]. exact IH.
Qed.

(** Where [old] starts nowhere, [replace] changes nothing. *)
Lemma str_replace_absent (old new s : string) :
count_occ old s = 0 -> str_replace old new s 0 = s.
Proof.
induction s as [|c s IH]; [reflexivity|].
intros H. rewrite str_replace_cons.
change (count_occ old (String c s))
  with ((if String.prefix old (String c s) then 1 else 0) + count_occ old s) in H.
destruct (String.prefix old (String c s)); [discriminate|].
now rewrite IH.
Qed.

Lemma str_replace_before (old new pre rest : string) :
count_pre old pre rest = 0 ->
str_replace old new (pre ++ rest) 0 = pre ++ str_replace old new rest 0.
Proof.
induction pre as [|c pre IH]; [reflexivity|].
intros H.
change (String c pre ++ rest) with (String c (pre ++ rest)).
rewrite str_replace_cons.
change (count_pre old (String c pre) rest)
  with ((if String.prefix old (String c (pre ++ rest)) then 1 else 0)
        + count_pre old pre rest) in H.
destruct (String.prefix old (String c (pre ++ rest))); [discriminate|].
now rewrite IH.
Qed.

Lemma str_replace_here (old new post : string) :
old <> "" ->
str_replace old new (old ++ post) 0 = new ++ str_replace old new post 0.
Proof.
destruct old as [|c o]; [contradiction|]. intros _.
change (String c o ++ post) with (String c (o ++ post)).
rewrite str_replace_cons.
change (String c (o ++ post)) with (String c o ++ post).
rewrite prefix_app.
replace (String.length (String c o) - 1) with (String.length o) by (simpl; lia).
now rewrite str_replace_skip.
Qed.

(** A text with one occurrence of [old]: the occurrence is replaced, the
rest is kept. *)
Lemma str_replace_once (old new pre post : string) :
old <> "" ->
count_occ old (pre ++ old ++ post) = 1 ->
str_replace old new (pre ++ old ++ post) 0 = pre ++ new ++ post.
Proof.
intros Hne H. rewrite count_occ_app in H.
destruct old as [|c o]; [contradiction|].
change (count_occ (String c o) (String c o ++ post))
  with ((if String.prefix (String c o) (String c o ++ post) then 1 else 0)
        + count_occ (String c o) (o ++ post)) in H.
rewrite prefix_app, count_occ_app in H.
rewrite str_replace_before by lia.
rewrite str_replace_here by discriminate.
rewrite str_replace_absent by lia. reflexivity.
Qed.

Lemma get_font_path_ext (f g : string -> bool) :
(forall p, In p font_candidates -> f p = g p) ->
_get_font_path f = _get_font_path g.
Proof.
intros H. unfold _get_font_path.
rewrite (H full_font), (H subset_ttf), (H subset_otf); simpl; auto.
Qed.

Lemma get_font_path_In (f : string -> bool) (font : string) (lg : list log_entry) :
_get_font_path f = (Ok font, lg) -> In font font_candidates.
Proof.
unfold _get_font_path, font_candidates.
destruct (f full_font); [intros H; injection H as <- _; simpl; auto|].
destruct (f subset_ttf); [intros H; injection H as <- _; simpl; auto|].
destruct (f subset_otf); [intros H; injection H as <- _; simpl; auto|].
discriminate.
Qed.

(** [_get_pdf_html], when it returns: the font is the one the files at the
start of the call select. *)
Lemma get_pdf_html_ok (doc : json) (optimize_layout : bool) (h : string)
    (w w' : world Cfg) :
_get_pdf_html' doc optimize_layout w = (w', Ok h) ->
exists w1 patched font data css,
  patched_html' doc optimize_layout w = (w1, Ok patched) /\
  fst (_get_font_path (path_exists w)) = Ok font /\
  find_file (files w) font = Some data /\
  generate_pdf_css (opt_config w1) = Ok css /\
  h = str_replace "</head>"
        (pdf_css (if String.eqb (path_suffix font) ".otf"
                  then "opentype" else "truetype")
                 (b64encode data) css
           ++ String (ascii_of_nat 10) "</head>") patched 0.
Proof.
intros H. unfold _get_pdf_html in H. ok_step H w1 patched.
apply embed_font_css_ok in H.
destruct H as (font & data & css & lg & Hf & Hd & Hc & -> & _).
pose proof (patched_html_keeps_fonts _ _ _ optimize_for_document
              _analyze_document _log_optimization save_config_text
              html_render chart_converter doc optimize_layout w) as Hk.
rewrite Hstep in Hk. simpl in Hk.
assert (Hx : forall p, In p font_candidates -> path_exists w1 p = path_exists w p).
{ intros p Hp. destruct (Hk p (font_candidates_dot p Hp)) as (E1 & E2).
  unfold path_exists. now rewrite E1, E2. }
exists w1, patched, font, data, css. split; [exact Hstep|].
rewrite <- (get_font_path_ext _ _ Hx), Hf. split; [reflexivity|].
destruct (Hk font (font_candidates_dot _ (get_font_path_In _ _ _ Hf))) as (E1 & _).
rewrite <- E1. auto.
Qed.

(** X9: the font a render embeds is the file that the precedence order
selects among the files present when the call starts (files the call
writes on its way do not change the choice); the data embedded is the
base64 encoding of its content, and the format tag follows its extension:
[truetype] for the TrueType subset, [opentype] for the full font and the
OpenType subset. *)
Theorem embedded_font_is_selected_font
      (doc : json) (optimize_layout : bool) (h : string) (w w' : world Cfg) :
_get_pdf_html' doc optimize_layout w = (w', Ok h) ->
exists font data font_format css patched,
  fst (_get_font_path (path_exists w)) = Ok font /\
  find_file (files w) font = Some data /\
  (font = subset_ttf /\ font_format = "truetype" \/
   (font = full_font \/ font = subset_otf) /\ font_format = "opentype") /\
  h = str_replace "</head>"
        (pdf_css font_format (b64encode data) css
           ++ String (ascii_of_nat 10) "</head>") patched 0.
Proof.
intros H. apply get_pdf_html_ok in H.
destruct H as (w1 & patched & font & data & css & _ & Hf & Hd & _ & ->).
exists font, data,
  (if String.eqb (path_suffix font) ".otf" then "opentype" else "truetype"),
  css, patched.
repeat split; auto.
destruct (_get_font_path (path_exists w)) as [r lg] eqn:E. simpl in Hf. subst r.
apply get_font_path_In in E.
destruct E as [<-|[<-|[<-|[]]]]; [right|left|right]; split; auto.
Qed.

(** X10: the style block goes before [</head>], and only there: on a page
with one [</head>] the result is the page with the block and a line break
put in front of the tag; on a page with no [</head>] the result is the
page as it was, without font and without print styles, and no error is
raised. *)
Theorem style_block_goes_before_head
      (doc : json) (optimize_layout : bool) (h patched : string)
      (w w1 w' : world Cfg) :
patched_html' doc optimize_layout w = (w1, Ok patched) ->
_get_pdf_html' doc optimize_layout w = (w', Ok h) ->
(count_occ "</head>" patched = 0 -> h = patched) /\
(forall pre post,
   patched = pre ++ "</head>" ++ post ->
   count_occ "</head>" patched = 1 ->
   exists font_format font_base64 optimized_css,
     h = pre ++ pdf_css font_format font_base64 optimized_css
             ++ String (ascii_of_nat 10) "</head>" ++ post).
Proof.
intros Hp H. apply get_pdf_html_ok in H.
destruct H as (w2 & patched' & font & data & css & Hp' & _ & _ & _ & ->).
rewrite Hp in Hp'. injection Hp' as <- <-. split.
- intros H0. now apply str_replace_absent.
- intros pre post -> H1. do 3 eexists.
  rewrite str_replace_once; [|discriminate|exact H1].
  rewrite sapp_assoc. reflexivity.
Qed.

End Renders.

Lemma optimized_layout_is_persisted_witness :
  exists (stats olog : unit) (text : string),
    @Ok unit tt = Ok tt /\ @Ok unit tt = Ok stats /\ @Ok unit tt = Ok olog /\
    Ok "{}" = Ok text /\
    find_file
      (files (fst (demo_render_to_bytes (fun s _ => Ok s) plain_doc true
                     world_with_font)))
      (log_file_of (stamp world_with_font)) = Some text /\
    opt_config (fst (demo_render_to_bytes (fun s _ => Ok s) plain_doc true
                       world_with_font)) = tt /\
    is_dir (fst (demo_render_to_bytes (fun s _ => Ok s) plain_doc true
                   world_with_font)) "logs" = true /\
    is_dir (fst (demo_render_to_bytes (fun s _ => Ok s) plain_doc true
                   world_with_font)) "logs/pdf_layouts" = true.
Proof.
  apply (optimized_layout_is_persisted unit unit unit string
           (fun _ => Ok tt) (fun _ => Ok tt) (fun _ _ => Ok tt)
           (fun _ _ => Ok "{}") (fun _ => Ok "") (fun _ => Ok demo_html)
           (fun s => s) (fun s => Ok s) (fun s _ => Ok s) None
           plain_doc tt world_with_font
           (fst (demo_layout_step plain_doc true world_with_font))).
  reflexivity.
Defined.

Lemma successful_render_call_order_witness :
  exists (cs : list json) (html : string),
    trace (fst (render_to_bytes (fun _ => Ok tt) (fun _ => Ok tt)
                  (fun _ _ => Ok tt) (fun _ _ => Ok "{}") (fun _ => Ok "")
                  (fun _ => Ok demo_html) (fun s => s) (fun s => Ok s)
                  (fun s _ => Ok s) (Some conv_ok) deep_doc true
                  (mk_world deep_doc [(full_font, "FONT")] [] "t" tt [] [])))
    = ([] ++ layout_calls deep_doc (log_file_of "t")
          ++ render_calls deep_doc cs tt html None)%list /\
    (wf_document deep_doc -> cs = expected_conversions (Some conv_ok) deep_doc) /\
    @Ok unit tt = Ok tt.
Proof.
  apply (successful_render_call_order unit unit unit string
           (fun _ => Ok tt) (fun _ => Ok tt) (fun _ _ => Ok tt)
           (fun _ _ => Ok "{}") (fun _ => Ok "") (fun _ => Ok demo_html)
           (fun s => s) (fun s => Ok s) (fun s _ => Ok s) (Some conv_ok)
           deep_doc None true
           (returned (render_to_bytes (fun _ => Ok tt) (fun _ => Ok tt)
                        (fun _ _ => Ok tt) (fun _ _ => Ok "{}") (fun _ => Ok "")
                        (fun _ => Ok demo_html) (fun s => s) (fun s => Ok s)
                        (fun s _ => Ok s) (Some conv_ok) deep_doc true
                        (mk_world deep_doc [(full_font, "FONT")] [] "t" tt [] [])))
           (mk_world deep_doc [(full_font, "FONT")] [] "t" tt [] [])
           (fst (render_to_bytes (fun _ => Ok tt) (fun _ => Ok tt)
                   (fun _ _ => Ok tt) (fun _ _ => Ok "{}") (fun _ => Ok "")
                   (fun _ => Ok demo_html) (fun s => s) (fun s => Ok s)
                   (fun s _ => Ok s) (Some conv_ok) deep_doc true
                   (mk_world deep_doc [(full_font, "FONT")] [] "t" tt [] [])))).
  vm_compute. reflexivity.
Defined.

Lemma embedded_font_is_selected_font_witness :
  exists font data font_format css patched,
    fst (_get_font_path (path_exists world_with_font)) = Ok font /\
    find_file (files world_with_font) font = Some data /\
    (font = subset_ttf /\ font_format = "truetype" \/
     (font = full_font \/ font = subset_otf) /\ font_format = "opentype") /\
    returned (demo_get_pdf_html plain_doc false world_with_font)
    = str_replace "</head>"
        (pdf_css font_format data css ++ String (ascii_of_nat 10) "</head>")
        patched 0.
Proof.
  apply (embedded_font_is_selected_font unit unit unit
           (fun _ => Ok tt) (fun _ => Ok tt) (fun _ _ => Ok tt)
           (fun _ _ => Ok "{}") (fun _ => Ok "") (fun _ => Ok demo_html)
           (fun s => s) None
           plain_doc false
           (returned (demo_get_pdf_html plain_doc false world_with_font))
           world_with_font
           (fst (demo_get_pdf_html plain_doc false world_with_font))).
  vm_compute. reflexivity.
Defined.

Lemma style_block_goes_before_head_witness :
  (count_occ "</head>" demo_html = 0 ->
   returned (demo_get_pdf_html plain_doc false world_with_font) = demo_html) /\
  (forall pre post,
     demo_html = pre ++ "</head>" ++ post ->
     count_occ "</head>" demo_html = 1 ->
     exists font_format font_base64 optimized_css,
       returned (demo_get_pdf_html plain_doc false world_with_font)
       = pre ++ pdf_css font_format font_base64 optimized_css
             ++ String (ascii_of_nat 10) "</head>" ++ post).
Proof.
  apply (style_block_goes_before_head unit unit unit
           (fun _ => Ok tt) (fun _ => Ok tt) (fun _ _ => Ok tt)
           (fun _ _ => Ok "{}") (fun _ => Ok "") (fun _ => Ok demo_html)
           (fun s => s) None
           plain_doc false
           (returned (demo_get_pdf_html plain_doc false world_with_font))
           demo_html world_with_font
           (fst (demo_patched_html plain_doc false world_with_font))
           (fst (demo_get_pdf_html plain_doc false world_with_font))).
  - vm_compute. reflexivity.
  - vm_compute. reflexivity.
Defined.

(** ** The patch step on pages and SVG texts of any shape *)

Lemma xml_decl_pattern_lit (s : string) :
  String.prefix "<?xml" s = false -> match_here xml_decl_pattern s "" "" = None.
Proof. intros H. unfold xml_decl_pattern. now apply match_lits_prefix. Qed.

Lemma doctype_pattern_lit (s : string) :
  String.prefix "<!DOCTYPE" s = false -> match_here doctype_pattern s "" "" = None.
Proof. intros H. unfold doctype_pattern. now apply match_lits_prefix. Qed.

Lemma config_pattern_lit (wid s : string) :
  String.prefix "<script" s = false -> match_here (config_pattern wid) s "" "" = None.
Proof. intros H. unfold config_pattern. now apply match_lits_prefix. Qed.

(** X11: the cleaning of an SVG text never fails, and a text that holds
    neither [<?xml] nor [<!DOCTYPE] is only stripped of the white space
    around it. *)
Theorem svg_cleaning_total (svg : string) :
  exists svg', clean_svg svg = Ok svg' /\
    (count_occ "<?xml" svg = 0 -> count_occ "<!DOCTYPE" svg = 0 ->
     svg' = strip svg).
Proof.
  unfold clean_svg, re_sub. simpl. eexists. split; [reflexivity|].
  intros Hx Hd.
  rewrite (sub_parts_none xml_decl_pattern "<?xml" [] xml_decl_pattern_lit
             eq_refl svg Hx).
  rewrite (sub_parts_none doctype_pattern "<!DOCTYPE" [] doctype_pattern_lit
             eq_refl svg Hd).
  reflexivity.
Qed.

Lemma clean_svg_ok (svg : string) : exists svg', clean_svg svg = Ok svg'.
Proof. unfold clean_svg, re_sub. simpl. eauto. Qed.

(** No match where the literal start of the pattern does not occur. *)
Lemma search_config_none (wid html : string) :
  count_occ "<script" html = 0 -> search (config_pattern wid) html = None.
Proof.
  induction html as [|c html IH]; intros H.
  - reflexivity.
  - change (count_occ "<script" (String c html))
      with ((if String.prefix "<script" (String c html) then 1 else 0)
            + count_occ "<script" html) in H.
    destruct (String.prefix "<script" (String c html)) eqn:E; [discriminate|].
    change (search (config_pattern wid) (String c html))
      with (match match_here (config_pattern wid) (String c html) "" "" with
            | Some (_, g) => Some g
            | None => search (config_pattern wid) html
            end).
    rewrite (config_pattern_lit wid _ E). apply IH. exact H.
Qed.

(** X12: a page that holds no [<script] is left as it is by the patch step,
    whatever the vector map (with text keys) holds: every chart gets the
    warning that its configuration script was not found, in the order of
    the map, and nothing is raised. *)
Theorem page_without_scripts_is_left_alone
        (html : string) (m : svg_map_t) (lg : list log_entry) :
  count_occ "<script" html = 0 ->
  (forall k v, In (k, v) m -> exists wid, k = JStr wid) ->
  _inject_svg_into_html html m lg
  = ((lg ++ map (fun kv => (WARNING, ConfigNotFound (fst kv))) m)%list, Ok html).
Proof.
  intros Hs Hk.
  assert (H : inject_loop m html lg
              = ((lg ++ map (fun kv => (WARNING, ConfigNotFound (fst kv))) m)%list,
                 Ok html)).
  { revert lg. induction m as [|[k v] m IH]; intros lg.
    - simpl. now rewrite app_nil_r.
    - destruct (Hk k v (or_introl eq_refl)) as (wid & ->).
      destruct (clean_svg_ok v) as (v' & Ev).
      change (inject_loop ((JStr wid, v) :: m) html lg)
        with (match inject_one (JStr wid) v html lg with
              | (lg', Ok html') => inject_loop m html' lg'
              | r => r
              end).
      unfold inject_one. rewrite Ev, (search_config_none wid html Hs).
      rewrite IH by (intros k' u Hin; apply (Hk k' u); now right).
      simpl. now rewrite <- app_assoc. }
  destruct m; [|exact H]. simpl. now rewrite app_nil_r.
Qed.

Lemma page_without_scripts_is_left_alone_witness :
  _inject_svg_into_html demo_html [(JStr "w1", demo_svg)] []
  = (([] ++ map (fun kv => (WARNING, ConfigNotFound (fst kv)))
            [(JStr "w1", demo_svg)])%list, Ok demo_html).
Proof.
  apply (page_without_scripts_is_left_alone demo_html [(JStr "w1", demo_svg)] []).
  - reflexivity.
  - intros k v [H|[]]. injection H as <- _. exists "w1". reflexivity.
Defined.

(** One chart patched into a page that holds no [<canvas]. *)
Lemma inject_one_no_canvas (k : json) (v html h : string)
      (lg lg1 : list log_entry) :
  count_occ "<canvas" html = 0 ->
  inject_one k v html lg = (lg1, Ok h) ->
  h = html /\
  exists wid, k = JStr wid /\
    lg1 = (lg ++ [match search (config_pattern wid) html with
                  | Some _ => (DEBUG, CanvasReplaced k)
                  | None => (WARNING, ConfigNotFound k)
                  end])%list.
Proof.
  intros Hc. unfold inject_one.
  destruct (clean_svg v) as [v'|e]; [|intros H; discriminate H].
  destruct k as [| | |wid| |]; try (intros H; discriminate H).
  destruct (search (config_pattern wid) html) as [cid|] eqn:Es.
  - unfold re_sub.
    destruct (parse_template (svg_container v') None) as [t|e];
      [|intros H; discriminate H].
    cbv beta iota delta [bind].
    rewrite (sub_parts_none (canvas_pattern cid) "<canvas" t
               (canvas_pattern_lit cid) eq_refl html Hc).
    intros H. injection H as <- <-. split; [reflexivity|].
    exists wid. rewrite Es. split; reflexivity.
  - intros H. injection H as <- <-. split; [reflexivity|].
    exists wid. rewrite Es. split; reflexivity.
Qed.

(** X13: a page that holds no [<canvas] comes out of the patch step as it
    went in; yet for every chart whose configuration script is found the
    log says that its canvas was replaced. *)
Theorem page_without_canvas_is_unchanged
        (html h : string) (m : svg_map_t) (lg lg' : list log_entry) :
  count_occ "<canvas" html = 0 ->
  _inject_svg_into_html html m lg = (lg', Ok h) ->
  h = html /\
  forall wid svg cid,
    In (JStr wid, svg) m ->
    search (config_pattern wid) html = Some cid ->
    In (DEBUG, CanvasReplaced (JStr wid)) lg'.
Proof.
  intros Hc H.
  assert (Hl : inject_loop m html lg = (lg', Ok h)).
  { destruct m; [|exact H]. exact H. }
  clear H. revert lg Hl. induction m as [|[k v] m IH]; intros lg Hl.
  - simpl in Hl. injection Hl as _ <-. split; [reflexivity|].
    intros wid svg cid [].
  - change (inject_loop ((k, v) :: m) html lg)
      with (match inject_one k v html lg with
            | (lg1, Ok html') => inject_loop m html' lg1
            | r => r
            end) in Hl.
    destruct (inject_one k v html lg) as [lg1 [h1|e]] eqn:E;
      [|discriminate Hl].
    destruct (inject_one_no_canvas _ _ _ _ _ _ Hc E) as (-> & wid0 & -> & ->).
    destruct (IH _ Hl) as (-> & Hrest). split; [reflexivity|].
    intros wid svg cid [Hin|Hin] Hs.
    + injection Hin as <- _.
      destruct (inject_loop_log m _ _ _ _ Hl) as (added & -> & _).
      rewrite Hs. apply in_or_app. left. apply in_or_app. right. now left.
    + exact (Hrest wid svg cid Hin Hs).
Qed.

Lemma page_without_canvas_is_unchanged_witness :
  page_post = page_post /\
  forall wid svg cid,
    In (JStr wid, svg) [(JStr "w1", demo_svg)] ->
    search (config_pattern wid) page_post = Some cid ->
    In (DEBUG, CanvasReplaced (JStr wid)) [(DEBUG, CanvasReplaced (JStr "w1"))].
Proof.
  apply (page_without_canvas_is_unchanged page_post page_post
           [(JStr "w1", demo_svg)] [] [(DEBUG, CanvasReplaced (JStr "w1"))]).
  - vm_compute. reflexivity.
  - vm_compute. reflexivity.
Defined.

(** ** Backslashes in the SVG text *)

Lemma bad_escape_letter_cases (c : ascii) :
  bad_escape_letter c = true ->
  Ascii.eqb c "g" = false /\ Ascii.eqb c "0" = false /\ is_digit c = false /\
  escape_of c = None /\ is_ascii_letter c = true.
Proof.
  unfold bad_escape_letter. intros H.
  apply andb_true_iff in H. destruct H as (H & He).
  apply andb_true_iff in H. destruct H as (Hl & Hg).
  apply negb_true_iff in Hg.
  assert (Hd : is_digit c = false).
  { unfold is_ascii_letter in Hl. unfold is_digit.
    apply andb_false_iff.
    apply orb_true_iff in Hl. destruct Hl as [Hl|Hl];
      apply andb_true_iff in Hl; destruct Hl as (H1 & H2);
      apply Nat.leb_le in H1; apply Nat.leb_le in H2;
      right; apply Nat.leb_gt; lia. }
  repeat split; auto.
  - destruct (Ascii.eqb_spec c "0") as [->|]; [discriminate Hd|reflexivity].
  - destruct (escape_of c); [discriminate He|reflexivity].
Qed.

(** The template parser stops at the first backslash when a refused letter
    follows it. *)
Lemma parse_template_bad_escape (pre rest : string) (c : ascii) :
  has_char "\" pre = false ->
  bad_escape_letter c = true ->
  parse_template (pre ++ String "\" (String c rest)) None = Raise ReError.
Proof.
  intros Hp Hc.
  destruct (bad_escape_letter_cases c Hc) as (Hg & H0 & Hd & He & Hl).
  induction pre as [|x pre IH].
  - simpl. rewrite Hg, H0, Hd, He, Hl. reflexivity.
  - simpl in Hp. apply orb_false_iff in Hp. destruct Hp as (Hx & Hp).
    simpl. rewrite Hx. simpl. rewrite (IH Hp). reflexivity.
Qed.

(** X14: an SVG whose cleaned text holds a backslash followed by a letter
    that is no escape of [re] (as in [\d] or [\s]) stops the patch step:
    once the configuration script of its chart is found, the replacement
    raises [re.error], whatever the page and the rest of the map. *)
Theorem svg_with_bad_escape_stops_patch
        (html wid svg a b cid : string) (c : ascii)
        (m : svg_map_t) (lg : list log_entry) :
  clean_svg svg = Ok (a ++ String "\" (String c b)) ->
  has_char "\" a = false ->
  bad_escape_letter c = true ->
  search (config_pattern wid) html = Some cid ->
  _inject_svg_into_html html ((JStr wid, svg) :: m) lg = (lg, Raise ReError).
Proof.
  intros Hclean Ha Hc Hs.
  change (_inject_svg_into_html html ((JStr wid, svg) :: m) lg)
    with (match inject_one (JStr wid) svg html lg with
          | (lg', Ok html') => inject_loop m html' lg'
          | r => r
          end).
  unfold inject_one. rewrite Hclean, Hs. unfold re_sub, svg_container.
  assert (E : "<div class=" ++ Q ++ "chart-svg-container" ++ Q ++ ">"
                ++ (a ++ String "\" (String c b)) ++ "</div>"
              = (("<div class=" ++ Q ++ "chart-svg-container" ++ Q ++ ">") ++ a)
                  ++ String "\" (String c (b ++ "</div>"))).
  { rewrite !sapp_assoc. reflexivity. }
  rewrite E, parse_template_bad_escape; [reflexivity| |exact Hc].
  rewrite has_char_app, Ha. reflexivity.
Qed.

Lemma svg_with_bad_escape_stops_patch_witness :
  _inject_svg_into_html page [(JStr "w1", "<svg><text>a\d</text></svg>")] []
  = ([], Raise ReError).
Proof.
  apply (svg_with_bad_escape_stops_patch page "w1" "<svg><text>a\d</text></svg>"
           "<svg><text>a" "</text></svg>" "chart-config-1" "d"%char [] []).
  - vm_compute. reflexivity.
  - reflexivity.
  - reflexivity.
  - vm_compute. reflexivity.
Defined.

(** ** Vector maps that are empty, or that hold a key that is no text *)

Lemma setitem_has_key (m : svg_map_t) (k : json) (v : string) :
  hashable k = true ->
  exists k', In (k', v) (setitem m k v) /\ key_eqb k' k = true.
Proof.
  intros Hk. induction m as [|[q u] m IH]; simpl.
  - exists k. split; [now left|now apply key_eqb_refl].
  - destruct (key_eqb q k) eqn:E.
    + exists q. split; [now left|exact E].
    + destruct IH as (k' & Hin & He). exists k'. split; [now right|exact He].
Qed.

Lemma setitem_keeps_keys (m : svg_map_t) (k k0 : json) (v v0 : string) :
  In (k0, v0) m -> exists v1, In (k0, v1) (setitem m k v).
Proof.
  induction m as [|[q u] m IH]; simpl; intros Hin; [destruct Hin|].
  destruct Hin as [Hin|Hin].
  - injection Hin as -> ->. destruct (key_eqb k0 k); eexists; left; reflexivity.
  - destruct (IH Hin) as (v1 & H1).
    destruct (key_eqb q k); [exists v0; now right|exists v1; now right].
Qed.

Lemma key_eqb_num_no_text (k : json) (n : nat) :
  key_eqb k (JNum n) = true -> forall s, k <> JStr s.
Proof. destruct k; simpl; intros H t; discriminate. Qed.

(** The patch loop cannot pass a key that is no text. *)
Lemma inject_loop_non_text (m : svg_map_t) (k : json) (v : string) :
  In (k, v) m -> (forall s, k <> JStr s) ->
  forall html lg lg' h, inject_loop m html lg <> (lg', Ok h).
Proof.
  intros Hin Hk. induction m as [|[q u] m IH]; [destruct Hin|].
  intros html lg lg' h.
  change (inject_loop ((q, u) :: m) html lg)
    with (match inject_one q u html lg with
          | (lg1, Ok html') => inject_loop m html' lg1
          | r => r
          end).
  destruct Hin as [Hin|Hin].
  - injection Hin as -> ->. unfold inject_one.
    destruct (clean_svg v) as [v'|e]; [|discriminate].
    destruct k as [| | |t| |]; try discriminate.
    exfalso. exact (Hk t eq_refl).
  - destruct (inject_one q u html lg) as [lg1 [h1|e]]; [|discriminate].
    apply (IH Hin).
Qed.

Section Charts.

Variables Cfg Stats OptLog : Type.
Variable optimize_for_document : json -> result Cfg.
Variable _analyze_document : json -> result Stats.
Variable _log_optimization : Stats -> Cfg -> result OptLog.
Variable save_config_text : Cfg -> OptLog -> result string.
Variable generate_pdf_css : Cfg -> result string.
Variable html_render : json -> result string.
Variable b64encode : string -> string.

Local Abbreviation patched_html' :=
  (patched_html optimize_for_document _analyze_document _log_optimization
     save_config_text html_render).
Local Abbreviation _get_pdf_html' :=
  (_get_pdf_html optimize_for_document _analyze_document _log_optimization
     save_config_text generate_pdf_css html_render b64encode).

(** X15: when no conversion succeeds (there is no converter, or it raises
or returns nothing for every chart of the document), the patched HTML is
the base HTML of the renderer, untouched: the charts keep the fallback
markup the renderer gave them. *)
Theorem failed_conversions_leave_base_html
      (chart_converter : option (json -> nat -> nat -> nat -> result (option string)))
      (doc : json) (optimize_layout : bool) (h : string) (w w' : world Cfg) :
(forall conv b, chart_converter = Some conv ->
   doc_occurs doc b -> chart_widget b = true -> conv_fails conv b = true) ->
patched_html' chart_converter doc optimize_layout w = (w', Ok h) ->
html_render doc = Ok h.
Proof.
intros Hfail H. unfold patched_html in H.
ok_step H w1 c. ok_step H w2 u. ok_step H w3 m. ok_step H w4 base.
unfold call in Hstep2. injection Hstep2 as <- Hr.
assert (Em : m = []).
{ unfold _convert_charts_to_svg in Hstep1.
  destruct chart_converter as [conv|].
  - destruct (charts_run conv doc (mk_xstate [] [] [])) as [[st|e]|] eqn:E;
      try (unfold pfail in Hstep1; discriminate Hstep1).
    injection Hstep1 as _ <-.
    change (svg_map st = svg_map (mk_xstate [] [] [])). symmetry. revert E.
    apply (charts_run_inv conv (fun s s' => svg_map s = svg_map s')
             (fun b => doc_occurs doc b)).
    + reflexivity.
    + intros a b0 c0. congruence.
    + intros d s Hc Ho. symmetry.
      apply (convert_one_fails conv (JDict d) (get d "widgetId") s).
      apply (Hfail conv (JDict d) eq_refl Ho Hc).
    + auto.
  - unfold pbind, plog, pret in Hstep1. injection Hstep1 as _ <-. reflexivity. }
subst m. unfold inject_step, pret in H. injection H as _ <-. exact Hr.
Qed.

(** X16: a chart whose widget id is a number cannot be rendered once its
conversion succeeds: the id becomes a key of the vector map, the patch
step cannot escape a key that is no text, and every call of
[_get_pdf_html] on a document with such a chart raises. *)
Theorem numeric_widget_id_stops_render
      (conv : json -> nat -> nat -> nat -> result (option string))
      (doc b : json) (n : nat) (svg : string) (optimize_layout : bool)
      (w : world Cfg) :
doc_occurs doc b ->
chart_widget b = true ->
widget_id_of b = JNum n ->
conv b 800 500 100 = Ok (Some svg) ->
svg <> "" ->
exists e, snd (_get_pdf_html' (Some conv) doc optimize_layout w) = Raise e.
Proof.
intros Hocc Hchart Hid Hconv Hne.
destruct (_get_pdf_html' (Some conv) doc optimize_layout w) as [w' [h|e]] eqn:H;
  [exfalso|simpl; eauto].
unfold _get_pdf_html in H. ok_step H wp patched. clear H.
unfold patched_html in Hstep.
ok_step Hstep w1 c. ok_step Hstep w2 u. ok_step Hstep w3 m. ok_step Hstep w4 base.
unfold _convert_charts_to_svg in Hstep2.
destruct (charts_run conv doc (mk_xstate [] [] [])) as [[st|e]|] eqn:E;
  try (unfold pfail in Hstep2; discriminate Hstep2).
injection Hstep2 as _ <-.
assert (HJ : exists k v, In (k, v) (svg_map st) /\ forall s, k <> JStr s).
{ revert E.
  apply (charts_run_reach conv
           (fun s => exists k v, In (k, v) (svg_map s) /\ forall t, k <> JStr t)
           (fun _ => True) b Hchart).
  - intros d s0 Eb. subst b. simpl in Hid. rewrite Hid.
    unfold convert_one. rewrite Hconv.
    destruct (String.eqb_spec svg ""); [contradiction|]. simpl.
    destruct (setitem_has_key (svg_map s0) (JNum n) svg eq_refl) as (k' & Hin & Hk).
    exists k', svg. split; [exact Hin|]. exact (key_eqb_num_no_text _ _ Hk).
  - intros d s0 _ _ (k & v & Hin & Hk). unfold convert_one.
    destruct (conv (JDict d) 800 500 100) as [[sv|]|e]; simpl; eauto.
    destruct (negb (String.eqb sv "")); simpl; eauto.
    destruct (hashable (get d "widgetId")); simpl; eauto.
    destruct (setitem_keeps_keys (svg_map s0) (get d "widgetId") k sv v Hin)
      as (v1 & H1).
    eauto.
  - auto.
  - exact Hocc. }
destruct HJ as (k & v & Hin & Hk).
unfold inject_step in Hstep.
destruct (svg_map st) as [|kv m'] eqn:Em; [destruct Hin|].
ok_step Hstep w5 h5.
destruct (_inject_svg_into_html base (kv :: m') []) as [lg r] eqn:Ei.
match goal with
| Hr : (emitted _ _ _, _) = (_, Ok _) |- _ => injection Hr as _ ->
end.
exact (inject_loop_non_text (kv :: m') k v Hin Hk base [] lg h5 Ei).
Qed.

End Charts.

Lemma failed_conversions_leave_base_html_witness :
  (fun _ : json => Ok page) deep_doc = Ok page.
Proof.
  apply (failed_conversions_leave_base_html unit unit unit
           (fun _ => Ok tt) (fun _ => Ok tt) (fun _ _ => Ok tt)
           (fun _ _ => Ok "{}") (fun _ => Ok page)
           (Some conv_raises) deep_doc false page
           (mk_world deep_doc [] [] "" tt [] [])
           (fst (patched_html (fun _ => Ok tt) (fun _ => Ok tt) (fun _ _ => Ok tt)
                   (fun _ _ => Ok "{}") (fun _ => Ok page)
                   (Some conv_raises) deep_doc false
                   (mk_world deep_doc [] [] "" tt [] [])))).
  - intros conv b E _ _. injection E as <-. reflexivity.
  - vm_compute. reflexivity.
Defined.

Lemma numeric_widget_occurs : doc_occurs numeric_doc numeric_widget.
Proof.
  exists [numeric_widget]. split.
  - eapply chapter_blocks_intro; [reflexivity|simpl; left; reflexivity|reflexivity].
  - apply occurs_here. left. reflexivity.
Defined.

Lemma numeric_widget_id_stops_render_witness :
  exists e,
    snd (_get_pdf_html (fun _ => Ok tt) (fun _ => Ok tt) (fun _ _ => Ok tt)
           (fun _ _ => Ok "{}") (fun _ => Ok "") (fun _ => Ok page) (fun s => s)
           (Some conv_ok) numeric_doc false
           (mk_world numeric_doc [(full_font, "FONT")] [] "" tt [] []))
    = Raise e.
Proof.
  apply (numeric_widget_id_stops_render unit unit unit
           (fun _ => Ok tt) (fun _ => Ok tt) (fun _ _ => Ok tt)
           (fun _ _ => Ok "{}") (fun _ => Ok "") (fun _ => Ok page) (fun s => s)
           conv_ok numeric_doc numeric_widget 7 "<svg>ok</svg>" false
           (mk_world numeric_doc [(full_font, "FONT")] [] "" tt [] [])).
  - exact numeric_widget_occurs.
  - reflexivity.
  - reflexivity.
  - reflexivity.
  - discriminate.
Defined.

(** ** Charts that share a widget id *)

Lemma convert_one_stored conv (d : list (string * json)) (k : json) (st : xstate) :
  lookup (svg_map (convert_one conv (JDict d) (get d "widgetId") st)) k
  = stored conv k (lookup (svg_map st) k) (JDict d).
Proof.
  unfold convert_one, stored. simpl.
  destruct (conv (JDict d) 800 500 100) as [[svg|]|e]; simpl; auto.
  destruct (negb (String.eqb svg "")); simpl; auto.
  destruct (key_eqb (get d "widgetId") k) eqn:E.
  - rewrite (key_eqb_hashable _ _ E). simpl. now apply lookup_setitem_hit.
  - destruct (hashable (get d "widgetId")); simpl; auto.
    now apply lookup_setitem_other.
Qed.

(** X17: the vector map is what the conversions leave in a dict, in the
    order they are made: under each key it holds the SVG of the last chart
    with that widget id whose conversion gave a text that is not empty
    (a later chart with the same id replaces an earlier one; a failed
    conversion removes nothing), and no entry if there is none. *)
Theorem vector_map_keeps_last_conversion
        (Cfg : Type)
        (conv : json -> nat -> nat -> nat -> result (option string))
        (doc : json) (w0 w' : world Cfg) (m : svg_map_t) :
  _convert_charts_to_svg (Some conv) doc w0 = (w', Ok m) ->
  exists cs : list json,
    trace w' = (trace w0 ++ map EvConvert cs)%list /\
    forall k, lookup m k = fold_left (stored conv k) cs None.
Proof.
  unfold _convert_charts_to_svg.
  destruct (charts_run conv doc (mk_xstate [] [] [])) as [[st|e]|] eqn:E;
    try (unfold pfail; intros H; discriminate H).
  intros H. injection H as <- <-. unfold emitted. simpl.
  assert (HI : exists cs,
             converted st = (converted (mk_xstate [] [] []) ++ cs)%list /\
             forall k, lookup (svg_map st) k
                       = fold_left (stored conv k) cs
                           (lookup (svg_map (mk_xstate [] [] [])) k)).
  { revert E.
    apply (charts_run_inv conv
             (fun s s' => exists cs,
                converted s' = (converted s ++ cs)%list /\
                forall k, lookup (svg_map s') k
                          = fold_left (stored conv k) cs (lookup (svg_map s) k))
             (fun _ => True)).
    - intros s. exists []. simpl. split; [now rewrite app_nil_r|reflexivity].
    - intros s1 s2 s3 (c1 & H1 & L1) (c2 & H2 & L2). exists (c1 ++ c2)%list.
      split; [rewrite H2, H1; now rewrite app_assoc|].
      intros k. now rewrite fold_left_app, L2, L1.
    - intros d s _ _. exists [JDict d]. split.
      + apply convert_one_converted.
      + intros k. simpl. apply convert_one_stored.
    - auto. }
  destruct HI as (cs & Hc & Hl). simpl in Hc, Hl. exists cs.
  rewrite Hc. split; [reflexivity|exact Hl].
Qed.

Lemma vector_map_keeps_last_conversion_witness :
  exists cs : list json,
    trace (fst (_convert_charts_to_svg (Some conv_mixed) mixed_doc
                   (mk_world mixed_doc [] [] "" tt [] [])))
      = ([] ++ map EvConvert cs)%list /\
    forall k, lookup [(JStr "good", "<svg>ok</svg>")] k
              = fold_left (stored conv_mixed k) cs None.
Proof.
  apply (vector_map_keeps_last_conversion unit conv_mixed mixed_doc
           (mk_world mixed_doc [] [] "" tt [] [])
           (fst (_convert_charts_to_svg (Some conv_mixed) mixed_doc
                   (mk_world mixed_doc [] [] "" tt [] [])))
           [(JStr "good", "<svg>ok</svg>")]).
  reflexivity.
Defined.

(** ** When the patch step cannot fail *)

Lemma svg_container_plain (svg : string) :
  has_char "\" svg = false -> has_char "\" (svg_container svg) = false.
Proof.
  intros H. unfold svg_container. rewrite !has_char_app, H. reflexivity.
Qed.

Lemma inject_one_plain (wid v v' html : string) (lg : list log_entry) :
  clean_svg v = Ok v' -> has_char "\" v' = false ->
  exists h entry,
    inject_one (JStr wid) v html lg = ((lg ++ [entry])%list, Ok h) /\
    (entry = (DEBUG, CanvasReplaced (JStr wid)) \/
     entry = (WARNING, ConfigNotFound (JStr wid))).
Proof.
  intros Hc Hp. unfold inject_one. rewrite Hc.
  destruct (search (config_pattern wid) html) as [cid|].
  - unfold re_sub. rewrite (parse_template_plain _ (svg_container_plain _ Hp)).
    cbv beta iota delta [bind]. do 2 eexists. split; [reflexivity|now left].
  - do 2 eexists. split; [reflexivity|now right].
Qed.

(** X18: the patch step cannot fail on a vector map whose keys are texts
    and whose SVG texts, once cleaned, hold no backslash: it returns a
    page, and logs one entry for each key, in the order of the map, that
    says either that the canvas was replaced or that the configuration
    script was not found. *)
Theorem patch_succeeds_on_plain_svgs
        (m : svg_map_t) (html : string) (lg : list log_entry) :
  (forall k v, In (k, v) m -> exists wid, k = JStr wid) ->
  (forall k v v', In (k, v) m -> clean_svg v = Ok v' -> has_char "\" v' = false) ->
  exists added h,
    _inject_svg_into_html html m lg = ((lg ++ added)%list, Ok h) /\
    Forall2 (fun kv entry =>
               entry = (DEBUG, CanvasReplaced (fst kv)) \/
               entry = (WARNING, ConfigNotFound (fst kv))) m added.
Proof.
  intros Hk Hp.
  assert (H : exists added h,
            inject_loop m html lg = ((lg ++ added)%list, Ok h) /\
            Forall2 (fun kv entry =>
                       entry = (DEBUG, CanvasReplaced (fst kv)) \/
                       entry = (WARNING, ConfigNotFound (fst kv))) m added).
  { revert html lg. induction m as [|[k v] m IH]; intros html lg.
    - exists [], html. simpl. rewrite app_nil_r. split; [reflexivity|constructor].
    - destruct (Hk k v (or_introl eq_refl)) as (wid & ->).
      destruct (clean_svg_ok v) as (v' & Ev).
      destruct (inject_one_plain wid v v' html lg Ev
                  (Hp _ _ _ (or_introl eq_refl) Ev)) as (h1 & entry & E1 & He).
      destruct (IH (fun k0 v0 Hin => Hk k0 v0 (or_intror Hin))
                   (fun k0 v0 v1 Hin => Hp k0 v0 v1 (or_intror Hin))
                   h1 (lg ++ [entry])%list) as (added & h & E2 & HF).
      exists (entry :: added), h. split.
      + change (inject_loop ((JStr wid, v) :: m) html lg)
          with (match inject_one (JStr wid) v html lg with
                | (lg1, Ok html') => inject_loop m html' lg1
                | r => r
                end).
        rewrite E1, E2, <- app_assoc. reflexivity.
      + constructor; [exact He|exact HF]. }
  destruct m; [|exact H].
  exists [], html. simpl. rewrite app_nil_r. split; [reflexivity|constructor].
Qed.

Lemma patch_succeeds_on_plain_svgs_witness :
  exists added h,
    _inject_svg_into_html page [(JStr "w1", demo_svg)] [] = (([] ++ added)%list, Ok h) /\
    Forall2 (fun kv entry =>
               entry = (DEBUG, CanvasReplaced (fst kv)) \/
               entry = (WARNING, ConfigNotFound (fst kv)))
            [(JStr "w1", demo_svg)] added.
Proof.
  apply (patch_succeeds_on_plain_svgs [(JStr "w1", demo_svg)] page []).
  - intros k v [H|[]]. injection H as <- _. exists "w1". reflexivity.
  - intros k v v' [H|[]] Hc. injection H as _ <-.
    change (clean_svg demo_svg) with (Ok demo_svg_clean) in Hc.
    injection Hc as <-. reflexivity.
Defined.

(** ** Which failures are logged *)

Lemma quiet_same {Cfg} (w w' : world Cfg) :
  wlog w' = wlog w -> trace w' = trace w -> quiet w w'.
Proof.
  intros Hl Ht. exists [], []. rewrite Hl, Ht, !app_nil_r. auto.
Qed.

Lemma quiet_emitted {Cfg} (lg : list log_entry) (evs : list (event Cfg))
      (w : world Cfg) :
  existsb is_pdf_failed lg = false -> existsb is_write_pdf evs = false ->
  quiet w (emitted lg evs w).
Proof. intros Hl He. exists lg, evs. auto. Qed.

Lemma quiet_trans {Cfg} (a b c : world Cfg) : quiet a b -> quiet b c -> quiet a c.
Proof.
  intros (l1 & e1 & L1 & T1 & P1 & Q1) (l2 & e2 & L2 & T2 & P2 & Q2).
  exists (l1 ++ l2)%list, (e1 ++ e2)%list.
  rewrite L2, L1, T2, T1, !app_assoc, !existsb_app, P1, P2, Q1, Q2. auto.
Qed.

Lemma outcome_entry_quiet conv (cs : list json) :
  existsb is_pdf_failed (map (outcome_entry conv) cs) = false.
Proof.
  induction cs as [|b cs IH]; [reflexivity|]. simpl. rewrite IH.
  unfold outcome_entry. destruct (conv b 800 500 100) as [[svg|]|e]; auto.
  destruct (String.eqb svg ""); auto.
  destruct (hashable (widget_id_of b)); auto.
Qed.

Lemma convert_events_quiet {Cfg} (cs : list json) :
  existsb (@is_write_pdf Cfg) (map EvConvert cs) = false.
Proof. induction cs as [|b cs IH]; [reflexivity|exact IH]. Qed.

Lemma convert_charts_quiet {Cfg}
      (chart_converter : option (json -> nat -> nat -> nat -> result (option string)))
      (doc : json) :
  respects quiet (@_convert_charts_to_svg Cfg chart_converter doc).
Proof.
  intros w. unfold _convert_charts_to_svg. destruct chart_converter as [conv|].
  - destruct (charts_run conv doc (mk_xstate [] [] [])) as [[st|e]|] eqn:E;
      try (unfold pfail; simpl; apply quiet_same; reflexivity).
    destruct (charts_run_log conv doc _ _ E) as (cs & Hc & Hl).
    simpl in Hc, Hl. simpl. rewrite Hc, Hl. apply quiet_emitted.
    + rewrite existsb_app, outcome_entry_quiet. reflexivity.
    + apply convert_events_quiet.
  - unfold pbind, plog, pret. simpl. apply quiet_emitted; reflexivity.
Qed.

Lemma inject_step_quiet {Cfg} (html : string) (m : svg_map_t) :
  respects quiet (@inject_step Cfg html m).
Proof.
  intros w. unfold inject_step. destruct m as [|kv m].
  - unfold pret. simpl. apply quiet_same; reflexivity.
  - unfold pbind, plog, pret.
    destruct (_inject_svg_into_html html (kv :: m) []) as [lg r] eqn:E.
    assert (Hq : existsb is_pdf_failed lg = false).
    { destruct (inject_loop_log (kv :: m) html [] lg r E) as (added & -> & Ha).
      simpl. destruct (existsb is_pdf_failed added) eqn:Ex; [|reflexivity].
      apply existsb_exists in Ex. destruct Ex as (x & Hx & Hp).
      destruct (Ha x Hx) as (k & v & _ & [-> | ->]); discriminate Hp. }
    destruct r as [h|e]; simpl.
    + rewrite emitted_emitted. apply quiet_emitted; [|reflexivity].
      rewrite existsb_app, Hq. reflexivity.
    + apply quiet_emitted; [exact Hq|reflexivity].
Qed.

Lemma get_font_path_quiet {Cfg} : respects quiet (@get_font_path Cfg).
Proof.
  intros w. unfold get_font_path, _get_font_path.
  destruct (path_exists w full_font); [apply quiet_emitted; reflexivity|].
  destruct (path_exists w subset_ttf); [apply quiet_emitted; reflexivity|].
  destruct (path_exists w subset_otf); apply quiet_emitted; reflexivity.
Qed.

Ltac quiet_leaf :=
  let w := fresh "w" in
  intros w; unfold_steps; simpl; split_outcomes; simpl;
  first [ apply quiet_same; reflexivity
        | apply quiet_emitted; reflexivity ].

Ltac quiet_walk :=
  repeat first
    [ progress cbv zeta
    | apply convert_charts_quiet
    | apply inject_step_quiet
    | apply get_font_path_quiet
    | apply (respects_bind _ _ _ (@quiet_trans _)); [|intros]
    | solve [quiet_leaf] ].

Section Failures.

Variables Cfg Stats OptLog Doc : Type.
Variable optimize_for_document : json -> result Cfg.
Variable _analyze_document : json -> result Stats.
Variable _log_optimization : Stats -> Cfg -> result OptLog.
Variable save_config_text : Cfg -> OptLog -> result string.
Variable generate_pdf_css : Cfg -> result string.
Variable html_render : json -> result string.
Variable b64encode : string -> string.
Variable HTML_new : string -> result Doc.
Variable write_pdf : Doc -> pdf_options -> result string.
Variable chart_converter : option (json -> nat -> nat -> nat -> result (option string)).

Local Abbreviation _get_pdf_html' :=
  (_get_pdf_html optimize_for_document _analyze_document _log_optimization
     save_config_text generate_pdf_css html_render b64encode chart_converter).
Local Abbreviation render_to_bytes' :=
  (render_to_bytes optimize_for_document _analyze_document _log_optimization
     save_config_text generate_pdf_css html_render b64encode HTML_new write_pdf
     chart_converter).
Local Abbreviation render_to_pdf' :=
  (render_to_pdf optimize_for_document _analyze_document _log_optimization
     save_config_text generate_pdf_css html_render b64encode HTML_new write_pdf
     chart_converter).

(** Everything up to the rasterizer's document. *)
Lemma before_rasterizer_quiet (doc : json) (optimize_layout : bool) :
respects quiet
  (pbind (_get_pdf_html' doc optimize_layout)
     (fun html_content => call (EvHtmlNew html_content) (HTML_new html_content))).
Proof.
unfold _get_pdf_html, patched_html, embed_font_css, layout_step, mkdir_logs.
destruct optimize_layout; quiet_walk.
Qed.

(** X19: [render_to_bytes] never logs a failure of the render: whatever
its outcome, it adds no failure entry to the log. *)
Theorem render_to_bytes_logs_no_failure
      (doc : json) (optimize_layout : bool) (w : world Cfg) :
exists lg,
  wlog (fst (render_to_bytes' doc optimize_layout w)) = (wlog w ++ lg)%list /\
  existsb is_pdf_failed lg = false.
Proof.
unfold render_to_bytes. rewrite <- pbind_assoc. unfold pbind at 1.
destruct (before_rasterizer_quiet doc optimize_layout w)
  as (lg & evs & Hl & _ & Hq & _).
destruct (pbind (_get_pdf_html' doc optimize_layout) _ w) as [w2 [d|e]];
  simpl in *; exists lg; rewrite ?app_nil_r; auto.
Qed.

(** X20: when [render_to_pdf] raises, it has logged the failure exactly
when the rasterizer was the one to fail: either [write_pdf] was called and
the log ends with the entry of the exception raised, or the failure came
before (the layout, the charts, the HTML, the font, the CSS or the
rasterizer's document) and the log holds no failure entry at all. *)
Theorem only_rasterizer_failures_are_logged
      (doc : json) (output_path : string) (optimize_layout : bool)
      (e : exn) (w w' : world Cfg) :
render_to_pdf' doc output_path optimize_layout w = (w', Raise e) ->
exists lg evs,
  wlog w' = (wlog w ++ lg)%list /\ trace w' = (trace w ++ evs)%list /\
  (existsb is_write_pdf evs = true /\
   (exists lg0, lg = (lg0 ++ [(ERROR, PdfFailed e)])%list)
   \/ existsb is_write_pdf evs = false /\ existsb is_pdf_failed lg = false).
Proof.
unfold render_to_pdf. unfold pbind at 1. unfold plog at 1.
rewrite <- pbind_assoc. unfold pbind at 1.
destruct (before_rasterizer_quiet doc optimize_layout
            (emitted [(INFO, PdfStart output_path)] [] w))
  as (lg & evs & Hl & Ht & Hq & Hr).
destruct (pbind (_get_pdf_html' doc optimize_layout) _ _) as [w2 [d|e2]];
  simpl in Hl, Ht.
- cbv zeta. unfold ptry, pbind, call, write_target, write_file.
  assert (Hfail : forall e2,
            (emitted [(ERROR, PdfFailed e2)] []
               (emitted [] [EvWritePdf (Some output_path)] w2), @Raise string e2)
            = (w', Raise e) ->
            exists lg0 evs0,
              wlog w' = (wlog w ++ lg0)%list /\ trace w' = (trace w ++ evs0)%list /\
              (existsb is_write_pdf evs0 = true /\
               (exists lg1, lg0 = (lg1 ++ [(ERROR, PdfFailed e)])%list)
               \/ existsb is_write_pdf evs0 = false /\
                  existsb is_pdf_failed lg0 = false)).
  { intros e2 H. injection H as <- <-.
    exists ((INFO, PdfStart output_path) :: lg ++ [(ERROR, PdfFailed e2)])%list,
           (evs ++ [EvWritePdf (Some output_path)])%list.
    unfold emitted. simpl. rewrite Hl, Ht, !app_nil_r, <- !app_assoc.
    split; [reflexivity|]. split; [reflexivity|]. left.
    rewrite existsb_app. simpl. rewrite orb_true_r. split; [reflexivity|].
    exists ((INFO, PdfStart output_path) :: lg). reflexivity. }
  destruct (write_pdf d (mk_pdf_options FontConfiguration true)) as [bytes|e2].
  + destruct (open_error _ output_path) as [e2|].
    * unfold plog, pfail. simpl. apply Hfail.
    * unfold plog, pret. simpl. intros H. discriminate H.
  + unfold plog, pfail. simpl. apply Hfail.
- intros H. injection H as <- <-.
  exists ((INFO, PdfStart output_path) :: lg), evs.
  rewrite Hl, Ht, app_nil_r, <- app_assoc. simpl. auto.
Qed.

End Failures.

Lemma only_rasterizer_failures_are_logged_witness :
  exists lg evs,
    wlog (fst (demo_render_to_pdf failing_write_pdf plain_doc "out.pdf" false
                 world_with_font))
    = (wlog world_with_font ++ lg)%list /\
    trace (fst (demo_render_to_pdf failing_write_pdf plain_doc "out.pdf" false
                  world_with_font))
    = (trace world_with_font ++ evs)%list /\
    (existsb is_write_pdf evs = true /\
     (exists lg0,
        lg = (lg0 ++ [(ERROR, PdfFailed (ExternalError "rasterizer failed"))])%list)
     \/ existsb is_write_pdf evs = false /\ existsb is_pdf_failed lg = false).
Proof.
  apply (only_rasterizer_failures_are_logged unit unit unit string
           (fun _ => Ok tt) (fun _ => Ok tt) (fun _ _ => Ok tt)
           (fun _ _ => Ok "{}") (fun _ => Ok "") (fun _ => Ok demo_html)
           (fun s => s) (fun s => Ok s) failing_write_pdf None
           plain_doc "out.pdf" false (ExternalError "rasterizer failed")
           world_with_font
           (fst (demo_render_to_pdf failing_write_pdf plain_doc "out.pdf" false
                   world_with_font))).
  vm_compute. reflexivity.
Defined.

(** ** A file in the place of the audit directory *)

Section Setup.

Variables Cfg Stats OptLog Doc : Type.
Variable optimize_for_document : json -> result Cfg.
Variable _analyze_document : json -> result Stats.
Variable _log_optimization : Stats -> Cfg -> result OptLog.
Variable save_config_text : Cfg -> OptLog -> result string.
Variable generate_pdf_css : Cfg -> result string.
Variable html_render : json -> result string.
Variable b64encode : string -> string.
Variable HTML_new : string -> result Doc.
Variable write_pdf : Doc -> pdf_options -> result string.
Variable chart_converter : option (json -> nat -> nat -> nat -> result (option string)).

Local Abbreviation render_to_bytes' :=
  (render_to_bytes optimize_for_document _analyze_document _log_optimization
     save_config_text generate_pdf_css html_render b64encode HTML_new write_pdf
     chart_converter).

(** X22: a regular file in the place of the directory [logs/pdf_layouts]
stops a render with optimization: [mkdir] raises [FileExistsError] after
the optimizer has computed the configuration and before anything else is
done; the configuration is not installed, no file is written, no chart is
converted and the HTML renderer is not called. *)
Theorem audit_directory_taken_stops_render
      (doc : json) (cfg : Cfg) (content : string) (w : world Cfg) :
optimize_for_document doc = Ok cfg ->
find_file (files w) "logs" = None ->
is_dir w "logs" = true ->
find_file (files w) "logs/pdf_layouts" = Some content ->
render_to_bytes' doc true w
= (emitted [(INFO, LayoutOptimizing)] [EvOptimizeForDocument doc] w,
   Raise FileExistsError).
Proof.
intros Ho Hl Hd Hf.
unfold render_to_bytes, _get_pdf_html, patched_html, layout_step, mkdir_logs.
unfold pbind, plog, call, mkdir1. simpl. rewrite Ho, Hl. unfold is_dir in *.
simpl. rewrite Hd. simpl. rewrite Hf. rewrite emitted_emitted. reflexivity.
Qed.

End Setup.

Lemma audit_directory_taken_stops_render_witness :
  demo_render_to_bytes (fun s _ => Ok s) plain_doc true
    (mk_world plain_doc [("logs/pdf_layouts", "x")] ["logs"] "" tt [] [])
  = (emitted [(INFO, LayoutOptimizing)] [EvOptimizeForDocument plain_doc]
       (mk_world plain_doc [("logs/pdf_layouts", "x")] ["logs"] "" tt [] []),
     Raise FileExistsError).
Proof.
  apply (audit_directory_taken_stops_render unit unit unit string
           (fun _ => Ok tt) (fun _ => Ok tt) (fun _ _ => Ok tt)
           (fun _ _ => Ok "{}") (fun _ => Ok "") (fun _ => Ok demo_html)
           (fun s => s) (fun s => Ok s) (fun s _ => Ok s) None
           plain_doc tt "x"
           (mk_world plain_doc [("logs/pdf_layouts", "x")] ["logs"] "" tt [] []));
    reflexivity.
Defined.
